(** * beancount_ethereum.downloader: a shallow embedding and its properties

    The module [downloader.py] fetches transaction lists and asset balances
    of Ethereum addresses from a block explorer and from a wallet API, turns
    the JSON items into records (Python dicts) and writes them to two files.

    Python values are embedded as the inductive [value]; a dict is an
    association list in insertion order; an exception is a value of [exn] and
    a computation returns an [outcome].  The network, the clock and the file
    system are explicit: replies and clock readings are read from the
    [world], requests, sleeps and file writes are appended to its trace.
    Text is ASCII: the characters of a [string] are code points below 128. *)

From Stdlib Require Import ZArith List String Ascii Bool Lia Floats QArith Qpower Qfield.
Import ListNotations.
Local Open Scope Z_scope.

(** ** Exceptions and outcomes *)

(** The exception classes that the module and the library calls it makes can
    raise.  [HTTPError] and [RequestException] are the ones of [requests];
    [InvalidOperation], [DivisionByZero] and [Overflow] are the signals that
    the default context of [decimal] traps. *)
Inductive exn : Type :=
| KeyError (key : string)
| TypeError
| ValueError
| AttributeError
| OverflowError
| InvalidOperation
| DivisionByZero
| Overflow
| HTTPError (msg : string)
| RequestException (msg : string)
| RuntimeError (msg : string).

(** [Beyond] marks a library call on an input whose behaviour this
    development does not describe (special decimals, powers with a
    fractional exponent, texts that depend on the interpreter's version). *)
Inductive outcome (A : Type) : Type :=
| Ok (a : A)
| Raise (e : exn)
| Beyond.
Arguments Ok {A} a.
Arguments Raise {A} e.
Arguments Beyond {A}.

Definition obind {A B : Type} (m : outcome A) (k : A -> outcome B) : outcome B :=
  match m with
  | Ok a => k a
  | Raise e => Raise e
  | Beyond => Beyond
  end.

Declare Scope outcome_scope.
Delimit Scope outcome_scope with outcome.
Notation "x <- m ;; k" := (obind m (fun x => k))
  (at level 100, m at next level, right associativity) : outcome_scope.
Local Open Scope outcome_scope.

(** ** Text *)

Module Text.

Definition code (c : ascii) : Z := Z.of_N (N_of_ascii c).

(** [str.isspace] on ASCII. *)
Definition is_space (c : ascii) : bool :=
  ((9 <=? code c) && (code c <=? 13)) || ((28 <=? code c) && (code c <=? 32)).

(** The blanks that [int] skips in an ASCII text (C's [isspace]). *)
Definition is_blank (c : ascii) : bool :=
  ((9 <=? code c) && (code c <=? 13)) || (code c =? 32).

Definition is_digit (c : ascii) : bool := (48 <=? code c) && (code c <=? 57).

Definition digit_value (c : ascii) : Z := code c - 48.

Definition digit_char (d : Z) : ascii := ascii_of_N (Z.to_N (d + 48)).

Definition lower_char (c : ascii) : ascii :=
  if (65 <=? code c) && (code c <=? 90) then ascii_of_N (Z.to_N (code c + 32)) else c.

(** [str.lower]. *)
Fixpoint lower (s : string) : string :=
  match s with
  | EmptyString => EmptyString
  | String c r => String (lower_char c) (lower r)
  end.

Fixpoint drop_while {A : Type} (p : A -> bool) (l : list A) : list A :=
  match l with
  | [] => []
  | x :: r => if p x then drop_while p r else l
  end.

Fixpoint span {A : Type} (p : A -> bool) (l : list A) : list A * list A :=
  match l with
  | [] => ([], [])
  | x :: r => if p x then let (a, b) := span p r in (x :: a, b) else ([], l)
  end.

(** The text without the characters of [blank] at its two ends;
    [str.strip] is [strip is_space]. *)
Definition strip (blank : ascii -> bool) (l : list ascii) : list ascii :=
  rev (drop_while blank (rev (drop_while blank l))).

(** The number written by a list of digits, most significant first. *)
Definition digits_value (l : list ascii) : Z :=
  fold_left (fun acc c => 10 * acc + digit_value c) l 0.

(** The digits of a natural number, least significant first. *)
Fixpoint le_digits (fuel : nat) (n : Z) : list ascii :=
  match fuel with
  | O => [digit_char (n mod 10)]
  | S f => if n <? 10 then [digit_char n]
           else digit_char (n mod 10) :: le_digits f (n / 10)
  end.

(** [str(n)] for an integer. *)
Definition str_of_Z (n : Z) : string :=
  let ds := rev (le_digits (Z.to_nat (Z.log2 (Z.abs n))) (Z.abs n)) in
  string_of_list_ascii (if n <? 0 then "-"%char :: ds else ds).

(** [len(str(n))] for [0 <= n]. *)
Fixpoint ndigits_aux (fuel : nat) (n : Z) : Z :=
  match fuel with
  | O => 1
  | S f => if n <? 10 then 1 else 1 + ndigits_aux f (n / 10)
  end.

Definition ndigits (n : Z) : Z := ndigits_aux (Z.to_nat (Z.log2 n)) n.

(** [key in text] for two strings: [key] occurs in [text]. *)
Fixpoint occurs (key text : string) : bool :=
  if String.prefix key text then true
  else match text with
       | EmptyString => false
       | String _ r => occurs key r
       end.

End Text.

(** ** Integers from text: [int(s)] *)

Module PyInt.
Import Text.

(** Digits that may be separated by single underscores; the first character
    is a digit and so is the last. *)
Fixpoint grouped_digits (l : list ascii) (acc : list ascii) : option (list ascii) :=
  match l with
  | [] => None
  | c :: r =>
      if is_digit c then
        match r with
        | [] => Some (rev (c :: acc))
        | "_"%char :: r' => grouped_digits r' (c :: acc)
        | _ => grouped_digits r (c :: acc)
        end
      else None
  end.

(** The interpreter refuses to convert texts of more than 4300 digits unless
    it is told otherwise, and older interpreters convert them. *)
Definition max_str_digits : Z := 4300.

(** [int(s)] in base ten: blanks around, a sign, digits. *)
Definition of_string (s : string) : outcome Z :=
  let cs := strip is_blank (list_ascii_of_string s) in
  let '(negative, body) :=
    match cs with
    | "-"%char :: r => (true, r)
    | "+"%char :: r => (false, r)
    | _ => (false, cs)
    end in
  match grouped_digits body [] with
  | None => Raise ValueError
  | Some ds =>
      if max_str_digits <? Z.of_nat (List.length ds) then Beyond
      else let n := digits_value ds in Ok (if negative then - n else n)
  end.

End PyInt.

(** ** Decimal numbers: the [decimal] module under its default context *)

Module decimal.
Import Text.

(** A finite decimal is [(-1)^sign * int * 10^exp] with [0 <= int]. *)
Record Decimal : Type := mkDecimal { dsign : bool; dint : Z; dexp : Z }.

(** The default context: 28 digits, round half even, traps on
    [InvalidOperation], [DivisionByZero] and [Overflow]. *)
Definition prec : Z := 28.
Definition Emax : Z := 999999.
Definition Emin : Z := -999999.
Definition Etiny : Z := Emin - prec + 1.
Definition Etop : Z := Emax - prec + 1.

Definition to_Q (d : Decimal) : Q :=
  (inject_Z (if dsign d then - dint d else dint d) * Qpower (10 # 1) (dexp d))%Q.

(** [kept] followed by the dropped digits [rest], which count [unit]: is the
    nearest value, ties to even, above [kept]? *)
Definition rounds_up (kept rest unit : Z) : bool :=
  (unit <? 2 * rest) || ((2 * rest =? unit) && Z.odd kept).

(** [Decimal._fix]: round to the precision and keep the exponent in range. *)
Definition _fix (self : Decimal) : outcome Decimal :=
  if dint self =? 0 then
    Ok (mkDecimal (dsign self) 0 (Z.min (Z.max (dexp self) Etiny) Emax))
  else
    let exp_min := ndigits (dint self) + dexp self - prec in
    if Etop <? exp_min then Raise Overflow
    else
      let exp_min := if exp_min <? Etiny then Etiny else exp_min in
      if dexp self <? exp_min then
        let digits := ndigits (dint self) + dexp self - exp_min in
        let '(c, e) := if digits <? 0 then (1, exp_min - 1)
                       else (dint self, dexp self) in
        let unit := 10 ^ (exp_min - e) in
        let kept := c / unit in
        let '(coeff, exp_min) :=
          if rounds_up kept (c mod unit) unit then
            if prec <? ndigits (kept + 1) then ((kept + 1) / 10, exp_min + 1)
            else (kept + 1, exp_min)
          else (kept, exp_min) in
        if Etop <? exp_min then Raise Overflow
        else Ok (mkDecimal (dsign self) coeff exp_min)
      else Ok self.

(** [while exp < ideal_exp and coeff % 10 == 0: coeff //= 10; exp += 1],
    with [n] the distance to the ideal exponent. *)
Fixpoint strip_zeros (n : nat) (coeff exp : Z) : Z * Z :=
  match n with
  | O => (coeff, exp)
  | S n' => if coeff mod 10 =? 0 then strip_zeros n' (coeff / 10) (exp + 1)
            else (coeff, exp)
  end.

(** [Decimal.__truediv__]. *)
Definition truediv (self other : Decimal) : outcome Decimal :=
  let sign := xorb (dsign self) (dsign other) in
  if dint other =? 0 then
    if dint self =? 0 then Raise InvalidOperation else Raise DivisionByZero
  else
    let '(coeff, exp) :=
      if dint self =? 0 then (0, dexp self - dexp other)
      else
        let shift := ndigits (dint other) - ndigits (dint self) + prec + 1 in
        let exp := dexp self - dexp other - shift in
        let '(coeff, remainder) :=
          if 0 <=? shift
          then ((dint self * 10 ^ shift) / dint other,
                (dint self * 10 ^ shift) mod dint other)
          else (dint self / (dint other * 10 ^ (- shift)),
                dint self mod (dint other * 10 ^ (- shift))) in
        if remainder =? 0 then
          let ideal_exp := dexp self - dexp other in
          strip_zeros (Z.to_nat (ideal_exp - exp)) coeff exp
        else
          (if coeff mod 5 =? 0 then coeff + 1 else coeff, exp)
    in _fix (mkDecimal sign coeff exp).

(** [Decimal.__mul__]. *)
Definition mul (self other : Decimal) : outcome Decimal :=
  _fix (mkDecimal (xorb (dsign self) (dsign other))
                  (dint self * dint other) (dexp self + dexp other)).

(** [10 ** other], that is [Decimal(10).__pow__(other)]; an exponent with a
    fraction gives an inexact power, which is not described here. *)
Definition rpow10 (other : Decimal) : outcome Decimal :=
  if dint other =? 0 then Ok (mkDecimal false 1 0)
  else
    let bound := 0 + (dexp other + ndigits (dint other) - 1) in
    if negb (dsign other) && (6 <=? bound) then _fix (mkDecimal false 1 (Emax + 1))
    else if dsign other && (7 <=? bound) then _fix (mkDecimal false 1 (Etiny - 1))
    else
      let '(yc, ye) :=
        strip_zeros (Z.to_nat (ndigits (dint other))) (dint other) (dexp other) in
      if ye <? 0 then Beyond
      else
        let exponent := if dsign other then - (yc * 10 ^ ye) else yc * 10 ^ ye in
        let zeros := if dsign other then 0 else Z.min exponent (prec + 1 - 1) in
        _fix (mkDecimal false (10 ^ zeros) (exponent - zeros)).

(** [Decimal(n)] for an integer. *)
Definition of_Z (n : Z) : Decimal := mkDecimal (n <? 0) (Z.abs n) 0.

Definition is_letter (l : ascii) (c : ascii) : bool :=
  Ascii.eqb (lower_char c) l.

(** [Inf], [Infinity], [NaN] and [sNaN] with a payload, in any case. *)
Definition is_special (cs : list ascii) : bool :=
  let low := map lower_char cs in
  let nan_tail (r : list ascii) := forallb is_digit r in
  match low with
  | ["i"; "n"; "f"]%char => true
  | ["i"; "n"; "f"; "i"; "n"; "i"; "t"; "y"]%char => true
  | ("n" :: "a" :: "n" :: r)%char => nan_tail r
  | ("s" :: "n" :: "a" :: "n" :: r)%char => nan_tail r
  | _ => false
  end.

Definition take_sign (cs : list ascii) : bool * list ascii :=
  match cs with
  | "-"%char :: r => (true, r)
  | "+"%char :: r => (false, r)
  | _ => (false, cs)
  end.

(** [Decimal(s)] for a string: blanks around and underscores are dropped,
    then a sign, digits with an optional point, an optional exponent.  The
    construction is exact.  The two implementations of the library differ
    on exponents of about eighteen digits. *)
Definition of_string (s : string) : outcome Decimal :=
  let cs := filter (fun c => negb (Ascii.eqb c "_"))
                   (strip is_space (list_ascii_of_string s)) in
  let '(sign, body) := take_sign cs in
  let '(intpart, rest) := span is_digit body in
  let '(fracpart, rest) :=
    match rest with
    | "."%char :: r => span is_digit r
    | _ => ([], rest)
    end in
  match intpart ++ fracpart with
  | [] => if is_special body then Beyond else Raise InvalidOperation
  | ds =>
      let coeff := digits_value ds in
      let scale := Z.of_nat (List.length fracpart) in
      match rest with
      | [] => Ok (mkDecimal sign coeff (- scale))
      | e :: r =>
          if is_letter "e" e then
            let '(eneg, ed) := take_sign r in
            match ed with
            | [] => Raise InvalidOperation
            | _ =>
                if forallb is_digit ed then
                  let ev := digits_value ed in
                  if 10 ^ 17 <=? ev then Beyond
                  else Ok (mkDecimal sign coeff ((if eneg then - ev else ev) - scale))
                else Raise InvalidOperation
            end
          else Raise InvalidOperation
      end
  end.

Fixpoint trailing_zero_bits (m : positive) : Z :=
  match m with
  | xO p => 1 + trailing_zero_bits p
  | _ => 0
  end.

(** [Decimal.from_float]: the binary fraction [n / 2^k] in lowest terms is
    [n * 5^k * 10^(-k)]. *)
Definition of_float (f : float) : outcome Decimal :=
  match Prim2SF f with
  | S754_zero s => Ok (mkDecimal s 0 0)
  | S754_finite s m e =>
      if 0 <=? e then Ok (mkDecimal s (Z.pos m * 2 ^ e) 0)
      else
        let t := Z.min (trailing_zero_bits m) (- e) in
        let k := - e - t in
        Ok (mkDecimal s (Z.pos m / 2 ^ t * 5 ^ k) (- k))
  | S754_infinity _ => Beyond
  | S754_nan => Beyond
  end.

(** ["%+d" % n] *)
Definition signed (n : Z) : list ascii :=
  (if n <? 0 then "-"%char else "+"%char) :: list_ascii_of_string (str_of_Z (Z.abs n)).

(** [Decimal.__str__], which [json.dump] calls through [default=str]: the
    digits with a point where the exponent is at most zero and the number is
    not too small, scientific notation with one digit before the point
    otherwise. *)
Definition __str__ (self : Decimal) : string :=
  let _int := list_ascii_of_string (str_of_Z (dint self)) in
  let len := Z.of_nat (List.length _int) in
  let leftdigits := dexp self + len in
  let dotplace :=
    if (dexp self <=? 0) && (-6 <? leftdigits) then leftdigits else 1 in
  let '(intpart, fracpart) :=
    if dotplace <=? 0 then
      (["0"%char], "."%char :: repeat "0"%char (Z.to_nat (- dotplace)) ++ _int)
    else if len <=? dotplace then
      (_int ++ repeat "0"%char (Z.to_nat (dotplace - len)), [])
    else
      (firstn (Z.to_nat dotplace) _int, "."%char :: skipn (Z.to_nat dotplace) _int) in
  let exp :=
    if leftdigits =? dotplace then []
    else "E"%char :: signed (leftdigits - dotplace) in
  string_of_list_ascii
    ((if dsign self then ["-"%char] else []) ++ intpart ++ fracpart ++ exp).

End decimal.
Export decimal(Decimal, mkDecimal, dsign, dint, dexp).

(** ** Python values *)

(** What [json] decoding yields (None, bool, int, float, str, list, dict),
    and the decimals that the module computes.  A dict lists its keys in
    insertion order, each key once. *)
#[warnings="-register-all"]
Inductive value : Type :=
| VNone
| VBool (b : bool)
| VInt (n : Z)
| VFloat (f : float)
| VStr (s : string)
| VList (items : list value)
| VDict (fields : list (string * value))
| VDecimal (d : Decimal).

Fixpoint lookup (key : string) (fields : list (string * value)) : option value :=
  match fields with
  | [] => None
  | (k, v) :: r => if String.eqb k key then Some v else lookup key r
  end.

(** [v[key]] for a string [key]. *)
Definition getitem (v : value) (key : string) : outcome value :=
  match v with
  | VDict fields =>
      match lookup key fields with
      | Some x => Ok x
      | None => Raise (KeyError key)
      end
  | _ => Raise TypeError
  end.

(** [key in v] for a string [key]. *)
Definition contains (key : string) (v : value) : outcome bool :=
  match v with
  | VDict fields => Ok (match lookup key fields with Some _ => true | None => false end)
  | VStr s => Ok (Text.occurs key s)
  | VList items =>
      Ok (existsb (fun x => match x with VStr s => String.eqb s key | _ => false end)
                  items)
  | _ => Raise TypeError
  end.

(** The items that [for item in v] visits. *)
Definition py_iter (v : value) : outcome (list value) :=
  match v with
  | VList items => Ok items
  | VStr s => Ok (map (fun c => VStr (String c EmptyString)) (list_ascii_of_string s))
  | VDict fields => Ok (map (fun kv => VStr (fst kv)) fields)
  | _ => Raise TypeError
  end.

(** [int(f)] for a float: towards zero. *)
Definition int_of_float (f : float) : outcome Z :=
  match Prim2SF f with
  | S754_zero _ => Ok 0
  | S754_finite s m e =>
      let a := if 0 <=? e then Z.pos m * 2 ^ e else Z.pos m / 2 ^ (- e) in
      Ok (if s then - a else a)
  | S754_infinity _ => Raise OverflowError
  | S754_nan => Raise ValueError
  end.

(** [int(v)]. *)
Definition py_int (v : value) : outcome Z :=
  match v with
  | VInt n => Ok n
  | VBool b => Ok (if b then 1 else 0)
  | VStr s => PyInt.of_string s
  | VFloat f => int_of_float f
  | VDecimal _ => Beyond
  | _ => Raise TypeError
  end.

(** [Decimal(v)]; the two implementations of the library differ on lists. *)
Definition py_Decimal (v : value) : outcome Decimal :=
  match v with
  | VStr s => decimal.of_string s
  | VInt n => Ok (decimal.of_Z n)
  | VBool b => Ok (decimal.of_Z (if b then 1 else 0))
  | VFloat f => decimal.of_float f
  | VDecimal d => Ok d
  | VList _ => Beyond
  | _ => Raise TypeError
  end.

(** [bool(v)]. *)
Definition truthy (v : value) : bool :=
  match v with
  | VNone => false
  | VBool b => b
  | VInt n => negb (n =? 0)
  | VFloat f => negb (PrimFloat.eqb f 0%float)
  | VStr s => negb (String.eqb s EmptyString)
  | VList items => match items with [] => false | _ => true end
  | VDict fields => match fields with [] => false | _ => true end
  | VDecimal d => negb (dint d =? 0)
  end.

(** [v.lower()]: only a str has the method. *)
Definition str_lower (v : value) : outcome string :=
  match v with
  | VStr s => Ok (Text.lower s)
  | _ => Raise AttributeError
  end.

(** [v == ''] *)
Definition is_empty_str (v : value) : bool :=
  match v with
  | VStr s => String.eqb s EmptyString
  | _ => false
  end.

(** [v in names] for a list of strings. *)
Definition in_strings (v : value) (names : list string) : bool :=
  match v with
  | VStr s => existsb (String.eqb s) names
  | _ => false
  end.

(** [v[:n]]; slicing a dict raises an exception whose class depends on the
    interpreter's version. *)
Definition slice_to (n : nat) (v : value) : outcome value :=
  match v with
  | VStr s => Ok (VStr (substring 0 n s))
  | VList items => Ok (VList (firstn n items))
  | VDict _ => Beyond
  | _ => Raise TypeError
  end.

(** [isinstance(v, (int, float)) and v > 0]; [bool] is a subclass of [int]. *)
Definition is_positive_number (v : value) : bool :=
  match v with
  | VInt n => 0 <? n
  | VBool b => b
  | VFloat f => PrimFloat.ltb 0%float f
  | _ => false
  end.

(** [10 ** v] for the integer ten is an int for a natural exponent and a
    float for a negative one; the float's value is left to the platform, and
    so is every power with a float exponent. *)
Inductive power : Type :=
| IntPower (n : Z)
| FloatPower.

Definition int_pow10 (v : value) : outcome power :=
  match v with
  | VInt n =>
      if 0 <=? n then Ok (IntPower (10 ^ n))
      else if - 2 ^ 1023 <? n then Ok FloatPower
      else Beyond
  | VBool b => Ok (IntPower (if b then 10 else 1))
  | VFloat _ => Beyond
  | _ => Raise TypeError
  end.

(** [d / p]: [Decimal] divides by an int and refuses a float. *)
Definition div_by_power (d : Decimal) (p : power) : outcome Decimal :=
  match p with
  | IntPower n => decimal.truediv d (decimal.of_Z n)
  | FloatPower => Raise TypeError
  end.

(** ** Dates: [datetime.strptime] with the format of the wallet API *)

Module datetime.
Import Text.

(** The text before the first character that satisfies [sep], and the text
    after that character. *)
Fixpoint split_at (sep : ascii -> bool) (l : list ascii) : option (list ascii * list ascii) :=
  match l with
  | [] => None
  | c :: r =>
      if sep c then Some ([], r)
      else match split_at sep r with
           | Some (a, b) => Some (c :: a, b)
           | None => None
           end
  end.

Definition is_char (x : ascii) (c : ascii) : bool := Ascii.eqb c x.

(** A field of one or two digits; [two] accepts the number that two digits
    write and [one] the number that a single digit writes. *)
Definition field (two one : Z -> bool) (l : list ascii) : option Z :=
  match l with
  | [a; b] =>
      if is_digit a && is_digit b && two (digits_value l) then Some (digits_value l)
      else None
  | [a] =>
      if is_digit a && one (digits_value l) then Some (digits_value l) else None
  | _ => None
  end.

Definition any (_ : Z) : bool := true.

(** [%m]: [1[0-2]|0[1-9]|[1-9]]. *)
Definition month_field : list ascii -> option Z :=
  field (fun n => (1 <=? n) && (n <=? 12)) (fun n => 1 <=? n).

(** [%d]: [3[0-1]|[1-2]\d|0[1-9]|[1-9]| [1-9]]. *)
Definition day_field (l : list ascii) : option Z :=
  match l with
  | [" "%char; b] => field any (fun n => 1 <=? n) [b]
  | _ => field (fun n => (1 <=? n) && (n <=? 31)) (fun n => 1 <=? n) l
  end.

(** [%H]: [2[0-3]|[0-1]\d|\d]. *)
Definition hour_field : list ascii -> option Z := field (fun n => n <=? 23) any.

(** [%M]: [[0-5]\d|\d]. *)
Definition minute_field : list ascii -> option Z := field (fun n => n <=? 59) any.

(** [%S]: [6[0-1]|[0-5]\d|\d]. *)
Definition second_field : list ascii -> option Z := field (fun n => n <=? 61) any.

(** [%Y]: four digits. *)
Definition year_field (l : list ascii) : option Z :=
  match l with
  | [a; b; c; d] => if forallb is_digit l then Some (digits_value l) else None
  | _ => None
  end.

(** [%f]: one to six digits, read as a fraction of a second in microseconds. *)
Definition fraction_field (l : list ascii) : option Z :=
  let n := List.length l in
  if (1 <=? n)%nat && (n <=? 6)%nat && forallb is_digit l
  then Some (digits_value l * 10 ^ (6 - Z.of_nat n))
  else None.

Definition is_leap (y : Z) : bool :=
  (y mod 4 =? 0) && (negb (y mod 100 =? 0) || (y mod 400 =? 0)).

Definition days_in_month (y m : Z) : Z :=
  if m =? 2 then (if is_leap y then 29 else 28)
  else if (m =? 4) || (m =? 6) || (m =? 9) || (m =? 11) then 30 else 31.

Definition days_before_month (y m : Z) : Z :=
  nth (Z.to_nat (m - 1)) [0; 31; 59; 90; 120; 151; 181; 212; 243; 273; 304; 334] 0
  + (if (2 <? m) && is_leap y then 1 else 0).

(** The proleptic Gregorian ordinal of a date; 1 is 0001-01-01. *)
Definition ymd2ord (y m d : Z) : Z :=
  let p := y - 1 in
  p * 365 + p / 4 - p / 100 + p / 400 + days_before_month y m + d.

Record datetime : Type := mkDatetime
  { year : Z; month : Z; day : Z; hour : Z; minute : Z; second : Z; microsecond : Z }.

Definition bind_option {A B : Type} (o : option A) (k : A -> option B) : option B :=
  match o with Some a => k a | None => None end.

(** The fields that the format ["%Y-%m-%dT%H:%M:%S.%f"] reads; letters of
    the format match in either case. *)
Definition parse_fields (l : list ascii) : option datetime :=
  bind_option (split_at (is_char "-") l) (fun '(tY, l) =>
  bind_option (split_at (is_char "-") l) (fun '(tm, l) =>
  bind_option (split_at (decimal.is_letter "t") l) (fun '(td, l) =>
  bind_option (split_at (is_char ":") l) (fun '(tH, l) =>
  bind_option (split_at (is_char ":") l) (fun '(tM, l) =>
  bind_option (split_at (is_char ".") l) (fun '(tS, tf) =>
  bind_option (year_field tY) (fun Y =>
  bind_option (month_field tm) (fun m =>
  bind_option (day_field td) (fun d =>
  bind_option (hour_field tH) (fun H =>
  bind_option (minute_field tM) (fun M =>
  bind_option (second_field tS) (fun sec =>
  bind_option (fraction_field tf) (fun f =>
  Some (mkDatetime Y m d H M sec f)))))))))))))).

(** [datetime.strptime(s, "%Y-%m-%dT%H:%M:%S.%f")]: a text that does not
    match, a date that does not exist and a leap second raise [ValueError]. *)
Definition strptime (s : string) : outcome datetime :=
  match parse_fields (list_ascii_of_string s) with
  | None => Raise ValueError
  | Some dt =>
      if (1 <=? year dt) && (day dt <=? days_in_month (year dt) (month dt))
         && (second dt <=? 59)
      then Ok dt else Raise ValueError
  end.

(** Microseconds from 1970-01-01T00:00:00 UTC to [dt] read as UTC. *)
Definition utc_microseconds (dt : datetime) : Z :=
  let days := ymd2ord (year dt) (month dt) (day dt) - ymd2ord 1970 1 1 in
  (days * 86400 + (hour dt * 3600 + minute dt * 60 + second dt)) * 10 ^ 6
  + microsecond dt.

Definition float_of_Z (n : Z) : float :=
  if n <? 0 then PrimFloat.opp (PrimFloat.of_uint63 (Uint63.of_Z (- n)))
  else PrimFloat.of_uint63 (Uint63.of_Z n).

(** [int(dt.replace(tzinfo=timezone.utc).timestamp())]: the microseconds
    divided by [10**6] as floats, then cut towards zero.  A count of [2^53]
    microseconds or more is not a float, and its quotient is not described. *)
Definition utc_timestamp (dt : datetime) : outcome Z :=
  let us := utc_microseconds dt in
  if Z.abs us <? 2 ^ 53
  then int_of_float (PrimFloat.div (float_of_Z us) (float_of_Z (10 ^ 6)))
  else Beyond.

End datetime.

(** ** The world: clock, network, files *)

(** What an HTTP request yields once [raise_for_status] and [json] have run:
    an exception of the transport, or the decoded body. *)
Inductive reply : Type :=
| Fails (e : exn)
| Json (data : value).

Inductive event : Type :=
| Slept (seconds : float)
| ExplorerGet (api_url : string) (params : list (string * string))
| WalletGet (network address api_key : string)
| MadeDirs (path : string)
| Wrote (path : string) (records : list value)
| Printed (text : string).

(** [time_time n] is what the [n]-th reading of the clock returns through
    [time.time()] and [now_seconds n] what it returns through
    [int(datetime.datetime.now().timestamp())]; [replies n] is what the
    [n]-th request yields.  [last_request_timestamp] is the attribute
    [_last_request_timestamp] of the block explorer client. *)
Record world : Type := mkWorld
  { time_time : nat -> float;
    now_seconds : nat -> Z;
    replies : nat -> reply;
    readings : nat;
    requests : nat;
    last_request_timestamp : float;
    trace : list event }.

Definition M (A : Type) : Type := world -> outcome A * world.

Definition ret {A : Type} (a : A) : M A := fun w => (Ok a, w).

Definition bind {A B : Type} (m : M A) (k : A -> M B) : M B :=
  fun w =>
    match m w with
    | (Ok a, w') => k a w'
    | (Raise e, w') => (Raise e, w')
    | (Beyond, w') => (Beyond, w')
    end.

Definition lift {A : Type} (o : outcome A) : M A := fun w => (o, w).

Definition raise {A : Type} (e : exn) : M A := fun w => (Raise e, w).

(** [try: body except Exception as err: handler err] *)
Definition try_except {A : Type} (body : M A) (handler : exn -> M A) : M A :=
  fun w =>
    match body w with
    | (Raise e, w') => handler e w'
    | r => r
    end.

Notation "x <~ m ;; k" := (bind m (fun x => k))
  (at level 100, m at next level, right associativity).

Definition read_clock {A : Type} (face : world -> nat -> A) : M A :=
  fun w =>
    (Ok (face w (readings w)),
     mkWorld (time_time w) (now_seconds w) (replies w) (S (readings w))
             (requests w) (last_request_timestamp w) (trace w)).

Definition emit (e : event) : M unit :=
  fun w =>
    (Ok tt,
     mkWorld (time_time w) (now_seconds w) (replies w) (readings w)
             (requests w) (last_request_timestamp w) (trace w ++ [e])).

(** A GET request, [raise_for_status] and [json] on its response. *)
Definition http_get (e : event) : M value :=
  fun w =>
    let w' := mkWorld (time_time w) (now_seconds w) (replies w) (readings w)
                      (S (requests w)) (last_request_timestamp w) (trace w ++ [e]) in
    match replies w (requests w) with
    | Fails err => (Raise err, w')
    | Json data => (Ok data, w')
    end.

Definition get_last_request_timestamp : M float :=
  fun w => (Ok (last_request_timestamp w), w).

Definition set_last_request_timestamp (t : float) : M unit :=
  fun w =>
    (Ok tt,
     mkWorld (time_time w) (now_seconds w) (replies w) (readings w)
             (requests w) t (trace w)).

(** [for x in items: s = body s x] *)
Fixpoint for_each {A S : Type} (body : S -> A -> outcome S) (items : list A) (s : S)
  : outcome S :=
  match items with
  | [] => Ok s
  | x :: r => s' <- body s x ;; for_each body r s'
  end.

Fixpoint for_each_M {A S : Type} (body : S -> A -> M S) (items : list A) (s : S) : M S :=
  match items with
  | [] => ret s
  | x :: r => s' <~ body s x ;; for_each_M body r s'
  end.

(** [str(err)] for a caught exception; the wording of the interpreter's own
    exceptions is not described. *)
Definition str_exn (e : exn) : outcome string :=
  match e with
  | RuntimeError m => Ok m
  | HTTPError m => Ok m
  | RequestException m => Ok m
  | KeyError k => Ok ("'" ++ k ++ "'")%string
  | _ => Beyond
  end.

(** [f"{v}"]; the text of a float and of a container is not described, and
    an int of more than 4300 digits has a text only on older interpreters. *)
Definition py_str (v : value) : outcome string :=
  match v with
  | VStr s => Ok s
  | VNone => Ok "None"%string
  | VBool b => Ok (if b then "True" else "False")%string
  | VInt n =>
      if PyInt.max_str_digits <? Text.ndigits (Z.abs n) then Beyond
      else Ok (Text.str_of_Z n)
  | _ => Beyond
  end.

(** [os.path.join(a, b)] on POSIX. *)
Definition path_join (a b : string) : string :=
  if String.prefix "/" b then b
  else if String.eqb a "" || String.eqb (substring (String.length a - 1) 1 a) "/"
       then (a ++ b)%string
       else (a ++ "/" ++ b)%string.

(** ** downloader.py *)

Local Open Scope string_scope.
Local Open Scope list_scope.

Definition DEFAULT_CURRENCY : string := "ETH".
Definition MINER : string := "0xffffffffffffffffffffffffffffffffffffffff".
Definition WEI : Z := 10 ^ 18.
Definition NO_TRANSACTIONS : list string :=
  [ "No transactions found";
    "No internal transactions found";
    "No token transfers found" ].

(** *** class BlockExplorerApi *)

(** The attributes that [__init__] sets and no method changes; the attribute
    [_last_request_timestamp] is [last_request_timestamp] of the world. *)
Record BlockExplorerApi : Type := mkBlockExplorerApi
  { api_url : string;
    api_key : string;
    delay : float;
    base_currency : string }.

Definition BlockExplorerApi_init (api_url api_key : string) (delay : float)
    (base_currency : string) : M BlockExplorerApi :=
  _ <~ set_last_request_timestamp 0%float ;;
  ret (mkBlockExplorerApi api_url api_key delay base_currency).

Definition explorer_handler {A : Type} (err : exn) : M A :=
  match err with
  | HTTPError _ =>
      text <~ lift (str_exn err) ;;
      raise (RuntimeError ("HTTP error occurred: " ++ text)%string)
  | _ =>
      text <~ lift (str_exn err) ;;
      raise (RuntimeError ("An error occurred: " ++ text)%string)
  end.

Definition _make_api_request (self : BlockExplorerApi) (address action : string)
  : M value :=
  now <~ read_clock time_time ;;
  last <~ get_last_request_timestamp ;;
  let last_request_delta := PrimFloat.sub now last in
  _ <~ (if PrimFloat.ltb last_request_delta (delay self)
        then emit (Slept (PrimFloat.sub (delay self) last_request_delta))
        else ret tt) ;;
  let params :=
    [ ("module", "account"); ("action", action); ("address", address);
      ("sort", "asc"); ("apikey", api_key self) ] in
  try_except
    (data <~ http_get (ExplorerGet (api_url self) params) ;;
     now <~ read_clock time_time ;;
     _ <~ set_last_request_timestamp now ;;
     status <~ lift (getitem data "status") ;;
     status <~ lift (py_int status) ;;
     good <~ (if (status =? 1)%Z then ret true
              else message <~ lift (getitem data "message") ;;
                   ret (in_strings message NO_TRANSACTIONS)) ;;
     if good : bool then lift (getitem data "result")
     else message <~ lift (getitem data "message") ;;
          text <~ lift (py_str message) ;;
          raise (RuntimeError ("API Error: " ++ text)%string))
    explorer_handler.

(** [Decimal(raw) / WEI] *)
Definition wei_value (raw : value) : outcome Decimal :=
  d <- py_Decimal raw ;;
  decimal.truediv d (decimal.of_Z WEI).

(** [Decimal(gasUsed) * Decimal(gasPrice) / WEI] *)
Definition fee_value (gasUsed gasPrice : value) : outcome Decimal :=
  a <- py_Decimal gasUsed ;;
  b <- py_Decimal gasPrice ;;
  p <- decimal.mul a b ;;
  decimal.truediv p (decimal.of_Z WEI).

(** [Decimal(raw) / 10 ** Decimal(tokenDecimal)] *)
Definition token_value (raw tokenDecimal : value) : outcome Decimal :=
  d <- py_Decimal raw ;;
  k <- py_Decimal tokenDecimal ;;
  p <- decimal.rpow10 k ;;
  decimal.truediv d p.

(** The body of the loop of [get_normal_transactions]. *)
Definition normal_body (self : BlockExplorerApi) (address : string)
    (transactions : list value) (item : value) : outcome (list value) :=
  isError <- getitem item "isError" ;;
  isError <- py_int isError ;;
  transactions <-
    (if (isError =? 0)%Z then
       tx_id <- getitem item "hash" ;;
       timeStamp <- getitem item "timeStamp" ;;
       time <- py_int timeStamp ;;
       from <- getitem item "from" ;;
       to <- getitem item "to" ;;
       raw <- getitem item "value" ;;
       v <- wei_value raw ;;
       Ok (transactions ++
             [VDict [ ("tx_id", tx_id); ("time", VInt time); ("from", from);
                      ("to", to); ("currency", VStr (base_currency self));
                      ("value", VDecimal v) ]])
     else Ok transactions) ;;
  from <- getitem item "from" ;;
  sender <- str_lower from ;;
  if String.eqb sender (Text.lower address) then
    tx_id <- getitem item "hash" ;;
    timeStamp <- getitem item "timeStamp" ;;
    time <- py_int timeStamp ;;
    from <- getitem item "from" ;;
    gasUsed <- getitem item "gasUsed" ;;
    gasUsed <- py_Decimal gasUsed ;;
    gasPrice <- getitem item "gasPrice" ;;
    gasPrice <- py_Decimal gasPrice ;;
    p <- decimal.mul gasUsed gasPrice ;;
    v <- decimal.truediv p (decimal.of_Z WEI) ;;
    Ok (transactions ++
          [VDict [ ("tx_id", tx_id); ("time", VInt time); ("from", from);
                   ("to", VStr MINER); ("currency", VStr (base_currency self));
                   ("value", VDecimal v) ]])
  else Ok transactions.

Definition get_normal_transactions (self : BlockExplorerApi) (address : string)
  : M (list value) :=
  result <~ _make_api_request self address "txlist" ;;
  items <~ lift (py_iter result) ;;
  lift (for_each (normal_body self address) items []).

(** The body of the loop of [get_internal_transactions]. *)
Definition internal_body (self : BlockExplorerApi)
    (transactions : list value) (item : value) : outcome (list value) :=
  has_hash <- contains "hash" item ;;
  tx_id <- (if has_hash : bool then getitem item "hash"
            else getitem item "transactionHash") ;;
  timeStamp <- getitem item "timeStamp" ;;
  time <- py_int timeStamp ;;
  from <- getitem item "from" ;;
  to <- getitem item "to" ;;
  raw <- getitem item "value" ;;
  v <- wei_value raw ;;
  Ok (transactions ++
        [VDict [ ("tx_id", tx_id); ("time", VInt time); ("from", from);
                 ("to", to); ("currency", VStr (base_currency self));
                 ("value", VDecimal v) ]]).

Definition get_internal_transactions (self : BlockExplorerApi) (address : string)
  : M (list value) :=
  result <~ _make_api_request self address "txlistinternal" ;;
  items <~ lift (py_iter result) ;;
  lift (for_each (internal_body self) items []).

(** The body of the loop of [get_erc20_transfers]. *)
Definition erc20_body (transactions : list value) (item : value)
  : outcome (list value) :=
  tokenDecimal <- getitem item "tokenDecimal" ;;
  if is_empty_str tokenDecimal then Ok transactions
  else
    tx_id <- getitem item "hash" ;;
    timeStamp <- getitem item "timeStamp" ;;
    time <- py_int timeStamp ;;
    from <- getitem item "from" ;;
    to <- getitem item "to" ;;
    currency <- getitem item "tokenSymbol" ;;
    raw <- getitem item "value" ;;
    raw <- py_Decimal raw ;;
    tokenDecimal <- getitem item "tokenDecimal" ;;
    tokenDecimal <- py_Decimal tokenDecimal ;;
    p <- decimal.rpow10 tokenDecimal ;;
    v <- decimal.truediv raw p ;;
    contract <- getitem item "contractAddress" ;;
    Ok (transactions ++
          [VDict [ ("tx_id", tx_id); ("time", VInt time); ("from", from);
                   ("to", to); ("currency", currency); ("value", VDecimal v);
                   ("contract", contract) ]]).

Definition get_erc20_transfers (self : BlockExplorerApi) (address : string)
  : M (list value) :=
  result <~ _make_api_request self address "tokentx" ;;
  items <~ lift (py_iter result) ;;
  lift (for_each erc20_body items []).

Definition get_base_currency_balances (self : BlockExplorerApi) (address : string)
  : M (list value) :=
  let balances := [] in
  time <~ read_clock now_seconds ;;
  result <~ _make_api_request self address "balance" ;;
  v <~ lift (wei_value result) ;;
  let balance :=
    VDict [ ("time", VInt time); ("address", VStr (Text.lower address));
            ("currency", VStr (base_currency self)); ("balance", VDecimal v) ] in
  ret (balances ++ [balance]).

(** *** class WalletApi *)

(** The URL is made of the network and, at each call, of the address; the
    key is the user name of the basic authentication. *)
Record WalletApi : Type := mkWalletApi
  { network : string;
    wallet_api_key : string }.

Definition wallet_handler {A : Type} (err : exn) : M A :=
  match err with
  | HTTPError _ =>
      text <~ lift (str_exn err) ;;
      raise (RuntimeError ("HTTP error occurred: " ++ text)%string)
  | _ =>
      text <~ lift (str_exn err) ;;
      raise (RuntimeError ("An error occurred: " ++ text)%string)
  end.

(** [datetime.datetime.strptime(v, ...)]: the argument must be a str. *)
Definition strptime_value (v : value) : outcome datetime.datetime :=
  match v with
  | VStr s => datetime.strptime s
  | _ => Raise TypeError
  end.

(** [[i for i in items if isinstance(i['quote'], (int, float)) and i['quote'] > 0]] *)
Fixpoint valid_assets (items : list value) : outcome (list value) :=
  match items with
  | [] => Ok []
  | i :: r =>
      quote <- getitem i "quote" ;;
      rest <- valid_assets r ;;
      Ok (if is_positive_number quote then i :: rest else rest)
  end.

(** The body of the loop of [get_asset_balances]. *)
Definition asset_body (timestamp : Z) (address : string)
    (balances : list value) (i : value) : outcome (list value) :=
  currency <- getitem i "contract_ticker_symbol" ;;
  contract <- getitem i "contract_address" ;;
  balance <- getitem i "balance" ;;
  balance <- py_Decimal balance ;;
  contract_decimals <- getitem i "contract_decimals" ;;
  p <- int_pow10 contract_decimals ;;
  balance <- div_by_power balance p ;;
  rate <- getitem i "quote_rate" ;;
  Ok (balances ++
        [VDict [ ("time", VInt timestamp); ("address", VStr (Text.lower address));
                 ("currency", currency); ("contract", contract);
                 ("balance", VDecimal balance); ("rate", rate) ]]).

(** What [get_asset_balances] does with the [data] of a response. *)
Definition asset_balances_of (address : string) (data : value) : outcome (list value) :=
  updated_at <- getitem data "updated_at" ;;
  time_str_trimmed <- slice_to 23 updated_at ;;
  dt <- strptime_value time_str_trimmed ;;
  timestamp <- datetime.utc_timestamp dt ;;
  items <- getitem data "items" ;;
  items <- py_iter items ;;
  assets <- valid_assets items ;;
  for_each (asset_body timestamp address) assets [].

Definition get_asset_balances (self : WalletApi) (address : string) : M (list value) :=
  data <~ try_except
            (r <~ http_get (WalletGet (network self) address (wallet_api_key self)) ;;
             error <~ lift (getitem r "error") ;;
             if truthy error then
               error_message <~ lift (getitem r "error_message") ;;
               text <~ lift (py_str error_message) ;;
               raise (RuntimeError ("API Error: " ++ text)%string)
             else lift (getitem r "data"))
            wallet_handler ;;
  lift (asset_balances_of address data).

(** *** download *)

(** The configuration: [account_map] maps the addresses to anything, and
    the keys that [download] reads with [get] may be absent. *)
Record config : Type := mkConfig
  { name : string;
    account_map : list (string * value);
    block_explorer_api_url : string;
    block_explorer_api_key : string;
    block_explorer_api_request_delay : option float;
    config_base_currency : option string;
    covalent_network : string;
    covalent_api_key : string }.

Definition get_default {A : Type} (o : option A) (default : A) : A :=
  match o with Some a => a | None => default end.

(** The body of the loop of [download]. *)
Definition download_body (api : BlockExplorerApi) (wallet_api : WalletApi)
    (acc : list value * list value) (address : string)
  : M (list value * list value) :=
  let '(transactions, balances) := acc in
  r <~ get_normal_transactions api address ;;
  let transactions := transactions ++ r in
  r <~ get_internal_transactions api address ;;
  let transactions := transactions ++ r in
  r <~ get_erc20_transfers api address ;;
  let transactions := transactions ++ r in
  r <~ get_asset_balances wallet_api address ;;
  let balances := balances ++ r in
  ret (transactions, balances).

(** [download] up to the end of its loop. *)
Definition fetch_all (cfg : config) : M (list value * list value) :=
  let addresses := map fst (account_map cfg) in
  api <~ BlockExplorerApi_init
           (block_explorer_api_url cfg) (block_explorer_api_key cfg)
           (get_default (block_explorer_api_request_delay cfg) 0%float)
           (get_default (config_base_currency cfg) DEFAULT_CURRENCY) ;;
  let wallet_api := mkWalletApi (covalent_network cfg) (covalent_api_key cfg) in
  for_each_M (download_body api wallet_api) addresses ([], []).

(** [Wrote path records] stands for [json.dump(records, output_file,
    indent=4, default=str)] on the file opened at [path].  The model takes
    the directory to be one that [os.makedirs] makes and the files to be ones
    that [open] opens: what it says of the writes holds of a call that
    returns, and whether a call returns once its fetches have is for the
    file system to say. *)
Definition download (cfg : config) (output_dir : string) : M unit :=
  fetched <~ fetch_all cfg ;;
  let '(transactions, balances) := fetched in
  _ <~ emit (MadeDirs output_dir) ;;
  let output_file_path := path_join output_dir (name cfg ++ ".json")%string in
  _ <~ emit (Wrote output_file_path transactions) ;;
  _ <~ emit (Printed ("Transactions saved to " ++ output_file_path)%string) ;;
  let output_file_path := path_join output_dir (name cfg ++ "-balances.json")%string in
  _ <~ emit (Wrote output_file_path balances) ;;
  emit (Printed ("Balances saved to " ++ output_file_path)%string).

(** * The vocabulary of the claims *)

(** The item has the field [key], and [int] reads [n] from it. *)
Definition int_field (item : value) (key : string) (n : Z) : Prop :=
  exists v, getitem item key = Ok v /\ py_int v = Ok n.

(** The error flag of a [txlist] item is false when [isError] reads 0. *)
Definition error_flag (item : value) (flag : bool) : Prop :=
  exists n, int_field item "isError" n /\ flag = negb (n =? 0)%Z.

(** The sender of the item equals the address, letter case apart. *)
Definition sender_is (address : string) (item : value) (same : bool) : Prop :=
  exists s, getitem item "from" = Ok (VStr s)
            /\ same = String.eqb (Text.lower s) (Text.lower address).

(** [r] is the value-transfer record of [item] in the native currency, with
    the transaction id [tx_id]: its value is the raw value over [10^18]. *)
Definition transfer_record (self : BlockExplorerApi) (item tx_id r : value) : Prop :=
  exists time from to raw v,
    int_field item "timeStamp" time /\ getitem item "from" = Ok from
    /\ getitem item "to" = Ok to /\ getitem item "value" = Ok raw
    /\ wei_value raw = Ok v
    /\ r = VDict [ ("tx_id", tx_id); ("time", VInt time); ("from", from);
                   ("to", to); ("currency", VStr (base_currency self));
                   ("value", VDecimal v) ].

(** [v] is what the decimal module gives for [Decimal(raw)] over [10^18]:
    the text or number [raw] read as a decimal, divided in the default
    context of 28 significant digits. *)
Definition wei_quotient (raw : value) (v : Decimal) : Prop :=
  exists d, py_Decimal raw = Ok d
            /\ decimal.truediv d (mkDecimal false (10 ^ 18) 0) = Ok v.

(** [v] is what the decimal module gives for
    [Decimal(gasUsed) * Decimal(gasPrice)] over [10^18]. *)
Definition fee_quotient (gasUsed gasPrice : value) (v : Decimal) : Prop :=
  exists a b p, py_Decimal gasUsed = Ok a /\ py_Decimal gasPrice = Ok b
                /\ decimal.mul a b = Ok p
                /\ decimal.truediv p (mkDecimal false (10 ^ 18) 0) = Ok v.

(** [v] is what the decimal module gives for [Decimal(raw)] over ten to the
    power [Decimal(decimals)]. *)
Definition token_quotient (raw decimals : value) (v : Decimal) : Prop :=
  exists d k p, py_Decimal raw = Ok d /\ py_Decimal decimals = Ok k
                /\ decimal.rpow10 k = Ok p /\ decimal.truediv d p = Ok v.

(** [r] is the value-transfer record of the [txlist] item: the hash, the
    time, the two ends, the native currency, and the raw value over
    [10^18]. *)
Definition value_record (self : BlockExplorerApi) (item r : value) : Prop :=
  exists tx_id time from to raw v,
    getitem item "hash" = Ok tx_id /\ int_field item "timeStamp" time
    /\ getitem item "from" = Ok from /\ getitem item "to" = Ok to
    /\ getitem item "value" = Ok raw
    /\ wei_quotient raw v
    /\ r = VDict [ ("tx_id", tx_id); ("time", VInt time); ("from", from);
                   ("to", to); ("currency", VStr (base_currency self));
                   ("value", VDecimal v) ].

(** [r] is the fee record of [item]: it goes to the miner placeholder and
    its value is [gasUsed * gasPrice] over [10^18]. *)
Definition fee_record (self : BlockExplorerApi) (item r : value) : Prop :=
  exists tx_id time from gasUsed gasPrice v,
    getitem item "hash" = Ok tx_id /\ int_field item "timeStamp" time
    /\ getitem item "from" = Ok from
    /\ getitem item "gasUsed" = Ok gasUsed /\ getitem item "gasPrice" = Ok gasPrice
    /\ fee_quotient gasUsed gasPrice v
    /\ r = VDict [ ("tx_id", tx_id); ("time", VInt time); ("from", from);
                   ("to", VStr "0xffffffffffffffffffffffffffffffffffffffff");
                   ("currency", VStr (base_currency self)); ("value", VDecimal v) ].

(** The records that a [txlist] item gives rise to. *)
Inductive txlist_emits (self : BlockExplorerApi) (address : string) (item : value)
  : list value -> Prop :=
| emits_value_then_fee : forall r1 r2,
    error_flag item false -> sender_is address item true ->
    value_record self item r1 -> fee_record self item r2 ->
    txlist_emits self address item [r1; r2]
| emits_fee_only : forall r,
    error_flag item true -> sender_is address item true ->
    fee_record self item r ->
    txlist_emits self address item [r]
| emits_nothing :
    error_flag item true -> sender_is address item false ->
    txlist_emits self address item []
| emits_value_only : forall r,
    error_flag item false -> sender_is address item false ->
    value_record self item r ->
    txlist_emits self address item [r].

(** The transaction id of an item: its field [hash] when it has one, its
    field [transactionHash] otherwise. *)
Definition tx_id_of (fields : list (string * value)) : option value :=
  match lookup "hash" fields with
  | Some h => Some h
  | None => lookup "transactionHash" fields
  end.

(** [r] is the one record of the [txlistinternal] item. *)
Definition internal_record (self : BlockExplorerApi) (item r : value) : Prop :=
  exists fields tx_id,
    item = VDict fields /\ tx_id_of fields = Some tx_id
    /\ transfer_record self item tx_id r.

(** [r] is the record of the [tokentx] item whose decimals are [decimals]:
    the currency is the token symbol, the value is the raw value over
    [10^decimals], the contract is the contract address. *)
Definition token_record (item decimals r : value) : Prop :=
  exists tx_id time from to currency raw contract v,
    getitem item "hash" = Ok tx_id /\ int_field item "timeStamp" time
    /\ getitem item "from" = Ok from /\ getitem item "to" = Ok to
    /\ getitem item "tokenSymbol" = Ok currency
    /\ getitem item "value" = Ok raw /\ token_quotient raw decimals v
    /\ getitem item "contractAddress" = Ok contract
    /\ r = VDict [ ("tx_id", tx_id); ("time", VInt time); ("from", from);
                   ("to", to); ("currency", currency); ("value", VDecimal v);
                   ("contract", contract) ].

(** The records that a [tokentx] item gives rise to: none when its field
    [tokenDecimal] is the empty string, one otherwise.  Either way the item
    has the field. *)
Inductive tokentx_emits (item : value) : list value -> Prop :=
| emits_no_token :
    getitem item "tokenDecimal" = Ok (VStr "") ->
    tokentx_emits item []
| emits_token : forall decimals r,
    getitem item "tokenDecimal" = Ok decimals -> decimals <> VStr "" ->
    token_record item decimals r ->
    tokentx_emits item [r].

(** The world once the client has read the clock, slept if it had to, and
    sent its request. *)
Definition after_request (self : BlockExplorerApi) (address action : string)
    (w : world) : world :=
  let delta := PrimFloat.sub (time_time w (readings w)) (last_request_timestamp w) in
  mkWorld (time_time w) (now_seconds w) (replies w) (S (readings w))
          (S (requests w)) (last_request_timestamp w)
          ((if PrimFloat.ltb delta (delay self)
            then trace w ++ [Slept (PrimFloat.sub (delay self) delta)]
            else trace w)
           ++ [ExplorerGet (api_url self)
                 [ ("module", "account"); ("action", action); ("address", address);
                   ("sort", "asc"); ("apikey", api_key self) ]]).

(** The world once the body of the response has been decoded. *)
Definition after_response (w1 : world) : world :=
  mkWorld (time_time w1) (now_seconds w1) (replies w1) (S (readings w1))
          (requests w1) (time_time w1 (readings w1)) (trace w1).

(** What the client does with the decoded body. *)
Definition judge (data : value) : M value :=
  status <~ lift (getitem data "status") ;;
  status <~ lift (py_int status) ;;
  good <~ (if (status =? 1)%Z then ret true
           else message <~ lift (getitem data "message") ;;
                ret (in_strings message NO_TRANSACTIONS)) ;;
  if good : bool then lift (getitem data "result")
  else message <~ lift (getitem data "message") ;;
       text <~ lift (py_str message) ;;
       raise (RuntimeError ("API Error: " ++ text)%string).

(** The message is one of the known phrases of an empty result. *)
Definition empty_result_message (message : value) : Prop :=
  exists m, message = VStr m
            /\ (m = "No transactions found"
                \/ m = "No internal transactions found"
                \/ m = "No token transfers found").

(** The quote of the item passes the filter of the assets. *)
Definition quote_passes (i : value) : bool :=
  match getitem i "quote" with
  | Ok quote => is_positive_number quote
  | _ => false
  end.

(** [r] is the balance record of the asset [i] at [timestamp]: the queried
    address in lower case, the ticker, the contract address, the balance over
    [10^decimals], the quote rate. *)
Definition asset_record (timestamp : Z) (address : string) (i r : value) : Prop :=
  exists currency contract raw decimals p balance rate,
    getitem i "contract_ticker_symbol" = Ok currency
    /\ getitem i "contract_address" = Ok contract
    /\ getitem i "balance" = Ok raw
    /\ getitem i "contract_decimals" = Ok decimals
    /\ int_pow10 decimals = Ok p
    /\ (d <- py_Decimal raw ;; div_by_power d p) = Ok balance
    /\ getitem i "quote_rate" = Ok rate
    /\ r = VDict [ ("time", VInt timestamp); ("address", VStr (Text.lower address));
                   ("currency", currency); ("contract", contract);
                   ("balance", VDecimal balance); ("rate", rate) ].

(** The world once the wallet client has sent its request. *)
Definition after_wallet_request (self : WalletApi) (address : string) (w : world)
  : world :=
  mkWorld (time_time w) (now_seconds w) (replies w) (readings w)
          (S (requests w)) (last_request_timestamp w)
          (trace w ++ [WalletGet (network self) address (wallet_api_key self)]).

(** The files written so far. *)
Definition writes (t : list event) : list event :=
  filter (fun e => match e with Wrote _ _ => true | _ => false end) t.

(** A computation that writes no file. *)
Definition quiet {A : Type} (m : M A) : Prop :=
  forall w, writes (trace (snd (m w))) = writes (trace w).

(** The four fetches that [download] makes for an address, in their order. *)
Inductive fetch : Type := Normal | Internal | Token | AssetBalance.

Definition run_fetch (api : BlockExplorerApi) (wallet_api : WalletApi)
    (address : string) (k : fetch) : M (list value) :=
  match k with
  | Normal => get_normal_transactions api address
  | Internal => get_internal_transactions api address
  | Token => get_erc20_transfers api address
  | AssetBalance => get_asset_balances wallet_api address
  end.

(** Where the records of a fetch go: the transactions or the balances. *)
Definition store (k : fetch) (r : list value) (acc : list value * list value)
  : list value * list value :=
  match k with
  | AssetBalance => (fst acc, snd acc ++ r)
  | _ => (fst acc ++ r, snd acc)
  end.

Definition schedule (addresses : list string) : list (string * fetch) :=
  flat_map (fun a => [(a, Normal); (a, Internal); (a, Token); (a, AssetBalance)])
           addresses.

Fixpoint run_schedule (api : BlockExplorerApi) (wallet_api : WalletApi)
    (l : list (string * fetch)) (acc : list value * list value)
  : M (list value * list value) :=
  match l with
  | [] => ret acc
  | (address, k) :: rest =>
      r <~ run_fetch api wallet_api address k ;;
      run_schedule api wallet_api rest (store k r acc)
  end.

Definition config_api (cfg : config) : BlockExplorerApi :=
  mkBlockExplorerApi
    (block_explorer_api_url cfg) (block_explorer_api_key cfg)
    (get_default (block_explorer_api_request_delay cfg) 0%float)
    (get_default (config_base_currency cfg) DEFAULT_CURRENCY).

Definition config_wallet_api (cfg : config) : WalletApi :=
  mkWalletApi (covalent_network cfg) (covalent_api_key cfg).

(** The world in which the loop of [download] starts: the new client has
    made no request yet. *)
Definition at_start (w : world) : world :=
  mkWorld (time_time w) (now_seconds w) (replies w) (readings w) (requests w)
          0%float (trace w).

(** The five events with which [download] ends. *)
Definition saved (cfg : config) (output_dir : string)
    (transactions balances : list value) : list event :=
  [ MadeDirs output_dir;
    Wrote (path_join output_dir (name cfg ++ ".json")%string) transactions;
    Printed ("Transactions saved to "
             ++ path_join output_dir (name cfg ++ ".json"))%string;
    Wrote (path_join output_dir (name cfg ++ "-balances.json")%string) balances;
    Printed ("Balances saved to "
             ++ path_join output_dir (name cfg ++ "-balances.json"))%string ].

(** The sleep, if any, that the client takes before a request that it makes
    at [now] when the last response was decoded at [last]. *)
Definition pause (self : BlockExplorerApi) (now last : float) : list event :=
  let last_request_delta := PrimFloat.sub now last in
  if PrimFloat.ltb last_request_delta (delay self)
  then [Slept (PrimFloat.sub (delay self) last_request_delta)]
  else [].

(** The request of the block explorer client for an action on an address. *)
Definition explorer_request (self : BlockExplorerApi) (address action : string)
  : event :=
  ExplorerGet (api_url self)
    [ ("module", "account"); ("action", action); ("address", address);
      ("sort", "asc"); ("apikey", api_key self) ].

(** The request of each of the four fetches. *)
Definition request_of (api : BlockExplorerApi) (wallet_api : WalletApi)
    (address : string) (k : fetch) : event :=
  match k with
  | Normal => explorer_request api address "txlist"
  | Internal => explorer_request api address "txlistinternal"
  | Token => explorer_request api address "tokentx"
  | AssetBalance => WalletGet (network wallet_api) address (wallet_api_key wallet_api)
  end.

(** The requests sent so far. *)
Definition gets (t : list event) : list event :=
  filter (fun e => match e with
                   | ExplorerGet _ _ | WalletGet _ _ _ => true
                   | _ => false
                   end) t.

(** The requests that [download] has to make, in their order. *)
Definition planned (cfg : config) : list event :=
  map (fun ak => request_of (config_api cfg) (config_wallet_api cfg) (fst ak) (snd ak))
      (schedule (map fst (account_map cfg))).

(** [e] is what [f] raises on the first item on which it does not return. *)
Definition first_failure {A B : Type} (f : A -> outcome B) (items : list A) (e : exn)
  : Prop :=
  exists pre x post,
    items = pre ++ x :: post
    /\ Forall (fun i => exists g, f i = Ok g) pre
    /\ f x = Raise e.

(** An exception that is no [HTTPError]. *)
Definition not_HTTPError (e : exn) : Prop :=
  match e with HTTPError _ => False | _ => True end.

(** A value as [json] decodes it: it is no decimal. *)
Definition from_json (v : value) : Prop :=
  match v with VDecimal _ => False | _ => True end.

(** A number of the default context: at most 28 digits, and an exponent
    that keeps the number within the range of the context. *)
Definition in_context (d : Decimal) : Prop :=
  (0 <= dint d < 10 ^ decimal.prec)%Z
  /\ (decimal.Etiny <= dexp d)%Z
  /\ (dexp d + Text.ndigits (dint d) - 1 <= decimal.Emax)%Z.

(** The fetches of [download] for the addresses, one address after the
    other, from the world [w] to the world [w']: each list of [txs] holds
    the normal transactions of an address, then its internal transactions,
    then its token transfers, and each list of [bals] holds its asset
    balances. *)
Inductive fetched (api : BlockExplorerApi) (wallet_api : WalletApi)
  : list string -> world -> list (list value) -> list (list value) -> world -> Prop :=
| fetched_none : forall w, fetched api wallet_api [] w [] [] w
| fetched_address : forall address rest w normal w1 internal w2 tokens w3 assets w4
                           txs bals w',
    get_normal_transactions api address w = (Ok normal, w1) ->
    get_internal_transactions api address w1 = (Ok internal, w2) ->
    get_erc20_transfers api address w2 = (Ok tokens, w3) ->
    get_asset_balances wallet_api address w3 = (Ok assets, w4) ->
    fetched api wallet_api rest w4 txs bals w' ->
    fetched api wallet_api (address :: rest) w
            ((normal ++ internal ++ tokens) :: txs) (assets :: bals) w'.

(** The world once the files are saved. *)
Definition after_saving (cfg : config) (output_dir : string)
    (transactions balances : list value) (w1 : world) : world :=
  mkWorld (time_time w1) (now_seconds w1) (replies w1) (readings w1)
          (requests w1) (last_request_timestamp w1)
          (trace w1 ++ saved cfg output_dir transactions balances).

(** [time.sleep] takes the pause.  It refuses a negative number, a number
    that is none, and a number of seconds too large for the clock of the
    system; a pause of at most 4000000 seconds is within what every
    implementation takes.  The model of the fetch records the sleep and goes
    on: what it says of a call holds of the code when the sleep is one that
    [time.sleep] takes. *)
Definition sleep_accepted (self : BlockExplorerApi) (now last : float) : bool :=
  forallb (fun e => match e with
                    | Slept s => PrimFloat.leb 0%float s
                                 && PrimFloat.leb s 4000000%float
                    | _ => true
                    end)
          (pause self now last).

(** The text holds a brace.  The URL of the wallet API is a format string
    made of the network, in which [format] puts the address: with a brace in
    the network [format] raises, or puts the address elsewhere.  The model of
    the wallet client takes a network without braces. *)
Fixpoint has_brace (s : string) : bool :=
  match s with
  | EmptyString => false
  | String c rest => (Ascii.eqb c "{" || Ascii.eqb c "}") || has_brace rest
  end.

(** The raw value is the integer [V], sent as its decimal text (as the
    block explorer sends numbers) or as a JSON number. *)
Definition integer_value (raw : value) (V : Z) : Prop :=
  raw = VStr (Text.str_of_Z V) \/ raw = VInt V.

(** [Decimal] reads the value as a finite number.  It also reads the texts
    of the infinities and of the values that are no number, and the floats of
    that kind; the model of the decimal module answers [Beyond] for those. *)
Definition finite_number (raw : value) : Prop :=
  exists d, py_Decimal raw = Ok d.

(** * Sample responses and runs *)

(** A world in which the requests get the replies of [script], one after
    the other, and the clock reads 100, 101, ... seconds. *)
Definition scripted (script : list reply) : world :=
  mkWorld (fun n => datetime.float_of_Z (100 + Z.of_nat n))
          (fun n => 1700000000 + Z.of_nat n)
          (fun n => nth n script (Fails (RequestException "connection refused")))
          0 0 0%float [].

Definition found (items : list value) : reply :=
  Json (VDict [ ("status", VStr "1"); ("message", VStr "OK");
                ("result", VList items) ]).

Definition client : BlockExplorerApi :=
  mkBlockExplorerApi "https://api.etherscan.io/api" "KEY" 0%float "ETH".

(** A token transfer of a non-fungible token as a provider that leaves the
    decimals out would report it. *)
Definition transfer_without_decimals : value :=
  VDict [ ("hash", VStr "0x03"); ("timeStamp", VStr "1600000002");
          ("from", VStr "0xab"); ("to", VStr "0xcd"); ("value", VStr "1");
          ("tokenSymbol", VStr "NFT"); ("contractAddress", VStr "0xa0b8") ].

Definition no_transactions : reply :=
  Json (VDict [ ("status", VStr "0"); ("message", VStr "No transactions found");
                ("result", VList []) ]).

Definition rate_limited : reply :=
  Json (VDict [ ("status", VStr "0"); ("message", VStr "NOTOK");
                ("result", VStr "Max rate limit reached") ]).

Definition wallet : WalletApi := mkWalletApi "1" "ckey".

Definition wallet_error : reply :=
  Json (VDict [ ("data", VNone); ("error", VBool true);
                ("error_message", VStr "Invalid API key"); ("error_code", VInt 401) ]).

Definition balance_found : reply :=
  Json (VDict [ ("status", VStr "1"); ("message", VStr "OK");
                ("result", VStr "1500000000000000000") ]).

Definition asset (quote : value) : value :=
  VDict [ ("contract_ticker_symbol", VStr "DAI"); ("contract_address", VStr "0x6b");
          ("balance", VStr "1230000000000000000"); ("contract_decimals", VInt 18);
          ("quote", quote); ("quote_rate", VFloat 1%float) ].

Definition holdings (items : list value) : reply :=
  Json (VDict [ ("error", VBool false);
                ("data", VDict [ ("updated_at", VStr "2023-06-01T12:34:56.789123999Z");
                                 ("items", VList items) ]) ]).

(** An asset whose quote is the JSON literal [true]. *)
Definition truly_quoted : value := asset (VBool true).

Definition outgoing : value :=
  VDict [ ("hash", VStr "0x01"); ("timeStamp", VStr "1600000000");
          ("from", VStr "0xAB"); ("to", VStr "0xcd");
          ("value", VStr "1500000000000000000"); ("isError", VStr "0");
          ("gasUsed", VStr "21000"); ("gasPrice", VStr "20000000000") ].

Definition failed_outgoing : value :=
  VDict [ ("hash", VStr "0x02"); ("timeStamp", VStr "1600000001");
          ("from", VStr "0xab"); ("to", VStr "0xcd"); ("value", VStr "7");
          ("isError", VStr "1");
          ("gasUsed", VStr "21000"); ("gasPrice", VStr "20000000000") ].

Definition failed_incoming : value :=
  VDict [ ("hash", VStr "0x04"); ("timeStamp", VStr "1600000003");
          ("from", VStr "0xcd"); ("to", VStr "0xab"); ("value", VStr "9");
          ("isError", VStr "1");
          ("gasUsed", VStr "21000"); ("gasPrice", VStr "20000000000") ].

Definition token_transfer : value :=
  VDict [ ("hash", VStr "0x03"); ("timeStamp", VStr "1600000002");
          ("from", VStr "0xab"); ("to", VStr "0xcd"); ("value", VStr "2500000");
          ("tokenSymbol", VStr "USDC"); ("tokenDecimal", VStr "6");
          ("contractAddress", VStr "0xa0b8") ].

Definition no_internal_transactions : reply :=
  Json (VDict [ ("status", VStr "0");
                ("message", VStr "No internal transactions found");
                ("result", VList []) ]).

Definition portfolio (addresses : list string) : config :=
  mkConfig "eth" (map (fun a => (a, VNone)) addresses)
           "https://api.etherscan.io/api" "KEY" None None "1" "ckey".

Definition second_address_fails : list reply :=
  [ found [outgoing; failed_outgoing]; no_internal_transactions;
    found [token_transfer]; holdings [];
    found []; Fails (HTTPError "503 Server Error: Service Unavailable") ].

Definition two_addresses : config := portfolio ["0xAb"; "0xCd"].

(** The records fetched before the failure: those of the first address. *)
Definition fetched_before_failure : list value * list value :=
  Eval vm_compute in
    match fst (run_schedule (config_api two_addresses) (config_wallet_api two_addresses)
                 (schedule ["0xAb"] ++ [("0xCd", Normal)]) ([], [])
                 (at_start (scripted second_address_fails))) with
    | Ok acc => acc
    | _ => ([], [])
    end.

Definition internal_with_hash : value :=
  VDict [ ("hash", VStr "0x05"); ("timeStamp", VStr "1600000005");
          ("from", VStr "0xee"); ("to", VStr "0xab"); ("value", VStr "1000000000000000");
          ("isError", VStr "1") ].

Definition internal_with_transactionHash : value :=
  VDict [ ("transactionHash", VStr "0x06"); ("timeStamp", VStr "1600000006");
          ("from", VStr "0xee"); ("to", VStr "0xab"); ("value", VStr "20") ].

Definition transfer_with_empty_decimals : value :=
  VDict [ ("hash", VStr "0x07"); ("timeStamp", VStr "1600000007");
          ("from", VStr "0xab"); ("to", VStr "0xcd"); ("value", VStr "1");
          ("tokenSymbol", VStr "NFT"); ("tokenDecimal", VStr "");
          ("contractAddress", VStr "0xa0b9") ].

(** The world of [scripted] when the last response was decoded at the
    second 100, the first reading of the clock. *)
Definition at_time_100 (script : list reply) : world :=
  mkWorld (fun n => datetime.float_of_Z (100 + Z.of_nat n))
          (fun n => 1700000000 + Z.of_nat n)
          (fun n => nth n script (Fails (RequestException "connection refused")))
          0 0 100%float [].

(** A client that leaves five seconds between its requests. *)
Definition paced : BlockExplorerApi :=
  mkBlockExplorerApi "https://api.etherscan.io/api" "KEY" 5%float "ETH".

Definition service_unavailable : reply :=
  Fails (HTTPError "503 Server Error: Service Unavailable").

(** A response of the block explorer that is an empty object. *)
Definition empty_object : reply := Json (VDict []).

(** A [txlist] item that does not say whether the transaction failed. *)
Definition without_isError : value :=
  VDict [ ("hash", VStr "0x08"); ("timeStamp", VStr "1600000008");
          ("from", VStr "0xab"); ("to", VStr "0xcd"); ("value", VStr "3");
          ("gasUsed", VStr "21000"); ("gasPrice", VStr "20000000000") ].

(** A response of the wallet API whose data carry no [updated_at]. *)
Definition no_timestamp : reply :=
  Json (VDict [ ("error", VBool false); ("data", VDict [ ("items", VList []) ]) ]).

(** The data of a response whose timestamp has whole seconds. *)
Definition whole_seconds : value :=
  VDict [ ("updated_at", VStr "2023-06-01T12:34:56Z");
          ("items", VList [asset (VInt 1)]) ].

(** An asset whose decimals come as a text. *)
Definition asset_with_text_decimals : value :=
  VDict [ ("contract_ticker_symbol", VStr "DAI"); ("contract_address", VStr "0x6b");
          ("balance", VStr "1230000000000000000"); ("contract_decimals", VStr "18");
          ("quote", VFloat 1%float); ("quote_rate", VFloat 1%float) ].

(** A [txlist] item whose value has 29 digits, and whose gas used times
    gas price has 29 digits. *)
Definition outgoing_with_long_numbers : value :=
  VDict [ ("hash", VStr "0x09"); ("timeStamp", VStr "1600000009");
          ("from", VStr "0xab"); ("to", VStr "0xcd");
          ("value", VStr "10000000000000000000000000001"); ("isError", VStr "0");
          ("gasUsed", VStr "100000000000001"); ("gasPrice", VStr "100000000000001") ].

(** A token transfer whose value has 29 digits. *)
Definition long_token_transfer : value :=
  VDict [ ("hash", VStr "0x0a"); ("timeStamp", VStr "1600000010");
          ("from", VStr "0xab"); ("to", VStr "0xcd");
          ("value", VStr "10000000000000000000000000001");
          ("tokenSymbol", VStr "SHIB"); ("tokenDecimal", VStr "18");
          ("contractAddress", VStr "0x95ad") ].

(** A balance of 29 digits. *)
Definition long_balance_found : reply :=
  Json (VDict [ ("status", VStr "1"); ("message", VStr "OK");
                ("result", VStr "10000000000000000000000000001") ]).

(** * Properties *)

(** ** Outcomes and loops *)

Lemma obind_Ok : forall (A B : Type) (m : outcome A) (k : A -> outcome B) (b : B),
  obind m k = Ok b <-> exists a, m = Ok a /\ k a = Ok b.
Proof.
  intros A B m k b; split.
  - destruct m as [a| |]; simpl; intros H; try discriminate. exists a; auto.
  - intros (a & -> & H); exact H.
Qed.

Lemma bind_Ok : forall (A B : Type) (m : M A) (k : A -> M B) (w w' : world) (b : B),
  bind m k w = (Ok b, w') <-> exists a w1, m w = (Ok a, w1) /\ k a w1 = (Ok b, w').
Proof.
  intros A B m k w w' b; unfold bind; split.
  - destruct (m w) as [[a| |] w1]; intros H; try discriminate. exists a, w1; auto.
  - intros (a & w1 & -> & H); exact H.
Qed.

Lemma lift_Ok : forall (A : Type) (o : outcome A) (w w' : world) (a : A),
  lift o w = (Ok a, w') <-> o = Ok a /\ w' = w.
Proof.
  intros A o w w' a; unfold lift; split.
  - intros H; inversion H; auto.
  - intros [-> ->]; reflexivity.
Qed.

(** A loop whose body only appends to its accumulator returns the groups
    that the body yields for the items, in the order of the items. *)
Section Appending.
Variables A B : Type.
Variable body : list B -> A -> outcome (list B).
Hypothesis body_appends :
  forall acc x, body acc x = (g <- body [] x ;; Ok (acc ++ g)).

Lemma for_each_appends : forall items acc out,
  for_each body items acc = Ok out <->
  exists groups,
    Forall2 (fun x g => body [] x = Ok g) items groups /\ out = acc ++ List.concat groups.
Proof.
  induction items as [|x r IH]; intros acc out; simpl.
  - split.
    + intros H; inversion H; subst. exists []; split; [constructor|].
      simpl; now rewrite app_nil_r.
    + intros (groups & F & ->). inversion F; subst. simpl; now rewrite app_nil_r.
  - rewrite obind_Ok. split.
    + intros (s & Hs & Hr). rewrite body_appends in Hs.
      apply obind_Ok in Hs. destruct Hs as (g & Hg & Hs). inversion Hs; subst s.
      apply IH in Hr. destruct Hr as (groups & F & ->).
      exists (g :: groups); split; [constructor; assumption|].
      simpl; now rewrite app_assoc.
    + intros (groups & F & ->). inversion F as [|? g ? gs Hg F']; subst.
      exists (acc ++ g); split.
      * rewrite body_appends, Hg; reflexivity.
      * apply IH. exists gs; split; [assumption|]. simpl; now rewrite app_assoc.
Qed.
End Appending.

Lemma Forall2_weaken : forall (A B : Type) (P Q : A -> B -> Prop),
  (forall a b, P a b -> Q a b) ->
  forall l l', Forall2 P l l' -> Forall2 Q l l'.
Proof. induction 2; constructor; auto. Qed.

(** ** get_normal_transactions *)

Ltac bind_in H :=
  let a := fresh "a" in
  let E := fresh "E" in
  apply obind_Ok in H; destruct H as (a & E & H).

Lemma normal_body_appends : forall self address acc item,
  normal_body self address acc item
  = (g <- normal_body self address [] item ;; Ok (acc ++ g)).
Proof.
  intros self address acc item. unfold normal_body.
  destruct (getitem item "isError") as [v| |]; simpl; try reflexivity.
  destruct (py_int v) as [n| |]; simpl; try reflexivity.
  destruct (n =? 0)%Z; simpl.
  - destruct (getitem item "hash") as [h| |]; simpl; try reflexivity.
    destruct (getitem item "timeStamp") as [ts| |]; simpl; try reflexivity.
    destruct (py_int ts) as [t| |]; simpl; try reflexivity.
    destruct (getitem item "from") as [f| |]; simpl; try reflexivity.
    destruct (getitem item "to") as [to| |]; simpl; try reflexivity.
    destruct (getitem item "value") as [raw| |]; simpl; try reflexivity.
    destruct (wei_value raw) as [q| |]; simpl; try reflexivity.
    destruct (str_lower f) as [s| |]; simpl; try reflexivity.
    destruct (String.eqb s (Text.lower address)); simpl; try reflexivity.
    destruct (getitem item "gasUsed") as [gu| |]; simpl; try reflexivity.
    destruct (py_Decimal gu) as [a| |]; simpl; try reflexivity.
    destruct (getitem item "gasPrice") as [gp| |]; simpl; try reflexivity.
    destruct (py_Decimal gp) as [b| |]; simpl; try reflexivity.
    destruct (decimal.mul a b) as [p| |]; simpl; try reflexivity.
    destruct (decimal.truediv p (decimal.of_Z WEI)) as [x| |]; simpl; try reflexivity.
    now rewrite <- app_assoc.
  - destruct (getitem item "from") as [f| |]; simpl; try reflexivity.
    destruct (str_lower f) as [s| |]; simpl; try reflexivity.
    destruct (String.eqb s (Text.lower address)); simpl.
    + destruct (getitem item "hash") as [h| |]; simpl; try reflexivity.
      destruct (getitem item "timeStamp") as [ts| |]; simpl; try reflexivity.
      destruct (py_int ts) as [t| |]; simpl; try reflexivity.
      destruct (getitem item "gasUsed") as [gu| |]; simpl; try reflexivity.
      destruct (py_Decimal gu) as [a| |]; simpl; try reflexivity.
      destruct (getitem item "gasPrice") as [gp| |]; simpl; try reflexivity.
      destruct (py_Decimal gp) as [b| |]; simpl; try reflexivity.
      destruct (decimal.mul a b) as [p| |]; simpl; try reflexivity.
      destruct (decimal.truediv p (decimal.of_Z WEI)) as [x| |]; simpl; reflexivity.
    + now rewrite app_nil_r.
Qed.

Ltac same_lookups :=
  repeat match goal with
         | H : getitem ?i ?k = Ok _, H' : getitem ?i ?k = Ok _ |- _ =>
             rewrite H in H'; inversion H'; subst; clear H'
         | H : py_int ?v = Ok _, H' : py_int ?v = Ok _ |- _ =>
             rewrite H in H'; inversion H'; subst; clear H'
         end.

(** The helpers of the source compute the quotients of the vocabulary. *)
Lemma wei_value_quotient : forall raw v,
  wei_value raw = Ok v <-> wei_quotient raw v.
Proof.
  intros raw v. unfold wei_value, wei_quotient. split.
  - intros H. destruct (py_Decimal raw) as [d| |]; cbn [obind] in H; try discriminate.
    exists d. split; [reflexivity|exact H].
  - intros (d & -> & H). exact H.
Qed.

Lemma fee_value_quotient : forall gasUsed gasPrice v,
  fee_value gasUsed gasPrice = Ok v <-> fee_quotient gasUsed gasPrice v.
Proof.
  intros gasUsed gasPrice v. unfold fee_value, fee_quotient. split.
  - intros H.
    destruct (py_Decimal gasUsed) as [a| |]; cbn [obind] in H; try discriminate.
    destruct (py_Decimal gasPrice) as [b| |]; cbn [obind] in H; try discriminate.
    destruct (decimal.mul a b) as [p| |] eqn:Hp; cbn [obind] in H; try discriminate.
    exists a, b, p. repeat split; [exact Hp|exact H].
  - intros (a & b & p & -> & -> & Hp & H). cbn [obind]. rewrite Hp. exact H.
Qed.

Lemma token_value_quotient : forall raw decimals v,
  token_value raw decimals = Ok v <-> token_quotient raw decimals v.
Proof.
  intros raw decimals v. unfold token_value, token_quotient. split.
  - intros H.
    destruct (py_Decimal raw) as [d| |]; cbn [obind] in H; try discriminate.
    destruct (py_Decimal decimals) as [k| |]; cbn [obind] in H; try discriminate.
    destruct (decimal.rpow10 k) as [p| |] eqn:Hp; cbn [obind] in H; try discriminate.
    exists d, k, p. repeat split; [exact Hp|exact H].
  - intros (d & k & p & -> & -> & Hp & H). cbn [obind]. rewrite Hp. exact H.
Qed.

Ltac open_spec :=
  repeat match goal with
         | H : error_flag _ _ |- _ => destruct H as (? & (? & ? & ?) & ?)
         | H : sender_is _ _ _ |- _ => destruct H as (? & ? & ?)
         | H : value_record _ _ _ |- _ =>
             destruct H as (? & ? & ? & ? & ? & ? & ? & (? & ? & ?) & ? & ? & ? & ? & ?)
         | H : transfer_record _ _ _ _ |- _ =>
             destruct H as (? & ? & ? & ? & ? & (? & ? & ?) & ? & ? & ? & ? & ?)
         | H : fee_record _ _ _ |- _ =>
             destruct H as (? & ? & ? & ? & ? & ? & ? & (? & ? & ?) & ? & ? & ? & ? & ?)
         | H : wei_quotient _ _ |- _ => apply wei_value_quotient in H
         | H : fee_quotient _ _ _ |- _ => apply fee_value_quotient in H
         | H : int_field _ _ _ |- _ => destruct H as (? & ? & ?)
         end.

Lemma negb_eqb_false : forall n : Z, false = negb (n =? 0)%Z -> (n =? 0)%Z = true.
Proof. intros n H; destruct (n =? 0)%Z; [reflexivity|discriminate]. Qed.

Lemma negb_eqb_true : forall n : Z, true = negb (n =? 0)%Z -> (n =? 0)%Z = false.
Proof. intros n H; destruct (n =? 0)%Z; [discriminate|reflexivity]. Qed.

Lemma str_lower_Ok : forall v s, str_lower v = Ok s -> exists t, v = VStr t /\ s = Text.lower t.
Proof.
  intros v s H; destruct v as [| | | |t| | |]; simpl in H; try discriminate.
  inversion H; eauto.
Qed.

Lemma value_record_intro : forall self item tx_id ts time from to raw v,
  getitem item "hash" = Ok tx_id -> getitem item "timeStamp" = Ok ts ->
  py_int ts = Ok time -> getitem item "from" = Ok from ->
  getitem item "to" = Ok to -> getitem item "value" = Ok raw ->
  wei_value raw = Ok v ->
  value_record self item
    (VDict [ ("tx_id", tx_id); ("time", VInt time); ("from", from); ("to", to);
             ("currency", VStr (base_currency self)); ("value", VDecimal v) ]).
Proof.
  intros self item tx_id ts time from to raw v H1 H2 H3 H4 H5 H6 H7.
  exists tx_id, time, from, to, raw, v.
  split; [exact H1|]. split; [exists ts; auto|].
  split; [exact H4|]. split; [exact H5|]. split; [exact H6|].
  split; [apply wei_value_quotient; exact H7|reflexivity].
Qed.

Lemma fee_record_intro : forall self item tx_id ts time from gu gp a b p v,
  getitem item "hash" = Ok tx_id -> getitem item "timeStamp" = Ok ts ->
  py_int ts = Ok time -> getitem item "from" = Ok from ->
  getitem item "gasUsed" = Ok gu -> py_Decimal gu = Ok a ->
  getitem item "gasPrice" = Ok gp -> py_Decimal gp = Ok b ->
  decimal.mul a b = Ok p -> decimal.truediv p (decimal.of_Z WEI) = Ok v ->
  fee_record self item
    (VDict [ ("tx_id", tx_id); ("time", VInt time); ("from", from);
             ("to", VStr MINER); ("currency", VStr (base_currency self));
             ("value", VDecimal v) ]).
Proof.
  intros self item tx_id ts time from gu gp a b p v H1 H2 H3 H4 H5 H6 H7 H8 H9 H10.
  exists tx_id, time, from, gu, gp, v.
  split; [exact H1|]. split; [exists ts; auto|].
  split; [exact H4|]. split; [exact H5|]. split; [exact H7|].
  split; [exists a, b, p; auto|reflexivity].
Qed.

Lemma normal_body_emits : forall self address item g,
  normal_body self address [] item = Ok g <-> txlist_emits self address item g.
Proof.
  intros self address item g; split.
  - unfold normal_body; intros H.
    bind_in H. rename a into isError, E into EisError.
    bind_in H. rename a into n, E into En.
    bind_in H. rename a into txs, E into Etxs.
    bind_in H. rename a into from, E into Efrom.
    bind_in H. rename a into sender, E into Esender.
    apply str_lower_Ok in Esender. destruct Esender as (s & -> & ->).
    assert (Hflag : error_flag item (negb (n =? 0)%Z)).
    { exists n; split; [exists isError; auto | reflexivity]. }
    assert (Hsender : sender_is address item
                        (String.eqb (Text.lower s) (Text.lower address))).
    { exists s; auto. }
    destruct (n =? 0)%Z eqn:Hn; simpl in Hflag.
    + do 7 bind_in Etxs. inversion Etxs; subst txs; clear Etxs.
      destruct (String.eqb (Text.lower s) (Text.lower address)) eqn:Hs.
      * do 10 bind_in H. inversion H; subst g; clear H. same_lookups. simpl.
        apply emits_value_then_fee; try assumption.
        -- eapply value_record_intro; eassumption.
        -- eapply fee_record_intro; eassumption.
      * inversion H; subst g; clear H. simpl.
        apply emits_value_only; try assumption.
        eapply value_record_intro; eassumption.
    + inversion Etxs; subst txs; clear Etxs.
      destruct (String.eqb (Text.lower s) (Text.lower address)) eqn:Hs.
      * do 10 bind_in H. inversion H; subst g; clear H. same_lookups. simpl.
        apply emits_fee_only; try assumption.
        eapply fee_record_intro; eassumption.
      * inversion H; subst g; clear H. apply emits_nothing; assumption.
  - intros H; unfold normal_body.
    inversion H as [r1 r2 Hf Hs Hv Hfee| r Hf Hs Hfee | Hf Hs | r Hf Hs Hv];
      subst; clear H; open_spec; same_lookups; subst;
      repeat match goal with
             | H : fee_value _ _ = Ok _ |- _ =>
                 unfold fee_value in H; bind_in H; bind_in H; bind_in H
             | H : false = negb _ |- _ => apply negb_eqb_false in H
             | H : true = negb _ |- _ => apply negb_eqb_true in H
             | H : true = String.eqb _ _ |- _ => symmetry in H
             | H : false = String.eqb _ _ |- _ => symmetry in H
             end;
      repeat match goal with
             | E : ?m = _ |- context [?m] => rewrite E; simpl
             end;
      reflexivity.
Qed.

(** The three list operations of the client share their shape: fetch,
    iterate, run an appending loop. *)
Lemma fetch_loop_Ok :
  forall (body : list value -> value -> outcome (list value)),
    (forall acc x, body acc x = (g <- body [] x ;; Ok (acc ++ g))) ->
    forall self address action w txs w',
      (result <~ _make_api_request self address action ;;
       items <~ lift (py_iter result) ;;
       lift (for_each body items [])) w = (Ok txs, w')
      <-> exists result items groups,
            _make_api_request self address action w = (Ok result, w')
            /\ py_iter result = Ok items
            /\ Forall2 (fun x g => body [] x = Ok g) items groups
            /\ txs = List.concat groups.
Proof.
  intros body Happ self address action w txs w'. rewrite bind_Ok. split.
  - intros (result & w1 & Hfetch & H).
    apply bind_Ok in H. destruct H as (items & w2 & Hiter & H).
    apply lift_Ok in Hiter. destruct Hiter as [Hiter ->].
    apply lift_Ok in H. destruct H as [H ->].
    apply (for_each_appends _ _ body Happ) in H. destruct H as (groups & F & ->).
    exists result, items, groups; auto.
  - intros (result & items & groups & Hfetch & Hiter & F & ->).
    exists result, w'; split; [assumption|].
    apply bind_Ok. exists items, w'; split; [apply lift_Ok; auto|].
    apply lift_Ok; split; [|reflexivity].
    apply (for_each_appends _ _ body Happ). exists groups; auto.
Qed.

(** [get_normal_transactions] returns exactly the records of the items of
    the [txlist] response, item after item in the order of the response. *)
Lemma get_normal_transactions_Ok : forall self address w txs w',
  get_normal_transactions self address w = (Ok txs, w')
  <-> exists result items groups,
        _make_api_request self address "txlist" w = (Ok result, w')
        /\ py_iter result = Ok items
        /\ Forall2 (txlist_emits self address) items groups
        /\ txs = List.concat groups.
Proof.
  intros self address w txs w'. unfold get_normal_transactions.
  rewrite (fetch_loop_Ok _ (normal_body_appends self address)).
  split; intros (result & items & groups & Hfetch & Hiter & F & ->);
    exists result, items, groups; repeat split; try assumption;
    eapply Forall2_weaken; try eassumption;
    intros x g; apply normal_body_emits.
Qed.

(** ** get_internal_transactions *)

Lemma Forall2_singletons : forall (A B : Type) (P : A -> B -> Prop) l groups,
  Forall2 (fun x g => exists r, P x r /\ g = [r]) l groups ->
  Forall2 P l (List.concat groups).
Proof.
  induction 1 as [|x g l groups (r & Hr & ->) F IH]; simpl; constructor; assumption.
Qed.

Lemma Forall2_singletons_inv : forall (A B : Type) (P : A -> B -> Prop) l rs,
  Forall2 P l rs ->
  Forall2 (fun x g => exists r, P x r /\ g = [r]) l (map (fun r => [r]) rs)
  /\ rs = List.concat (map (fun r => [r]) rs).
Proof.
  induction 1 as [|x r l rs Hr F [IH1 IH2]]; simpl; split; try constructor; eauto.
  f_equal; assumption.
Qed.

Lemma internal_body_appends : forall self acc item,
  internal_body self acc item = (g <- internal_body self [] item ;; Ok (acc ++ g)).
Proof.
  intros self acc item. unfold internal_body.
  destruct (contains "hash" item) as [b| |]; simpl; try reflexivity.
  destruct (if b then getitem item "hash" else getitem item "transactionHash")
    as [h| |]; simpl; try reflexivity.
  destruct (getitem item "timeStamp") as [ts| |]; simpl; try reflexivity.
  destruct (py_int ts) as [t| |]; simpl; try reflexivity.
  destruct (getitem item "from") as [f| |]; simpl; try reflexivity.
  destruct (getitem item "to") as [to| |]; simpl; try reflexivity.
  destruct (getitem item "value") as [raw| |]; simpl; try reflexivity.
  destruct (wei_value raw) as [q| |]; simpl; reflexivity.
Qed.

Lemma internal_body_emits : forall self item g,
  internal_body self [] item = Ok g
  <-> exists r, internal_record self item r /\ g = [r].
Proof.
  intros self item g; split.
  - unfold internal_body; intros H. do 8 bind_in H.
    inversion H; subst g; clear H. simpl. eexists; split; [|reflexivity].
    destruct item as [| | | | | |fields|]; simpl in E; try discriminate;
      try (destruct a; discriminate).
    exists fields, a0. split; [reflexivity|]. split.
    + unfold tx_id_of. inversion E; subst a; clear E. simpl in E0.
      destruct (lookup "hash" fields) as [h|]; [inversion E0; reflexivity|].
      destruct (lookup "transactionHash" fields); [inversion E0; reflexivity|discriminate].
    + exists a2, a3, a4, a5, a6. repeat split; try assumption. exists a1; auto.
  - intros (r & (fields & tx_id & -> & Hid & Hr) & ->).
    destruct Hr as (time & from & to & raw & v & (ts & Hts & Htime) & Hf & Ht & Hraw & Hv & ->).
    unfold internal_body, tx_id_of in *. simpl contains. simpl in *.
    destruct (lookup "hash" fields) as [h|]; simpl.
    + inversion Hid; subst h; clear Hid.
      rewrite Hts; simpl. rewrite Htime; simpl. rewrite Hf, Ht, Hraw; simpl.
      rewrite Hv; reflexivity.
    + rewrite Hid; simpl.
      rewrite Hts; simpl. rewrite Htime; simpl. rewrite Hf, Ht, Hraw; simpl.
      rewrite Hv; reflexivity.
Qed.

(** C8. [get_internal_transactions] returns one value-transfer record for
    each item of the [txlistinternal] response, whatever the item says about
    errors, and the record's [tx_id] is the item's [hash] when the item has
    that field and its [transactionHash] otherwise. *)
Theorem get_internal_transactions_emits : forall self address w txs w',
  get_internal_transactions self address w = (Ok txs, w')
  <-> exists result items,
        _make_api_request self address "txlistinternal" w = (Ok result, w')
        /\ py_iter result = Ok items
        /\ Forall2 (internal_record self) items txs.
Proof.
  intros self address w txs w'. unfold get_internal_transactions.
  rewrite (fetch_loop_Ok _ (internal_body_appends self)). split.
  - intros (result & items & groups & Hfetch & Hiter & F & ->).
    exists result, items; repeat split; try assumption.
    apply Forall2_singletons. eapply Forall2_weaken; try eassumption.
    intros x g; apply internal_body_emits.
  - intros (result & items & Hfetch & Hiter & F).
    apply Forall2_singletons_inv in F. destruct F as [F Hc].
    exists result, items, (map (fun r => [r]) txs); repeat split; try assumption.
    eapply Forall2_weaken; try eassumption.
    intros x g; apply internal_body_emits.
Qed.

(** ** get_erc20_transfers *)

Lemma is_empty_str_true : forall v, is_empty_str v = true <-> v = VStr "".
Proof.
  intros v; split.
  - destruct v as [| | | |s| | |]; simpl; try discriminate.
    destruct s; [reflexivity|discriminate].
  - intros ->; reflexivity.
Qed.

Lemma erc20_body_appends : forall acc item,
  erc20_body acc item = (g <- erc20_body [] item ;; Ok (acc ++ g)).
Proof.
  intros acc item. unfold erc20_body.
  destruct (getitem item "tokenDecimal") as [td| |]; simpl; try reflexivity.
  destruct (is_empty_str td); simpl; [now rewrite app_nil_r|].
  destruct (getitem item "hash") as [h| |]; simpl; try reflexivity.
  destruct (getitem item "timeStamp") as [ts| |]; simpl; try reflexivity.
  destruct (py_int ts) as [t| |]; simpl; try reflexivity.
  destruct (getitem item "from") as [f| |]; simpl; try reflexivity.
  destruct (getitem item "to") as [to| |]; simpl; try reflexivity.
  destruct (getitem item "tokenSymbol") as [sym| |]; simpl; try reflexivity.
  destruct (getitem item "value") as [raw| |]; simpl; try reflexivity.
  destruct (py_Decimal raw) as [d| |]; simpl; try reflexivity.
  destruct (py_Decimal td) as [k| |]; simpl; try reflexivity.
  destruct (decimal.rpow10 k) as [p| |]; simpl; try reflexivity.
  destruct (decimal.truediv d p) as [q| |]; simpl; try reflexivity.
  destruct (getitem item "contractAddress") as [c| |]; simpl; reflexivity.
Qed.

Lemma token_record_intro : forall item td tx_id ts time from to currency raw d k p v c,
  getitem item "tokenDecimal" = Ok td ->
  getitem item "hash" = Ok tx_id -> getitem item "timeStamp" = Ok ts ->
  py_int ts = Ok time -> getitem item "from" = Ok from ->
  getitem item "to" = Ok to -> getitem item "tokenSymbol" = Ok currency ->
  getitem item "value" = Ok raw -> py_Decimal raw = Ok d ->
  py_Decimal td = Ok k -> decimal.rpow10 k = Ok p -> decimal.truediv d p = Ok v ->
  getitem item "contractAddress" = Ok c ->
  token_record item td
    (VDict [ ("tx_id", tx_id); ("time", VInt time); ("from", from); ("to", to);
             ("currency", currency); ("value", VDecimal v); ("contract", c) ]).
Proof.
  intros item td tx_id ts time from to currency raw d k p v c
         H0 H1 H2 H3 H4 H5 H6 H7 H8 H9 H10 H11 H12.
  exists tx_id, time, from, to, currency, raw, c, v.
  split; [exact H1|]. split; [exists ts; auto|].
  split; [exact H4|]. split; [exact H5|]. split; [exact H6|]. split; [exact H7|].
  split; [exists d, k, p; auto|]. split; [exact H12|reflexivity].
Qed.

Lemma erc20_body_emits : forall item g,
  erc20_body [] item = Ok g <-> tokentx_emits item g.
Proof.
  intros item g; split.
  - unfold erc20_body; intros H. bind_in H. rename a into td, E into Etd.
    destruct (is_empty_str td) eqn:Hempty.
    + inversion H; subst g. apply is_empty_str_true in Hempty; subst td.
      apply emits_no_token; assumption.
    + do 13 bind_in H. inversion H; subst g; clear H. same_lookups. simpl.
      eapply emits_token; [eassumption | intros ->; discriminate |].
      eapply token_record_intro; eassumption.
  - intros H; unfold erc20_body.
    inversion H as [Htd | td r Htd Hne Hr]; subst; clear H; rewrite Htd; simpl.
    + reflexivity.
    + destruct (is_empty_str td) eqn:Hempty.
      { apply is_empty_str_true in Hempty. contradiction. }
      destruct Hr as (tx_id & time & from & to & currency & raw & contract & v
                      & Hh & (ts & Hts & Htime) & Hf & Ht & Hsym & Hraw & Hv & Hc & ->).
      destruct Hv as (d & k & p & E & E0 & E1 & Hv).
      rewrite Hh; simpl. rewrite Hts; simpl. rewrite Htime; simpl.
      rewrite Hf, Ht, Hsym, Hraw; simpl. rewrite E; simpl. rewrite E0; simpl.
      rewrite E1; simpl. rewrite Hv; simpl. rewrite Hc; reflexivity.
Qed.

(** C2, as the claim states it, fails twice.  An item without its field
    [tokenDecimal] is not skipped, the call raises [KeyError]; and the value
    of a record is not always the raw value over 10^(token decimals): a raw
    value of 29 digits is rounded to 28 digits before it is recorded. *)
Lemma get_erc20_transfers_absent_decimals :
  lookup "tokenDecimal"
         [ ("hash", VStr "0x03"); ("timeStamp", VStr "1600000002");
           ("from", VStr "0xab"); ("to", VStr "0xcd"); ("value", VStr "1");
           ("tokenSymbol", VStr "NFT"); ("contractAddress", VStr "0xa0b8") ] = None
  /\ fst (get_erc20_transfers client "0xab"
            (scripted [found [transfer_without_decimals]]))
     = Raise (KeyError "tokenDecimal")
  /\ fst (get_erc20_transfers client "0xab" (scripted [found [long_token_transfer]]))
     = Ok [VDict [ ("tx_id", VStr "0x0a"); ("time", VInt 1600000010);
                   ("from", VStr "0xab"); ("to", VStr "0xcd");
                   ("currency", VStr "SHIB");
                   ("value", VDecimal (mkDecimal false 1000000000000000000000000000 (-17)));
                   ("contract", VStr "0x95ad") ]]
  /\ Qeq_bool (decimal.to_Q (mkDecimal false 1000000000000000000000000000 (-17)))
              (inject_Z 10000000000000000000000000001 / inject_Z (10 ^ 18))
     = false.
Proof. repeat split; vm_compute; reflexivity. Qed.

(** [get_erc20_transfers] returns exactly the records of the items of the
    [tokentx] response, in order; it returns no list when an item lacks its
    field [tokenDecimal]. *)
Lemma get_erc20_transfers_Ok : forall self address w,
  (forall txs w',
     get_erc20_transfers self address w = (Ok txs, w')
     <-> exists result items groups,
           _make_api_request self address "tokentx" w = (Ok result, w')
           /\ py_iter result = Ok items
           /\ Forall2 tokentx_emits items groups
           /\ txs = List.concat groups)
  /\ (forall result items item w1,
        _make_api_request self address "tokentx" w = (Ok result, w1) ->
        py_iter result = Ok items -> In item items ->
        getitem item "tokenDecimal" = Raise (KeyError "tokenDecimal") ->
        forall txs w', get_erc20_transfers self address w <> (Ok txs, w')).
Proof.
  intros self address w.
  assert (Hiff : forall txs w',
     get_erc20_transfers self address w = (Ok txs, w')
     <-> exists result items groups,
           _make_api_request self address "tokentx" w = (Ok result, w')
           /\ py_iter result = Ok items
           /\ Forall2 tokentx_emits items groups
           /\ txs = List.concat groups).
  { intros txs w'. unfold get_erc20_transfers.
    rewrite (fetch_loop_Ok _ erc20_body_appends).
    split; intros (result & items & groups & Hfetch & Hiter & F & ->);
      exists result, items, groups; repeat split; try assumption;
      eapply Forall2_weaken; try eassumption;
      intros x g; apply erc20_body_emits. }
  split; [exact Hiff|].
  intros result items item w1 Hfetch Hiter Hin Habsent txs w' Hcall.
  apply Hiff in Hcall. destruct Hcall as (result' & items' & groups & Hfetch' & Hiter' & F & _).
  rewrite Hfetch in Hfetch'. inversion Hfetch'; subst result' w'.
  rewrite Hiter in Hiter'. inversion Hiter'; subst items'.
  clear - F Hin Habsent. induction F as [|x g l gs Hx F IH]; [contradiction|].
  destruct Hin as [->|Hin]; [|auto].
  inversion Hx as [Htd | td r Htd _ _]; rewrite Habsent in Htd; discriminate.
Qed.

(** ** _make_api_request *)

Lemma _make_api_request_unfold : forall self address action w,
  _make_api_request self address action w
  = match replies w (requests w) with
    | Fails err => explorer_handler err (after_request self address action w)
    | Json data =>
        try_except (judge data) explorer_handler
                   (after_response (after_request self address action w))
    end.
Proof.
  intros self address action w.
  unfold _make_api_request, after_request, after_response, judge.
  unfold bind at 1. unfold read_clock at 1. cbv beta iota.
  unfold bind at 1. unfold get_last_request_timestamp. cbv beta iota.
  cbn [last_request_timestamp time_time readings].
  unfold bind at 1.
  destruct (PrimFloat.ltb
              (PrimFloat.sub (time_time w (readings w)) (last_request_timestamp w))
              (delay self)).
  - unfold emit at 1. cbv beta iota.
    unfold try_except. unfold bind at 1. unfold http_get. cbn.
    destruct (replies w (requests w)); reflexivity.
  - unfold ret at 1. cbv beta iota.
    unfold try_except. unfold bind at 1. unfold http_get. cbn.
    destruct (replies w (requests w)); reflexivity.
Qed.

Lemma explorer_handler_pure : forall (A : Type) err w,
  snd (@explorer_handler A err w) = w.
Proof. intros A err w; destruct err; reflexivity. Qed.

(** The judgement reads the world and leaves it as it is. *)
Lemma judge_pure : forall data w, snd (try_except (judge data) explorer_handler w) = w.
Proof.
  intros data w. unfold try_except, judge, bind, lift, ret, raise.
  destruct (getitem data "status") as [st| |]; simpl;
    try apply explorer_handler_pure; try reflexivity.
  destruct (py_int st) as [n| |]; simpl;
    try apply explorer_handler_pure; try reflexivity.
  destruct (n =? 1)%Z; simpl.
  - destruct (getitem data "result") as [r| |]; simpl;
      try apply explorer_handler_pure; reflexivity.
  - destruct (getitem data "message") as [m| |]; simpl;
      try apply explorer_handler_pure; try reflexivity.
    destruct (in_strings m NO_TRANSACTIONS); simpl.
    + destruct (getitem data "result") as [r| |]; simpl;
        try apply explorer_handler_pure; reflexivity.
    + destruct (py_str m) as [t| |]; simpl;
        try apply explorer_handler_pure; reflexivity.
Qed.

Lemma in_strings_NO_TRANSACTIONS : forall message,
  in_strings message NO_TRANSACTIONS = true <-> empty_result_message message.
Proof.
  intros message; unfold empty_result_message; split.
  - destruct message as [| | | |m| | |]; simpl; try discriminate.
    intros H. exists m; split; [reflexivity|].
    repeat (apply orb_true_iff in H; destruct H as [H|H]);
      try (apply String.eqb_eq in H; auto); discriminate.
  - intros (m & -> & [->| [->| ->]]); reflexivity.
Qed.

Lemma not_in_strings_NO_TRANSACTIONS : forall message,
  ~ empty_result_message message -> in_strings message NO_TRANSACTIONS = false.
Proof.
  intros message H. destruct (in_strings message NO_TRANSACTIONS) eqn:E; [|reflexivity].
  apply in_strings_NO_TRANSACTIONS in E. contradiction.
Qed.

(** A status other than success with a message that is no phrase of an
    empty result: the error that the [try] block raises reaches the caller
    through the generic handler. *)
Lemma reported_error_raises :
  forall self address action w data status n message text,
    replies w (requests w) = Json data ->
    getitem data "status" = Ok status -> py_int status = Ok n -> n <> 1 ->
    getitem data "message" = Ok message ->
    in_strings message NO_TRANSACTIONS = false ->
    py_str message = Ok text ->
    fst (_make_api_request self address action w)
    = Raise (RuntimeError ("An error occurred: API Error: " ++ text)%string).
Proof.
  intros self address action w data status n message text
         Hreply Hstatus Hn Hne Hmsg Hother Htext.
  rewrite _make_api_request_unfold, Hreply.
  unfold try_except, judge, bind, lift, ret, raise.
  rewrite Hstatus, Hn. apply Z.eqb_neq in Hne. rewrite Hne, Hmsg, Hother, Htext.
  reflexivity.
Qed.

(** C5. When the provider reports a status other than success, the fetch
    returns the result of the response if the message is one of the three
    phrases of an empty result, and otherwise raises a [RuntimeError] whose
    message carries the provider's. *)
Theorem _make_api_request_non_success :
  forall self address action w data status n message,
    replies w (requests w) = Json data ->
    getitem data "status" = Ok status -> py_int status = Ok n -> n <> 1 ->
    getitem data "message" = Ok message ->
    (empty_result_message message ->
     forall result, getitem data "result" = Ok result ->
       fst (_make_api_request self address action w) = Ok result)
    /\ (~ empty_result_message message ->
        forall text, py_str message = Ok text ->
          fst (_make_api_request self address action w)
          = Raise (RuntimeError ("An error occurred: API Error: " ++ text)%string)).
Proof.
  intros self address action w data status n message Hreply Hstatus Hn Hne Hmsg.
  rewrite _make_api_request_unfold, Hreply.
  unfold try_except, judge, bind, lift, ret, raise.
  rewrite Hstatus, Hn. apply Z.eqb_neq in Hne. rewrite Hne, Hmsg. split.
  - intros Hempty result Hresult.
    apply in_strings_NO_TRANSACTIONS in Hempty. rewrite Hempty, Hresult. reflexivity.
  - intros Hother text Htext.
    apply not_in_strings_NO_TRANSACTIONS in Hother. rewrite Hother, Htext. reflexivity.
Qed.

Lemma _make_api_request_non_success_witness :
  fst (_make_api_request client "0xab" "txlist" (scripted [no_transactions]))
  = Ok (VList [])
  /\ fst (_make_api_request client "0xab" "txlist" (scripted [rate_limited]))
     = Raise (RuntimeError "An error occurred: API Error: NOTOK").
Proof.
  split.
  - apply (proj1 (_make_api_request_non_success client "0xab" "txlist"
                    (scripted [no_transactions]) _ (VStr "0") 0
                    (VStr "No transactions found")
                    eq_refl eq_refl eq_refl ltac:(discriminate) eq_refl)).
    + exists "No transactions found"; auto.
    + reflexivity.
  - apply (proj2 (_make_api_request_non_success client "0xab" "txlist"
                    (scripted [rate_limited]) _ (VStr "0") 0 (VStr "NOTOK")
                    eq_refl eq_refl eq_refl ltac:(discriminate) eq_refl)).
    + intros (m & Hm & [->| [->| ->]]); discriminate.
    + reflexivity.
Defined.

(** C6, as the claim states it, fails: the provider reports an error, the
    fetch raises, and the timestamp has moved from 0 to the reading of the
    clock that followed the response. *)
Lemma timestamp_moves_although_fetch_raises :
  fst (_make_api_request client "0xab" "txlist" (scripted [rate_limited]))
  = Raise (RuntimeError "An error occurred: API Error: NOTOK")
  /\ last_request_timestamp (scripted [rate_limited]) = 0%float
  /\ last_request_timestamp
       (snd (_make_api_request client "0xab" "txlist" (scripted [rate_limited])))
     = 101%float.
Proof. repeat split; vm_compute; reflexivity. Qed.

(** C6, amended. The timestamp of the last request is set to the reading of
    the clock that follows the decoding of the response body, before the
    provider's status is looked at: it is left as it was when the transport
    fails (the request, its HTTP status or the decoding raises), and it is
    updated once a body is decoded, whether the fetch then returns or
    raises. *)
Theorem last_request_timestamp_after_fetch : forall self address action w,
  match replies w (requests w) with
  | Fails _ =>
      last_request_timestamp (snd (_make_api_request self address action w))
      = last_request_timestamp w
  | Json _ =>
      last_request_timestamp (snd (_make_api_request self address action w))
      = time_time w (S (readings w))
  end.
Proof.
  intros self address action w. rewrite _make_api_request_unfold.
  destruct (replies w (requests w)) as [err|data].
  - rewrite explorer_handler_pure. reflexivity.
  - rewrite judge_pure. reflexivity.
Qed.

(** C10. A provider-reported application error reaches the caller wrapped
    twice: the [RuntimeError] with the message ["API Error: ..."] is raised
    inside the [try] block and caught by the generic handler of the same
    function, which raises ["An error occurred: API Error: ..."]; this holds
    for the fetch of the block explorer client and for the wallet client. *)
Theorem api_error_is_wrapped_twice :
  (forall self address action w data status n message text,
     replies w (requests w) = Json data ->
     getitem data "status" = Ok status -> py_int status = Ok n -> n <> 1 ->
     getitem data "message" = Ok message -> ~ empty_result_message message ->
     py_str message = Ok text ->
     fst (try_except (judge data) raise w)
     = Raise (RuntimeError ("API Error: " ++ text)%string)
     /\ fst (_make_api_request self address action w)
        = Raise (RuntimeError ("An error occurred: API Error: " ++ text)%string)
     /\ fst (_make_api_request self address action w)
        <> Raise (RuntimeError ("API Error: " ++ text)%string))
  /\ (forall self address w r error error_message text,
        replies w (requests w) = Json r ->
        getitem r "error" = Ok error -> truthy error = true ->
        getitem r "error_message" = Ok error_message ->
        py_str error_message = Ok text ->
        fst (get_asset_balances self address w)
        = Raise (RuntimeError ("An error occurred: API Error: " ++ text)%string)
        /\ fst (get_asset_balances self address w)
           <> Raise (RuntimeError ("API Error: " ++ text)%string)).
Proof.
  split.
  - intros self address action w data status n message text
           Hreply Hstatus Hn Hne Hmsg Hother Htext.
    assert (Hraise : fst (_make_api_request self address action w)
              = Raise (RuntimeError ("An error occurred: API Error: " ++ text)%string)).
    { apply (reported_error_raises self address action w data status n message text);
        try assumption.
      apply not_in_strings_NO_TRANSACTIONS; assumption. }
    split; [|split; [exact Hraise|rewrite Hraise; discriminate]].
    unfold try_except, judge, bind, lift, ret, raise.
    rewrite Hstatus, Hn. apply Z.eqb_neq in Hne. rewrite Hne, Hmsg.
    rewrite (not_in_strings_NO_TRANSACTIONS _ Hother), Htext. reflexivity.
  - intros self address w r error error_message text Hreply Herror Htruthy Hmsg Htext.
    assert (Hraise : fst (get_asset_balances self address w)
              = Raise (RuntimeError ("An error occurred: API Error: " ++ text)%string)).
    { unfold get_asset_balances, try_except, bind, http_get, lift, raise. cbn.
      rewrite Hreply. cbn. rewrite Herror. cbn. rewrite Htruthy, Hmsg. cbn.
      rewrite Htext. reflexivity. }
    split; [exact Hraise|rewrite Hraise; discriminate].
Qed.

Lemma api_error_is_wrapped_twice_witness :
  fst (_make_api_request client "0xab" "txlist" (scripted [rate_limited]))
  = Raise (RuntimeError "An error occurred: API Error: NOTOK")
  /\ fst (get_asset_balances wallet "0xab" (scripted [wallet_error]))
     = Raise (RuntimeError "An error occurred: API Error: Invalid API key").
Proof.
  split.
  - refine (proj1 (proj2 (proj1 api_error_is_wrapped_twice client "0xab" "txlist"
                    (scripted [rate_limited]) _ (VStr "0") 0 (VStr "NOTOK") "NOTOK"
                    eq_refl eq_refl eq_refl _ eq_refl _ eq_refl))).
    + discriminate.
    + intros (m & Hm & [->| [->| ->]]); discriminate.
  - exact (proj1 (proj2 api_error_is_wrapped_twice wallet "0xab"
                    (scripted [wallet_error]) _ (VBool true) (VStr "Invalid API key")
                    "Invalid API key" eq_refl eq_refl eq_refl eq_refl eq_refl)).
Defined.

(** ** get_base_currency_balances *)

(** C7, as the claim states it, fails twice.  The one record of the call
    has the field [address], and the field holds the address in lower case;
    and the balance is not always the raw result over 10^18: a raw result of
    29 digits is rounded to 28 digits before it is recorded. *)
Lemma base_currency_balance_has_address :
  fst (get_base_currency_balances client "0xAB" (scripted [balance_found]))
  = Ok [VDict [ ("time", VInt 1700000000); ("address", VStr "0xab");
                ("currency", VStr "ETH");
                ("balance", VDecimal (mkDecimal false 15 (-1))) ]]
  /\ getitem (VDict [ ("time", VInt 1700000000); ("address", VStr "0xab");
                      ("currency", VStr "ETH");
                      ("balance", VDecimal (mkDecimal false 15 (-1))) ])
             "address"
     = Ok (VStr "0xab")
  /\ fst (get_base_currency_balances client "0xAB" (scripted [long_balance_found]))
     = Ok [VDict [ ("time", VInt 1700000000); ("address", VStr "0xab");
                   ("currency", VStr "ETH");
                   ("balance",
                    VDecimal (mkDecimal false 1000000000000000000000000000 (-17))) ]]
  /\ Qeq_bool (decimal.to_Q (mkDecimal false 1000000000000000000000000000 (-17)))
              (inject_Z 10000000000000000000000000001 / inject_Z (10 ^ 18))
     = false.
Proof. repeat split; vm_compute; reflexivity. Qed.

(** A call of [get_base_currency_balances] that returns gives exactly one
    record: the time read from the wall clock, the queried address in lower
    case, the native currency, and the quotient of the raw result. *)
Lemma get_base_currency_balances_Ok : forall self address w balances w',
  get_base_currency_balances self address w = (Ok balances, w')
  <-> exists result v balance,
        _make_api_request self address "balance" (snd (read_clock now_seconds w))
        = (Ok result, w')
        /\ wei_quotient result v
        /\ balance = VDict [ ("time", VInt (now_seconds w (readings w)));
                            ("address", VStr (Text.lower address));
                            ("currency", VStr (base_currency self));
                            ("balance", VDecimal v) ]
        /\ getitem balance "address" = Ok (VStr (Text.lower address))
        /\ balances = [balance].
Proof.
  intros self address w balances w'. unfold get_base_currency_balances.
  rewrite bind_Ok. split.
  - intros (time & w1 & Hclock & H).
    unfold read_clock in Hclock. inversion Hclock; subst time w1; clear Hclock.
    apply bind_Ok in H. destruct H as (result & w2 & Hfetch & H).
    apply bind_Ok in H. destruct H as (v & w3 & Hv & H).
    apply lift_Ok in Hv. destruct Hv as [Hv ->].
    apply wei_value_quotient in Hv.
    unfold ret in H. inversion H; subst; clear H.
    exists result, v. eexists. repeat split; try eassumption; reflexivity.
  - intros (result & v & balance & Hfetch & Hv & -> & _ & ->).
    apply wei_value_quotient in Hv.
    eexists; eexists; split; [reflexivity|].
    apply bind_Ok. exists result, w'; split; [exact Hfetch|].
    apply bind_Ok. exists v, w'; split; [apply lift_Ok; auto|reflexivity].
Qed.

(** ** get_asset_balances *)

Lemma valid_assets_Ok : forall items assets,
  valid_assets items = Ok assets
  <-> Forall (fun i => exists quote, getitem i "quote" = Ok quote) items
      /\ assets = filter quote_passes items.
Proof.
  induction items as [|i r IH]; intros assets; simpl.
  - split.
    + intros H; inversion H; auto.
    + intros [_ ->]; reflexivity.
  - unfold quote_passes at 1. split.
    + intros H. bind_in H. bind_in H. inversion H; subst assets; clear H.
      apply IH in E0. destruct E0 as [F ->]. rewrite E. split; [|reflexivity].
      constructor; [exists a; assumption | assumption].
    + intros [F ->]. inversion F as [|? ? [quote Hq] F']; subst.
      rewrite Hq; simpl.
      rewrite (proj2 (IH (filter quote_passes r)) (conj F' eq_refl)). reflexivity.
Qed.

Lemma asset_body_appends : forall timestamp address acc i,
  asset_body timestamp address acc i
  = (g <- asset_body timestamp address [] i ;; Ok (acc ++ g)).
Proof.
  intros timestamp address acc i. unfold asset_body.
  destruct (getitem i "contract_ticker_symbol") as [c| |]; simpl; try reflexivity.
  destruct (getitem i "contract_address") as [ca| |]; simpl; try reflexivity.
  destruct (getitem i "balance") as [raw| |]; simpl; try reflexivity.
  destruct (py_Decimal raw) as [d| |]; simpl; try reflexivity.
  destruct (getitem i "contract_decimals") as [cd| |]; simpl; try reflexivity.
  destruct (int_pow10 cd) as [p| |]; simpl; try reflexivity.
  destruct (div_by_power d p) as [b| |]; simpl; try reflexivity.
  destruct (getitem i "quote_rate") as [rate| |]; simpl; reflexivity.
Qed.

Lemma asset_body_emits : forall timestamp address i g,
  asset_body timestamp address [] i = Ok g
  <-> exists r, asset_record timestamp address i r /\ g = [r].
Proof.
  intros timestamp address i g; split.
  - unfold asset_body; intros H. do 8 bind_in H. inversion H; subst g; clear H.
    simpl. eexists; split; [|reflexivity].
    exists a, a0, a1, a3, a4, a5, a6. repeat split; try assumption.
    rewrite E2; simpl. assumption.
  - intros (r & (currency & contract & raw & decimals & p & balance & rate
                 & Hc & Hca & Hraw & Hd & Hp & Hb & Hrate & ->) & ->).
    unfold asset_body. bind_in Hb.
    rewrite Hc; simpl. rewrite Hca; simpl. rewrite Hraw; simpl. rewrite E; simpl.
    rewrite Hd; simpl. rewrite Hp; simpl. rewrite Hb; simpl. rewrite Hrate; reflexivity.
Qed.

Lemma wallet_handler_not_Ok : forall (A : Type) err w (a : A) w',
  @wallet_handler A err w <> (Ok a, w').
Proof.
  intros A err w a w'. destruct err; unfold wallet_handler, bind, lift, raise; simpl;
    try discriminate;
    match goal with |- context [str_exn ?e] => destruct (str_exn e); discriminate end.
Qed.

(** The wallet client gets the data of a response that reports no error. *)
Lemma wallet_data_Ok : forall self address w data w',
  try_except
    (r <~ http_get (WalletGet (network self) address (wallet_api_key self)) ;;
     error <~ lift (getitem r "error") ;;
     if truthy error then
       error_message <~ lift (getitem r "error_message") ;;
       text <~ lift (py_str error_message) ;;
       raise (RuntimeError ("API Error: " ++ text)%string)
     else lift (getitem r "data"))
    wallet_handler w = (Ok data, w')
  <-> exists r error,
        replies w (requests w) = Json r
        /\ getitem r "error" = Ok error /\ truthy error = false
        /\ getitem r "data" = Ok data
        /\ w' = after_wallet_request self address w.
Proof.
  intros self address w data w'.
  unfold try_except, bind, http_get, lift, raise, after_wallet_request. split.
  - destruct (replies w (requests w)) as [err|r]; cbn.
    + intros H. apply wallet_handler_not_Ok in H. contradiction.
    + destruct (getitem r "error") as [error| |] eqn:He; cbn.
      * destruct (truthy error) eqn:Ht.
        -- destruct (getitem r "error_message") as [m| |]; cbn;
             [destruct (py_str m); cbn|..]; try discriminate;
             intros H; apply wallet_handler_not_Ok in H; contradiction.
        -- destruct (getitem r "data") as [d| |] eqn:Hd; cbn; try discriminate.
           ++ intros H; inversion H; subst. exists r, error; auto.
           ++ intros H; apply wallet_handler_not_Ok in H; contradiction.
      * intros H; apply wallet_handler_not_Ok in H; contradiction.
      * discriminate.
  - intros (r & error & -> & He & Ht & Hd & ->). cbn.
    rewrite He. cbn. rewrite Ht, Hd. reflexivity.
Qed.

Lemma is_positive_number_true : forall quote,
  is_positive_number quote = true
  <-> (exists n, quote = VInt n /\ 0 < n)
      \/ (exists f, quote = VFloat f /\ PrimFloat.ltb 0%float f = true)
      \/ quote = VBool true.
Proof.
  intros quote; split.
  - destruct quote as [|b|n|f| | | |]; simpl; try discriminate; intros H.
    + right; right. subst b; reflexivity.
    + left. exists n; split; [reflexivity|]. apply Z.ltb_lt; assumption.
    + right; left. exists f; auto.
  - intros [(n & -> & H)| [(f & -> & H)| ->]]; simpl; auto.
    apply Z.ltb_lt; assumption.
Qed.

Lemma asset_balances_of_Ok : forall address data balances,
  asset_balances_of address data = Ok balances
  <-> exists updated_at dt timestamp listed items,
        getitem data "updated_at" = Ok (VStr updated_at)
        /\ datetime.strptime (substring 0 23 updated_at) = Ok dt
        /\ datetime.utc_timestamp dt = Ok timestamp
        /\ getitem data "items" = Ok listed /\ py_iter listed = Ok items
        /\ Forall (fun i => exists quote, getitem i "quote" = Ok quote) items
        /\ Forall2 (asset_record timestamp address) (filter quote_passes items) balances.
Proof.
  intros address data balances. unfold asset_balances_of. split.
  - intros H. bind_in H. rename a into u, E into Eu.
    bind_in H. rename a into trimmed, E into Et.
    bind_in H. rename a into dt, E into Edt.
    bind_in H. rename a into timestamp, E into Ets.
    bind_in H. rename a into listed, E into El.
    bind_in H. rename a into items, E into Ei.
    bind_in H. rename a into assets, E into Ea.
    apply valid_assets_Ok in Ea. destruct Ea as [Hq ->].
    apply (for_each_appends _ _ _ (asset_body_appends timestamp address)) in H.
    destruct H as (groups & F & ->). simpl.
    destruct u as [| | | |s|l|d|]; simpl in Et; try discriminate;
      inversion Et; subst trimmed; clear Et; simpl in Edt; try discriminate.
    exists s, dt, timestamp, listed, items. repeat split; try assumption.
    apply Forall2_singletons. eapply Forall2_weaken; try eassumption.
    intros x g; apply asset_body_emits.
  - intros (s & dt & timestamp & listed & items & Hu & Hdt & Hts & Hl & Hi & Hq & F).
    rewrite Hu; simpl. rewrite Hdt; simpl. rewrite Hts; simpl. rewrite Hl; simpl.
    rewrite Hi; simpl.
    rewrite (proj2 (valid_assets_Ok items _) (conj Hq eq_refl)); simpl.
    apply (for_each_appends _ _ _ (asset_body_appends timestamp address)).
    apply Forall2_singletons_inv in F. destruct F as [F Hc].
    exists (map (fun r => [r]) balances); split; [|exact Hc].
    eapply Forall2_weaken; try eassumption. intros x g; apply asset_body_emits.
Qed.

(** C4. The code departs from the claim on one input: a quote that is no
    number, the JSON literal [true], passes the filter
    [isinstance(quote, (int, float)) and quote > 0], since [bool] is a
    subclass of [int], and the item gets its record. *)
Lemma get_asset_balances_keeps_true_quote :
  getitem truly_quoted "quote" = Ok (VBool true)
  /\ fst (get_asset_balances wallet "0xAB" (scripted [holdings [truly_quoted]]))
     = Ok [VDict [ ("time", VInt 1685622896); ("address", VStr "0xab");
                   ("currency", VStr "DAI"); ("contract", VStr "0x6b");
                   ("balance", VDecimal (mkDecimal false 123 (-2)));
                   ("rate", VFloat 1%float) ]].
Proof. split; vm_compute; reflexivity. Qed.

(** X20. What [get_asset_balances] does, as the code has it, for a network
    without braces and a timestamp within [2^53] microseconds of 1970 (the
    years 1684 to 2255).  It returns exactly one record for each item of the
    response whose quote is an int or a float above zero in Python's sense,
    which takes the JSON literal [true] for the int 1; the items keep their
    order, and an item whose quote is null, zero, negative, [false], a string
    or a container gets no record.  Every record carries the same timestamp,
    read from the first 23 characters of [updated_at] in the format
    [%Y-%m-%dT%H:%M:%S.%f] as UTC, the queried address in lower case, the
    ticker, the contract address, the balance over 10^(contract decimals) and
    the quote rate. *)
Theorem get_asset_balances_emits :
  (forall quote,
     is_positive_number quote = true
     <-> (exists n, quote = VInt n /\ 0 < n)
         \/ (exists f, quote = VFloat f /\ PrimFloat.ltb 0%float f = true)
         \/ quote = VBool true)
  /\ (forall self address w balances w',
        has_brace (network self) = false ->
        get_asset_balances self address w = (Ok balances, w')
        <-> exists r error data updated_at dt timestamp listed items,
              replies w (requests w) = Json r
              /\ getitem r "error" = Ok error /\ truthy error = false
              /\ getitem r "data" = Ok data
              /\ w' = after_wallet_request self address w
              /\ getitem data "updated_at" = Ok (VStr updated_at)
              /\ datetime.strptime (substring 0 23 updated_at) = Ok dt
              /\ datetime.utc_timestamp dt = Ok timestamp
              /\ getitem data "items" = Ok listed /\ py_iter listed = Ok items
              /\ Forall (fun i => exists quote, getitem i "quote" = Ok quote) items
              /\ Forall2 (asset_record timestamp address)
                         (filter quote_passes items) balances).
Proof.
  split; [exact is_positive_number_true|].
  intros self address w balances w' _. unfold get_asset_balances.
  rewrite bind_Ok. split.
  - intros (data & w1 & Hdata & H).
    apply wallet_data_Ok in Hdata. destruct Hdata as (r & error & Hr & He & Ht & Hd & ->).
    apply lift_Ok in H. destruct H as [H ->].
    apply asset_balances_of_Ok in H.
    destruct H as (s & dt & timestamp & listed & items & H).
    exists r, error, data, s, dt, timestamp, listed, items.
    repeat split; try assumption; apply H.
  - intros (r & error & data & s & dt & timestamp & listed & items
            & Hr & He & Ht & Hd & -> & H).
    exists data, (after_wallet_request self address w). split.
    + apply wallet_data_Ok. exists r, error; auto.
    + apply lift_Ok. split; [|reflexivity].
      apply asset_balances_of_Ok. exists s, dt, timestamp, listed, items. exact H.
Qed.

(** The quotes that the specification lists, and the timestamp of its
    example. *)
Example quotes_and_timestamp :
  is_positive_number VNone = false
  /\ is_positive_number (VInt 0) = false
  /\ is_positive_number (VFloat 0%float) = false
  /\ is_positive_number (VInt (-3)) = false
  /\ is_positive_number (VFloat (-0.5)%float) = false
  /\ is_positive_number (VStr "12.5") = false
  /\ is_positive_number (VFloat 0x1.a36e2eb1c432dp-14%float) = true
  /\ (dt <- datetime.strptime (substring 0 23 "2023-06-01T12:34:56.789123999Z") ;;
      datetime.utc_timestamp dt) = Ok 1685622896.
Proof. repeat split; vm_compute; reflexivity. Qed.

(** ** download *)

Lemma quiet_ret : forall (A : Type) (a : A), quiet (ret a).
Proof. intros A a w; reflexivity. Qed.

Lemma quiet_lift : forall (A : Type) (o : outcome A), quiet (lift o).
Proof. intros A o w; reflexivity. Qed.

Lemma quiet_raise : forall (A : Type) (e : exn), quiet (@raise A e).
Proof. intros A e w; reflexivity. Qed.

Lemma quiet_bind : forall (A B : Type) (m : M A) (k : A -> M B),
  quiet m -> (forall a, quiet (k a)) -> quiet (bind m k).
Proof.
  intros A B m k Hm Hk w. unfold bind. specialize (Hm w).
  destruct (m w) as [[a| |] w1]; simpl in *; try assumption.
  rewrite Hk. assumption.
Qed.

Lemma quiet_try_except : forall (A : Type) (body : M A) (handler : exn -> M A),
  quiet body -> (forall e, quiet (handler e)) -> quiet (try_except body handler).
Proof.
  intros A body handler Hb Hh w. unfold try_except. specialize (Hb w).
  destruct (body w) as [[a| |] w1]; simpl in *; try assumption.
  rewrite Hh. assumption.
Qed.

Lemma quiet_read_clock : forall (A : Type) (face : world -> nat -> A),
  quiet (read_clock face).
Proof. intros A face w; reflexivity. Qed.

Lemma quiet_set_last_request_timestamp : forall t, quiet (set_last_request_timestamp t).
Proof. intros t w; reflexivity. Qed.

Lemma quiet_get_last_request_timestamp : quiet get_last_request_timestamp.
Proof. intros w; reflexivity. Qed.

Lemma writes_app : forall t e,
  match e with Wrote _ _ => False | _ => True end ->
  writes (t ++ [e]) = writes t.
Proof.
  intros t e He. unfold writes. rewrite filter_app. simpl.
  destruct e; try contradiction; apply app_nil_r.
Qed.

Lemma quiet_emit : forall e,
  match e with Wrote _ _ => False | _ => True end -> quiet (emit e).
Proof. intros e He w. simpl. apply writes_app; assumption. Qed.

Lemma quiet_http_get : forall e,
  match e with Wrote _ _ => False | _ => True end -> quiet (http_get e).
Proof.
  intros e He w. unfold http_get.
  destruct (replies w (requests w)); simpl; apply writes_app; assumption.
Qed.

Lemma quiet_explorer_handler : forall (A : Type) e, quiet (@explorer_handler A e).
Proof. intros A e w. rewrite explorer_handler_pure. reflexivity. Qed.

Lemma quiet_wallet_handler : forall (A : Type) e, quiet (@wallet_handler A e).
Proof. intros A e w. destruct e; reflexivity. Qed.

Ltac quiet_steps :=
  repeat first
    [ apply quiet_ret | apply quiet_lift | apply quiet_raise
    | apply quiet_read_clock | apply quiet_get_last_request_timestamp
    | apply quiet_set_last_request_timestamp
    | apply quiet_explorer_handler | apply quiet_wallet_handler
    | apply quiet_emit; exact I | apply quiet_http_get; exact I
    | apply quiet_try_except; [|intros]
    | apply quiet_bind; [|intros]
    | match goal with
      | |- quiet (if ?b then _ else _) => destruct b
      | |- quiet (let '(_, _) := ?p in _) => destruct p
      end ].

Lemma quiet__make_api_request : forall self address action,
  quiet (_make_api_request self address action).
Proof. intros; unfold _make_api_request; quiet_steps. Qed.

Lemma quiet_download_body : forall api wallet_api acc address,
  quiet (download_body api wallet_api acc address).
Proof.
  intros api wallet_api [transactions balances] address.
  unfold download_body, get_normal_transactions, get_internal_transactions,
    get_erc20_transfers, get_asset_balances.
  quiet_steps; apply quiet__make_api_request.
Qed.

Lemma quiet_for_each_M : forall (A S : Type) (body : S -> A -> M S),
  (forall s x, quiet (body s x)) ->
  forall items s, quiet (for_each_M body items s).
Proof.
  intros A S body Hb. induction items as [|x r IH]; intros s; simpl.
  - apply quiet_ret.
  - apply quiet_bind; [apply Hb | intros; apply IH].
Qed.

Lemma quiet_fetch_all : forall cfg, quiet (fetch_all cfg).
Proof.
  intros cfg. unfold fetch_all, BlockExplorerApi_init. quiet_steps.
  apply quiet_for_each_M. intros; apply quiet_download_body.
Qed.

(** The loop of [download] makes the fetches of the schedule, one after the
    other. *)
Lemma loop_is_schedule : forall api wallet_api addresses acc w,
  for_each_M (download_body api wallet_api) addresses acc w
  = run_schedule api wallet_api (schedule addresses) acc w.
Proof.
  intros api wallet_api. induction addresses as [|a r IH]; intros acc w.
  - reflexivity.
  - destruct acc as [transactions balances].
    simpl. unfold download_body, bind.
    destruct (get_normal_transactions api a w) as [[r1| |] w1]; try reflexivity.
    destruct (get_internal_transactions api a w1) as [[r2| |] w2]; try reflexivity.
    destruct (get_erc20_transfers api a w2) as [[r3| |] w3]; try reflexivity.
    destruct (get_asset_balances wallet_api a w3) as [[r4| |] w4]; try reflexivity.
    simpl. unfold ret. apply IH.
Qed.

Lemma fetch_all_is_schedule : forall cfg w,
  fetch_all cfg w
  = run_schedule (config_api cfg) (config_wallet_api cfg)
                 (schedule (map fst (account_map cfg))) ([], []) (at_start w).
Proof. intros cfg w. unfold fetch_all. apply loop_is_schedule. Qed.

(** A fetch that raises ends the schedule there and then. *)
Lemma run_schedule_raises : forall api wallet_api done address k rest acc w acc1 w1 e w2,
  run_schedule api wallet_api done acc w = (Ok acc1, w1) ->
  run_fetch api wallet_api address k w1 = (Raise e, w2) ->
  run_schedule api wallet_api (done ++ (address, k) :: rest) acc w = (Raise e, w2).
Proof.
  intros api wallet_api. induction done as [|[a k'] done IH];
    intros address k rest acc w acc1 w1 e w2 Hdone Hfetch; simpl in *.
  - unfold ret in Hdone. inversion Hdone; subst. unfold bind. rewrite Hfetch. reflexivity.
  - unfold bind in *.
    destruct (run_fetch api wallet_api a k' w) as [[r| |] w']; try discriminate.
    eapply IH; eassumption.
Qed.

Lemma download_unfold : forall cfg output_dir w,
  download cfg output_dir w
  = match fetch_all cfg w with
    | (Ok (transactions, balances), w1) =>
        (Ok tt,
         mkWorld (time_time w1) (now_seconds w1) (replies w1) (readings w1)
                 (requests w1) (last_request_timestamp w1)
                 (trace w1 ++ saved cfg output_dir transactions balances))
    | (Raise e, w1) => (Raise e, w1)
    | (Beyond, w1) => (Beyond, w1)
    end.
Proof.
  intros cfg output_dir w. unfold download. unfold bind at 1.
  destruct (fetch_all cfg w) as [[[transactions balances]| |] w1]; try reflexivity.
  unfold bind, emit, saved. simpl. repeat rewrite <- app_assoc. reflexivity.
Qed.

Lemma pair_of_fst : forall (A : Type) (x : outcome A * world) (o : outcome A),
  fst x = o -> x = (o, snd x).
Proof. intros A [o' w] o H; simpl in *; subst; reflexivity. Qed.

(** C3. [download] makes the fetches of its addresses one after the other
    (normal, internal, token, asset balance for each address).  When one of
    them raises, [download] raises the same exception there and then, in the
    world that the failed fetch left, and neither file has been written; a
    call that does not return has written no file; and a call that returns
    has made every fetch with success before its first file operation. *)
Theorem download_writes_after_all_fetches : forall cfg output_dir w,
  (forall done address k rest acc e,
     schedule (map fst (account_map cfg)) = done ++ (address, k) :: rest ->
     fst (run_schedule (config_api cfg) (config_wallet_api cfg) done ([], [])
            (at_start w)) = Ok acc ->
     fst (run_fetch (config_api cfg) (config_wallet_api cfg) address k
            (snd (run_schedule (config_api cfg) (config_wallet_api cfg) done ([], [])
                    (at_start w)))) = Raise e ->
     fst (download cfg output_dir w) = Raise e
     /\ snd (download cfg output_dir w)
        = snd (run_fetch (config_api cfg) (config_wallet_api cfg) address k
                 (snd (run_schedule (config_api cfg) (config_wallet_api cfg) done
                         ([], []) (at_start w))))
     /\ writes (trace (snd (download cfg output_dir w))) = writes (trace w))
  /\ (forall o w', download cfg output_dir w = (o, w') -> o <> Ok tt ->
        writes (trace w') = writes (trace w))
  /\ (forall w', download cfg output_dir w = (Ok tt, w') ->
        exists transactions balances w1,
          run_schedule (config_api cfg) (config_wallet_api cfg)
                       (schedule (map fst (account_map cfg))) ([], []) (at_start w)
          = (Ok (transactions, balances), w1)
          /\ writes (trace w1) = writes (trace w)
          /\ trace w' = trace w1 ++ saved cfg output_dir transactions balances).
Proof.
  intros cfg output_dir w.
  assert (Hquiet : forall o w', download cfg output_dir w = (o, w') -> o <> Ok tt ->
                     writes (trace w') = writes (trace w)).
  { intros o w' H Ho. rewrite download_unfold in H.
    pose proof (quiet_fetch_all cfg w) as Hq.
    destruct (fetch_all cfg w) as [[[transactions balances]| |] w1];
      inversion H; subst; simpl in Hq; [contradiction| |]; assumption. }
  split; [|split; [exact Hquiet|]].
  - intros done address k rest acc e Hsplit Hdone Hfetch.
    apply pair_of_fst in Hdone. apply pair_of_fst in Hfetch.
    assert (H : download cfg output_dir w
                = (Raise e,
                   snd (run_fetch (config_api cfg) (config_wallet_api cfg) address k
                          (snd (run_schedule (config_api cfg) (config_wallet_api cfg)
                                  done ([], []) (at_start w)))))).
    { rewrite download_unfold, fetch_all_is_schedule, Hsplit.
      rewrite (run_schedule_raises _ _ _ _ _ _ _ _ _ _ _ _ Hdone Hfetch). reflexivity. }
    rewrite H. repeat split. apply (Hquiet _ _ H). discriminate.
  - intros w' H. rewrite download_unfold in H.
    pose proof (quiet_fetch_all cfg w) as Hq.
    rewrite fetch_all_is_schedule in H, Hq.
    destruct (run_schedule (config_api cfg) (config_wallet_api cfg)
                (schedule (map fst (account_map cfg))) ([], []) (at_start w))
      as [[[transactions balances]| |] w1]; try discriminate.
    inversion H; subst; clear H. exists transactions, balances, w1.
    repeat split. exact Hq.
Qed.

(** *** A run of [download] *)

(** One address; a successful and a failed outgoing transaction, no internal
    transaction, a token transfer: four transactions are saved. *)
Example download_saves_four_transactions :
  fst (download (portfolio ["0xAb"]) "out"
         (scripted [ found [outgoing; failed_outgoing]; no_internal_transactions;
                     found [token_transfer]; holdings [] ]))
  = Ok tt
  /\ writes (trace (snd (download (portfolio ["0xAb"]) "out"
         (scripted [ found [outgoing; failed_outgoing]; no_internal_transactions;
                     found [token_transfer]; holdings [] ]))))
     = [ Wrote "out/eth.json"
           [ VDict [ ("tx_id", VStr "0x01"); ("time", VInt 1600000000);
                     ("from", VStr "0xAB"); ("to", VStr "0xcd");
                     ("currency", VStr "ETH");
                     ("value", VDecimal (mkDecimal false 15 (-1))) ];
             VDict [ ("tx_id", VStr "0x01"); ("time", VInt 1600000000);
                     ("from", VStr "0xAB"); ("to", VStr MINER);
                     ("currency", VStr "ETH");
                     ("value", VDecimal (mkDecimal false 42 (-5))) ];
             VDict [ ("tx_id", VStr "0x02"); ("time", VInt 1600000001);
                     ("from", VStr "0xab"); ("to", VStr MINER);
                     ("currency", VStr "ETH");
                     ("value", VDecimal (mkDecimal false 42 (-5))) ];
             VDict [ ("tx_id", VStr "0x03"); ("time", VInt 1600000002);
                     ("from", VStr "0xab"); ("to", VStr "0xcd");
                     ("currency", VStr "USDC");
                     ("value", VDecimal (mkDecimal false 25 (-1)));
                     ("contract", VStr "0xa0b8") ] ];
         Wrote "out/eth-balances.json" [] ].
Proof. split; vm_compute; reflexivity. Qed.

Lemma download_writes_after_all_fetches_witness :
  fst (download two_addresses "out" (scripted second_address_fails))
  = Raise (RuntimeError "HTTP error occurred: 503 Server Error: Service Unavailable")
  /\ writes (trace (snd (download two_addresses "out" (scripted second_address_fails))))
     = [].
Proof.
  pose proof (proj1 (download_writes_after_all_fetches
                       two_addresses "out" (scripted second_address_fails))
                (schedule ["0xAb"] ++ [("0xCd", Normal)]) "0xCd" Internal
                [("0xCd", Token); ("0xCd", AssetBalance)]
                fetched_before_failure
                (RuntimeError "HTTP error occurred: 503 Server Error: Service Unavailable"))
    as H.
  destruct H as (Hraise & _ & Hwrites);
    [ reflexivity | vm_compute; reflexivity | vm_compute; reflexivity | ].
  split; [exact Hraise | exact Hwrites].
Defined.

(** ** Scaling by a power of ten *)

Module ScalingFacts.
Import Text decimal.
Local Open Scope Z_scope.

Lemma ndigits_aux_spec : forall fuel n,
  0 <= n < 10 ^ (Z.of_nat fuel + 1) ->
  1 <= ndigits_aux fuel n
  /\ n < 10 ^ ndigits_aux fuel n
  /\ (0 < n -> 10 ^ (ndigits_aux fuel n - 1) <= n).
Proof.
  induction fuel as [|f IH]; intros n Hn.
  - simpl in *. repeat split; lia.
  - cbn [ndigits_aux]. destruct (Z.ltb_spec n 10) as [Hlt|Hge].
    + simpl. repeat split; lia.
    + assert (Hq : 0 <= n / 10 < 10 ^ (Z.of_nat f + 1)).
      { split; [apply Z.div_pos; lia|].
        apply Z.div_lt_upper_bound; [lia|].
        replace (Z.of_nat (S f) + 1) with (Z.succ (Z.of_nat f + 1)) in Hn by lia.
        rewrite Z.pow_succ_r in Hn by lia. lia. }
      destruct (IH _ Hq) as (H1 & H2 & H3).
      assert (Hdiv : 10 * (n / 10) <= n < 10 * (n / 10) + 10).
      { pose proof (Z.div_mod n 10 ltac:(lia)). pose proof (Z.mod_pos_bound n 10 ltac:(lia)).
        lia. }
      repeat split.
      * lia.
      * replace (1 + ndigits_aux f (n / 10)) with (Z.succ (ndigits_aux f (n / 10))) by lia.
        rewrite Z.pow_succ_r by lia. lia.
      * intros _. replace (1 + ndigits_aux f (n / 10) - 1)
          with (Z.succ (ndigits_aux f (n / 10) - 1)) by lia.
        rewrite Z.pow_succ_r by lia.
        assert (0 < n / 10) by (apply Z.div_str_pos; lia). specialize (H3 H). lia.
Qed.

Lemma ndigits_spec : forall n,
  0 <= n ->
  1 <= ndigits n /\ n < 10 ^ ndigits n /\ (0 < n -> 10 ^ (ndigits n - 1) <= n).
Proof.
  intros n Hn. unfold ndigits. apply ndigits_aux_spec. split; [assumption|].
  destruct (Z.eq_dec n 0) as [->|Hne]; [simpl; lia|].
  rewrite Z2Nat.id by apply Z.log2_nonneg.
  pose proof (Z.log2_spec n ltac:(lia)) as [_ H].
  apply Z.lt_le_trans with (1 := H).
  replace (Z.succ (Z.log2 n)) with (Z.log2 n + 1) by lia.
  apply Z.pow_le_mono_l. lia.
Qed.

(** The number of digits is the one exponent that brackets the number. *)
Lemma ndigits_unique : forall n k,
  0 < n -> 10 ^ (k - 1) <= n < 10 ^ k -> ndigits n = k.
Proof.
  intros n k Hn [Hlo Hhi].
  destruct (ndigits_spec n ltac:(lia)) as (H1 & H2 & H3). specialize (H3 Hn).
  assert (Hk : 1 <= k).
  { destruct (Z.le_gt_cases 1 k); [assumption|]. exfalso.
    destruct (Z.eq_dec k 0) as [->|]; [simpl in Hhi; lia|].
    rewrite Z.pow_neg_r in Hhi by lia. lia. }
  assert (ndigits n - 1 < k).
  { apply (Z.pow_lt_mono_r_iff 10); lia. }
  assert (k - 1 < ndigits n).
  { apply (Z.pow_lt_mono_r_iff 10); lia. }
  lia.
Qed.

Lemma ndigits_pow10 : forall z, 0 <= z -> ndigits (10 ^ z) = z + 1.
Proof.
  intros z Hz. apply ndigits_unique.
  - apply Z.pow_pos_nonneg; lia.
  - replace (z + 1 - 1) with z by lia. split; [lia|].
    apply Z.pow_lt_mono_r; lia.
Qed.

Lemma ndigits_le : forall n k, 0 < n -> n < 10 ^ k -> ndigits n <= k.
Proof.
  intros n k Hn Hk.
  destruct (ndigits_spec n ltac:(lia)) as (H1 & H2 & H3). specialize (H3 Hn).
  assert (0 <= k).
  { destruct (Z.le_gt_cases 0 k); [assumption|]. rewrite Z.pow_neg_r in Hk; lia. }
  assert (ndigits n - 1 < k); [|lia].
  apply (Z.pow_lt_mono_r_iff 10); lia.
Qed.

(** Stripping zeros keeps the value, goes no further than [n] steps, and
    takes every zero that a factor [10^m] brings, [m <= n]. *)
Lemma strip_zeros_spec : forall n coeff exp m a,
  coeff <> 0 -> 0 <= m <= Z.of_nat n -> coeff = a * 10 ^ m ->
  exists j, m <= j <= Z.of_nat n
            /\ snd (strip_zeros n coeff exp) = exp + j
            /\ coeff = fst (strip_zeros n coeff exp) * 10 ^ j.
Proof.
  induction n as [|n IH]; intros coeff exp m a Hc Hm Ha.
  - exists 0. simpl. repeat split; lia.
  - cbn [strip_zeros]. destruct (Z.eqb_spec (coeff mod 10) 0) as [Hz|Hnz].
    + assert (Hdiv : coeff = 10 * (coeff / 10)).
      { pose proof (Z.div_mod coeff 10 ltac:(lia)). lia. }
      assert (Hq : coeff / 10 <> 0) by lia.
      destruct (Z.eq_dec m 0) as [->|Hm0].
      * destruct (IH (coeff / 10) (exp + 1) 0 (coeff / 10) Hq ltac:(lia) ltac:(simpl; lia))
          as (j & Hj & He & Hv).
        exists (j + 1). repeat split; try lia.
        rewrite Z.pow_add_r by lia. rewrite Z.pow_1_r. lia.
      * assert (Ha' : coeff / 10 = a * 10 ^ (m - 1)).
        { replace m with (Z.succ (m - 1)) in Ha by lia.
          rewrite Z.pow_succ_r in Ha by lia. lia. }
        destruct (IH (coeff / 10) (exp + 1) (m - 1) a Hq ltac:(lia) Ha')
          as (j & Hj & He & Hv).
        exists (j + 1). repeat split; try lia.
        rewrite Z.pow_add_r by lia. rewrite Z.pow_1_r. lia.
    + assert (m = 0).
      { destruct (Z.eq_dec m 0); [assumption|]. exfalso. apply Hnz.
        replace m with (Z.succ (m - 1)) in Ha by lia.
        rewrite Z.pow_succ_r in Ha by lia. subst coeff.
        replace (a * (10 * 10 ^ (m - 1))) with ((a * 10 ^ (m - 1)) * 10) by lia.
        apply Z.mod_mul. lia. }
      subst m. exists 0. simpl. repeat split; lia.
Qed.

(** The quotient of two nonzero decimals when the division comes out even. *)
Lemma truediv_even : forall self other,
  dint other <> 0 -> dint self <> 0 ->
  0 <= ndigits (dint other) - ndigits (dint self) + prec + 1 ->
  (dint self * 10 ^ (ndigits (dint other) - ndigits (dint self) + prec + 1))
    mod dint other = 0 ->
  truediv self other
  = let shift := ndigits (dint other) - ndigits (dint self) + prec + 1 in
    let exp := dexp self - dexp other - shift in
    let stripped :=
      strip_zeros (Z.to_nat (dexp self - dexp other - exp))
                  ((dint self * 10 ^ shift) / dint other) exp in
    _fix (mkDecimal (xorb (dsign self) (dsign other)) (fst stripped) (snd stripped)).
Proof.
  intros self other Ho Hs Hshift Hmod. unfold truediv.
  apply Z.eqb_neq in Ho. apply Z.eqb_neq in Hs. rewrite Ho, Hs.
  apply Z.leb_le in Hshift. rewrite Hshift. rewrite Hmod. cbn [Z.eqb].
  cbv zeta.
  destruct (strip_zeros _ _ _) as [c e]. reflexivity.
Qed.

(** A decimal of at most 28 digits whose exponent is in range is left as
    it is. *)
Lemma _fix_short : forall s c e,
  0 < c < 10 ^ 28 -> Etiny + 27 <= e <= 0 ->
  _fix (mkDecimal s c e) = Ok (mkDecimal s c e).
Proof.
  intros s c e Hc He. unfold _fix. cbn [dint dexp dsign].
  destruct (Z.eqb_spec c 0) as [H0|_]; [lia|].
  pose proof (ndigits_le c 28 ltac:(lia) ltac:(lia)) as Hle.
  destruct (ndigits_spec c ltac:(lia)) as (H1 & _ & _).
  unfold Etop, Etiny, Emax, Emin, prec in *.
  destruct (Z.ltb_spec (999999 - 28 + 1) (ndigits c + e - 28)) as [H|_]; [lia|].
  destruct (Z.ltb_spec (ndigits c + e - 28) (-999999 - 28 + 1)) as [H|_]; [lia|].
  destruct (Z.ltb_spec e (ndigits c + e - 28)) as [H|_]; [lia|].
  reflexivity.
Qed.

(** A raw value of at most 28 digits over a power of ten: the quotient is
    exact. *)
Lemma truediv_by_pow10 : forall s V z e2,
  0 <= V < 10 ^ 28 -> 0 <= z -> 0 <= e2 -> z + e2 <= 999999 ->
  exists c e,
    truediv (mkDecimal s V 0) (mkDecimal false (10 ^ z) e2) = Ok (mkDecimal s c e)
    /\ 0 <= c /\ - (z + e2) <= e <= 0 /\ c * 10 ^ (e + z + e2) = V.
Proof.
  intros s V z e2 HV Hz He2 Hsum.
  assert (Hpz : 0 < 10 ^ z) by (apply Z.pow_pos_nonneg; lia).
  destruct (Z.eq_dec V 0) as [->|HV0].
  - exists 0, (- e2). unfold truediv. cbn [dint dexp dsign].
    destruct (Z.eqb_spec (10 ^ z) 0) as [H|_]; [lia|]. cbn [Z.eqb].
    unfold _fix. cbn [dint dexp dsign Z.eqb]. rewrite xorb_false_r.
    unfold Etiny, Emax, Emin, prec.
    rewrite Z.max_l by lia. rewrite Z.min_l by lia.
    replace (0 - e2) with (- e2) by lia. repeat split; lia.
  - pose proof (ndigits_le V 28 ltac:(lia) ltac:(lia)) as HL.
    destruct (ndigits_spec V ltac:(lia)) as (HL1 & _ & _).
    pose proof (ndigits_pow10 z Hz) as Hnz.
    assert (Hshift : 0 <= ndigits (10 ^ z) - ndigits V + prec + 1)
      by (unfold prec; lia).
    assert (Hsplit : 10 ^ (ndigits (10 ^ z) - ndigits V + prec + 1)
                     = 10 ^ (ndigits (10 ^ z) - ndigits V + prec + 1 - z) * 10 ^ z).
    { rewrite <- Z.pow_add_r by (unfold prec; lia). f_equal. lia. }
    rewrite truediv_even; cbn [dint dexp dsign]; try lia.
    2:{ rewrite Hsplit, Z.mul_assoc. apply Z.mod_mul. lia. }
    cbv zeta. rewrite xorb_false_r.
    set (shift := ndigits (10 ^ z) - ndigits V + prec + 1) in *.
    assert (Hq : V * 10 ^ shift / 10 ^ z = V * 10 ^ (shift - z)).
    { rewrite Hsplit, Z.mul_assoc. apply Z.div_mul. lia. }
    rewrite Hq.
    replace (0 - e2 - (0 - e2 - shift)) with shift by lia.
    assert (Hsz : 2 <= shift - z <= 29) by (unfold shift, prec; lia).
    assert (Hps : 0 < 10 ^ (shift - z)) by (apply Z.pow_pos_nonneg; lia).
    destruct (strip_zeros_spec (Z.to_nat shift) (V * 10 ^ (shift - z)) (0 - e2 - shift)
                (shift - z) V)
      as (j & Hj & He & Hv).
    { nia. }
    { rewrite Z2Nat.id by lia. lia. }
    { reflexivity. }
    rewrite Z2Nat.id in Hj by lia.
    set (c := fst (strip_zeros (Z.to_nat shift) (V * 10 ^ (shift - z)) (0 - e2 - shift))) in *.
    set (e := snd (strip_zeros (Z.to_nat shift) (V * 10 ^ (shift - z)) (0 - e2 - shift))) in *.
    assert (Hval : V = c * 10 ^ (j - (shift - z))).
    { replace j with ((j - (shift - z)) + (shift - z)) in Hv at 1 by lia.
      rewrite Z.pow_add_r in Hv by lia. nia. }
    assert (Hpj : 0 < 10 ^ (j - (shift - z))) by (apply Z.pow_pos_nonneg; lia).
    assert (Hc : 0 < c) by nia.
    assert (Hc28 : c < 10 ^ 28) by nia.
    exists c, e. rewrite _fix_short; [| lia | unfold Etiny, Emin, prec; lia].
    repeat split; try lia.
    rewrite Hval. f_equal. f_equal. lia.
Qed.

(** The power of ten that [10 ** Decimal(d)] is, for a natural [d]: the
    library writes it with at most 28 digits. *)
Lemma _fix_pow10_28 : forall e,
  Etiny <= e + 1 <= Etop ->
  _fix (mkDecimal false (10 ^ 28) e) = Ok (mkDecimal false (10 ^ 27) (e + 1)).
Proof.
  intros e He. unfold _fix. cbn [dint dexp dsign].
  change (10 ^ 28 =? 0) with false. cbv iota.
  rewrite (ndigits_pow10 28) by lia.
  unfold Etop, Etiny, Emax, Emin, prec in *.
  destruct (Z.ltb_spec (999999 - 28 + 1) (28 + 1 + e - 28)) as [H|_]; [lia|].
  destruct (Z.ltb_spec (28 + 1 + e - 28) (-999999 - 28 + 1)) as [H|_]; [lia|].
  destruct (Z.ltb_spec e (28 + 1 + e - 28)) as [_|H]; [|lia].
  destruct (Z.ltb_spec (28 + 1 + e - (28 + 1 + e - 28)) 0) as [H|_]; [lia|].
  replace (28 + 1 + e - 28 - e) with 1 by lia.
  change (rounds_up (10 ^ 28 / 10 ^ 1) (10 ^ 28 mod 10 ^ 1) (10 ^ 1)) with false.
  cbv iota.
  destruct (Z.ltb_spec (999999 - 28 + 1) (28 + 1 + e - 28)) as [H|_]; [lia|].
  f_equal. f_equal. lia.
Qed.

Lemma rpow10_natural : forall d,
  0 <= d <= 999999 ->
  rpow10 (mkDecimal false d 0)
  = Ok (mkDecimal false (10 ^ Z.min d 27) (d - Z.min d 27)).
Proof.
  intros d Hd. unfold rpow10. cbn [dint dexp dsign negb andb].
  destruct (Z.eqb_spec d 0) as [->|Hd0]; [reflexivity|].
  pose proof (ndigits_le d 6 ltac:(lia) ltac:(lia)) as HL.
  destruct (ndigits_spec d ltac:(lia)) as (HL1 & _ & _).
  destruct (Z.leb_spec 6 (0 + (0 + ndigits d - 1))) as [H|_]; [lia|].
  destruct (strip_zeros_spec (Z.to_nat (ndigits d)) d 0 0 d ltac:(lia) ltac:(lia)
              ltac:(simpl; lia)) as (j & Hj & He & Hv).
  destruct (strip_zeros (Z.to_nat (ndigits d)) d 0) as [yc ye]. cbn [fst snd] in *.
  destruct (Z.ltb_spec ye 0) as [H|_]; [lia|].
  replace ye with j by lia. rewrite <- Hv.
  unfold prec. replace (28 + 1 - 1) with 28 by lia.
  destruct (Z.le_gt_cases d 27) as [Hsmall|Hlarge].
  - rewrite (Z.min_l d 28), (Z.min_l d 27) by lia.
    replace (d - d) with 0 by lia.
    apply _fix_short.
    + split; [apply Z.pow_pos_nonneg; lia|]. apply Z.pow_lt_mono_r; lia.
    + unfold Etiny, Emin, prec. lia.
  - rewrite (Z.min_r d 28), (Z.min_r d 27) by lia.
    rewrite _fix_pow10_28 by (unfold Etiny, Etop, Emax, Emin, prec; lia).
    f_equal. f_equal. lia.
Qed.

(** *** The text of an integer, read back *)

Lemma digit_char_facts : forall d,
  0 <= d < 10 ->
  is_digit (digit_char d) = true /\ digit_value (digit_char d) = d.
Proof.
  intros d Hd.
  assert (H : d = 0 \/ d = 1 \/ d = 2 \/ d = 3 \/ d = 4 \/ d = 5 \/ d = 6 \/ d = 7
              \/ d = 8 \/ d = 9) by lia.
  repeat (destruct H as [->|H]; [split; reflexivity|]). subst; split; reflexivity.
Qed.

Lemma digits_value_snoc : forall l c,
  digits_value (l ++ [c]) = 10 * digits_value l + digit_value c.
Proof. intros l c. unfold digits_value. rewrite fold_left_app. reflexivity. Qed.

Lemma le_digits_spec : forall fuel n,
  0 <= n < 10 ^ (Z.of_nat fuel + 1) ->
  forallb is_digit (rev (le_digits fuel n)) = true
  /\ digits_value (rev (le_digits fuel n)) = n
  /\ rev (le_digits fuel n) <> [].
Proof.
  induction fuel as [|f IH]; intros n Hn.
  - cbn [le_digits rev app]. simpl in Hn.
    rewrite Z.mod_small by lia.
    destruct (digit_char_facts n ltac:(lia)) as [H1 H2].
    cbn [forallb]. rewrite H1. unfold digits_value. cbn [fold_left]. rewrite H2.
    repeat split; try discriminate; try lia.
  - cbn [le_digits]. destruct (Z.ltb_spec n 10) as [Hlt|Hge].
    + cbn [rev app]. destruct (digit_char_facts n ltac:(lia)) as [H1 H2].
      cbn [forallb]. rewrite H1. unfold digits_value. cbn [fold_left]. rewrite H2.
      repeat split; try discriminate; try lia.
    + assert (Hq : 0 <= n / 10 < 10 ^ (Z.of_nat f + 1)).
      { split; [apply Z.div_pos; lia|].
        apply Z.div_lt_upper_bound; [lia|].
        replace (Z.of_nat (S f) + 1) with (Z.succ (Z.of_nat f + 1)) in Hn by lia.
        rewrite Z.pow_succ_r in Hn by lia. lia. }
      destruct (IH _ Hq) as (H1 & H2 & H3).
      destruct (digit_char_facts (n mod 10)
                  ltac:(apply Z.mod_pos_bound; lia)) as [D1 D2].
      cbn [rev]. rewrite forallb_app, digits_value_snoc, H1, H2, D2.
      cbn [forallb]. rewrite D1. repeat split.
      * pose proof (Z.div_mod n 10 ltac:(lia)). lia.
      * intros H. apply app_eq_nil in H. destruct H; discriminate.
Qed.

Lemma str_digits_spec : forall n,
  0 <= n ->
  forallb is_digit (rev (le_digits (Z.to_nat (Z.log2 n)) n)) = true
  /\ digits_value (rev (le_digits (Z.to_nat (Z.log2 n)) n)) = n
  /\ rev (le_digits (Z.to_nat (Z.log2 n)) n) <> [].
Proof.
  intros n Hn. apply le_digits_spec. split; [assumption|].
  destruct (Z.eq_dec n 0) as [->|Hne]; [simpl; lia|].
  rewrite Z2Nat.id by apply Z.log2_nonneg.
  pose proof (Z.log2_spec n ltac:(lia)) as [_ H].
  apply Z.lt_le_trans with (1 := H).
  replace (Z.succ (Z.log2 n)) with (Z.log2 n + 1) by lia.
  apply Z.pow_le_mono_l. lia.
Qed.

Lemma digit_not_space : forall c, is_digit c = true -> is_space c = false.
Proof.
  intros c H. destruct c as [[] [] [] [] [] [] [] []];
    try discriminate H; reflexivity.
Qed.

Lemma digit_not_underscore : forall c,
  is_digit c = true -> negb (Ascii.eqb c "_") = true.
Proof.
  intros c H. destruct c as [[] [] [] [] [] [] [] []];
    try discriminate H; reflexivity.
Qed.

Lemma take_sign_digit : forall c r,
  is_digit c = true -> take_sign (c :: r) = (false, c :: r).
Proof.
  intros c r H. destruct c as [[] [] [] [] [] [] [] []];
    try discriminate H; reflexivity.
Qed.

Lemma drop_while_head : forall (p : ascii -> bool) l,
  match l with [] => True | c :: _ => p c = false end -> drop_while p l = l.
Proof. intros p [|c r] H; simpl; [reflexivity|]. rewrite H. reflexivity. Qed.

(** A text that neither starts nor ends with a blank is its own strip. *)
Lemma strip_id : forall (p : ascii -> bool) c l,
  p c = false -> match rev (c :: l) with [] => True | x :: _ => p x = false end ->
  strip p (c :: l) = c :: l.
Proof.
  intros p c l Hc Hlast. unfold strip.
  rewrite (drop_while_head p (c :: l)) by exact Hc.
  rewrite (drop_while_head p (rev (c :: l))) by exact Hlast.
  apply rev_involutive.
Qed.

Lemma last_is_digit : forall l c,
  forallb is_digit l = true -> l <> [] \/ is_digit c = true ->
  forall pre, match rev (pre ++ l) with
              | [] => l = [] /\ pre = []
              | x :: _ => l = [] \/ is_digit x = true
              end.
Proof.
  intros l c Hl _ pre. rewrite rev_app_distr.
  destruct l as [|a l] using rev_ind.
  - simpl. destruct (rev pre) eqn:E; [|left; reflexivity].
    split; [reflexivity|]. apply (f_equal (@rev ascii)) in E.
    rewrite rev_involutive in E. exact E.
  - rewrite rev_app_distr. simpl. right.
    rewrite forallb_app in Hl. apply andb_true_iff in Hl. destruct Hl as [_ Hl].
    simpl in Hl. rewrite andb_true_r in Hl. exact Hl.
Qed.

Lemma filter_digits : forall l,
  forallb is_digit l = true ->
  filter (fun c => negb (Ascii.eqb c "_")) l = l.
Proof.
  induction l as [|c l IH]; simpl; intros H; [reflexivity|].
  apply andb_true_iff in H. destruct H as [Hc Hl].
  rewrite (digit_not_underscore c Hc), IH by assumption. reflexivity.
Qed.

Lemma span_digits : forall l,
  forallb is_digit l = true -> span is_digit l = (l, []).
Proof.
  induction l as [|c l IH]; simpl; intros H; [reflexivity|].
  apply andb_true_iff in H. destruct H as [Hc Hl].
  rewrite Hc, IH by assumption. reflexivity.
Qed.

(** [Decimal] reads the digits of an integer, with or without a minus
    sign, as that integer. *)
Lemma of_string_digits : forall (negative : bool) ds,
  forallb is_digit ds = true -> ds <> [] ->
  of_string (string_of_list_ascii (if negative then "-"%char :: ds else ds))
  = Ok (mkDecimal negative (digits_value ds) 0).
Proof.
  intros negative ds Hds Hne. unfold of_string.
  rewrite list_ascii_of_string_of_list_ascii.
  destruct ds as [|c ds]; [contradiction|].
  assert (Hc : is_digit c = true).
  { simpl in Hds. apply andb_true_iff in Hds. apply Hds. }
  assert (Hlast : forall pre,
             match rev (pre ++ c :: ds) with
             | [] => True
             | x :: _ => is_space x = false
             end).
  { intros pre. pose proof (last_is_digit (c :: ds) c Hds (or_intror Hc) pre) as H.
    destruct (rev (pre ++ c :: ds)); [exact I|].
    destruct H as [H|H]; [discriminate|]. apply digit_not_space; assumption. }
  destruct negative.
  - rewrite (strip_id is_space "-" (c :: ds) eq_refl (Hlast ["-"%char])).
    assert (Hf : filter (fun x => negb (Ascii.eqb x "_")) ("-"%char :: c :: ds)
                 = "-"%char :: c :: ds).
    { rewrite <- (filter_digits (c :: ds) Hds) at 2. reflexivity. }
    rewrite Hf. cbn [take_sign]. rewrite (span_digits (c :: ds) Hds).
    rewrite app_nil_r. reflexivity.
  - rewrite (strip_id is_space c ds (digit_not_space c Hc) (Hlast [])).
    rewrite (filter_digits (c :: ds) Hds).
    rewrite (take_sign_digit c ds Hc). rewrite (span_digits (c :: ds) Hds).
    rewrite app_nil_r. reflexivity.
Qed.

Lemma py_Decimal_str_of_Z : forall V,
  py_Decimal (VStr (str_of_Z V)) = Ok (mkDecimal (V <? 0) (Z.abs V) 0).
Proof.
  intros V. unfold str_of_Z. cbn [py_Decimal].
  destruct (str_digits_spec (Z.abs V) (Z.abs_nonneg V)) as (H1 & H2 & H3).
  rewrite (of_string_digits (V <? 0) _ H1 H3), H2. reflexivity.
Qed.

(** The value of a decimal whose coefficient, shifted, is the raw value. *)
Lemma to_Q_exact : forall V c e d,
  - d <= e <= 0 -> c * 10 ^ (e + d) = Z.abs V ->
  (to_Q (mkDecimal (V <? 0) c e) == inject_Z V / inject_Z (10 ^ d))%Q.
Proof.
  intros V c e d He Hc. unfold to_Q. cbn [dsign dint dexp].
  set (cs := if V <? 0 then - c else c).
  assert (Hcs : cs * 10 ^ (e + d) = V).
  { unfold cs. destruct (Z.ltb_spec V 0); lia. }
  assert (HK : 0 < 10 ^ (- e)) by (apply Z.pow_pos_nonneg; lia).
  assert (HM : 0 < 10 ^ (e + d)) by (apply Z.pow_pos_nonneg; lia).
  assert (Hd : 10 ^ d = 10 ^ (- e) * 10 ^ (e + d)).
  { rewrite <- Z.pow_add_r by lia. f_equal. lia. }
  replace e with (- - e) at 1 by lia.
  rewrite Qpower_opp.
  change (10 # 1) with (inject_Z 10). rewrite <- Zpower_Qpower by lia.
  rewrite Hd, <- Hcs, !inject_Z_mult.
  assert (HKq : ~ (inject_Z (10 ^ (- e)) == 0)%Q).
  { unfold Qeq; simpl. lia. }
  assert (HMq : ~ (inject_Z (10 ^ (e + d)) == 0)%Q).
  { unfold Qeq; simpl. lia. }
  field. split; assumption.
Qed.

Lemma scaled_exactly : forall V z e2,
  Z.abs V < 10 ^ 28 -> 0 <= z -> 0 <= e2 -> z + e2 <= 999999 ->
  exists v,
    truediv (mkDecimal (V <? 0) (Z.abs V) 0) (mkDecimal false (10 ^ z) e2) = Ok v
    /\ (to_Q v == inject_Z V / inject_Z (10 ^ (z + e2)))%Q.
Proof.
  intros V z e2 HV Hz He2 Hsum.
  destruct (truediv_by_pow10 (V <? 0) (Z.abs V) z e2) as (c & e & Hdiv & Hc & He & Hval);
    try lia.
  exists (mkDecimal (V <? 0) c e). split; [exact Hdiv|].
  apply to_Q_exact; [lia|]. rewrite <- Hval. f_equal. f_equal. lia.
Qed.

End ScalingFacts.

(** C9, as the claim states it, fails: a raw value of 29 digits is rounded
    to 28 digits, and the emitted value is not the raw value over 10^18. *)
Lemma long_raw_value_is_rounded :
  wei_value (VStr "10000000000000000000000000001")
  = Ok (mkDecimal false 1000000000000000000000000000 (-17))
  /\ Qeq_bool (decimal.to_Q (mkDecimal false 1000000000000000000000000000 (-17)))
              (inject_Z 10000000000000000000000000001 / inject_Z (10 ^ 18))
     = false.
Proof. split; vm_compute; reflexivity. Qed.

(** C9, amended. For every raw integer value [V] of at most 28 digits the
    emitted value is [V / 10^d] exactly: for the native currency ([d] is
    18), for a token whose decimals are [d] (at most 999999), and for an
    asset balance; and the text ["1500000000000000000"] with 18 decimals
    gives exactly 1.5. *)
Theorem scaled_value_is_exact_up_to_28_digits :
  (forall V, Z.abs V < 10 ^ 28 ->
     exists v, wei_value (VStr (Text.str_of_Z V)) = Ok v
               /\ (decimal.to_Q v == inject_Z V / inject_Z (10 ^ 18))%Q)
  /\ (forall V d, Z.abs V < 10 ^ 28 -> 0 <= d <= 999999 ->
        exists v,
          token_value (VStr (Text.str_of_Z V)) (VStr (Text.str_of_Z d)) = Ok v
          /\ (decimal.to_Q v == inject_Z V / inject_Z (10 ^ d))%Q)
  /\ (forall V d, Z.abs V < 10 ^ 28 -> 0 <= d <= 999999 ->
        exists v,
          (x <- py_Decimal (VStr (Text.str_of_Z V)) ;;
           p <- int_pow10 (VInt d) ;;
           div_by_power x p) = Ok v
          /\ (decimal.to_Q v == inject_Z V / inject_Z (10 ^ d))%Q)
  /\ wei_value (VStr "1500000000000000000") = Ok (mkDecimal false 15 (-1))
  /\ (decimal.to_Q (mkDecimal false 15 (-1)) == 3 # 2)%Q.
Proof.
  split; [|split; [|split; [|split]]].
  - intros V HV. unfold wei_value. rewrite ScalingFacts.py_Decimal_str_of_Z.
    cbn [obind]. change (decimal.of_Z WEI) with (mkDecimal false (10 ^ 18) 0).
    destruct (ScalingFacts.scaled_exactly V 18 0 HV) as (v & Hv & Hq); try lia.
    exists v. split; [exact Hv|]. exact Hq.
  - intros V d HV Hd. unfold token_value.
    rewrite !ScalingFacts.py_Decimal_str_of_Z. cbn [obind].
    destruct (Z.ltb_spec d 0) as [H|_]; [lia|]. rewrite (Z.abs_eq d) by lia.
    rewrite ScalingFacts.rpow10_natural by lia. cbn [obind].
    destruct (ScalingFacts.scaled_exactly V (Z.min d 27) (d - Z.min d 27) HV)
      as (v & Hv & Hq); try lia.
    exists v. split; [exact Hv|].
    replace (Z.min d 27 + (d - Z.min d 27)) with d in Hq by lia. exact Hq.
  - intros V d HV Hd. rewrite ScalingFacts.py_Decimal_str_of_Z. cbn [obind int_pow10].
    destruct (Z.leb_spec 0 d) as [_|H]; [|lia]. cbn [obind div_by_power].
    assert (Hp : 0 < 10 ^ d) by (apply Z.pow_pos_nonneg; lia).
    unfold decimal.of_Z. destruct (Z.ltb_spec (10 ^ d) 0) as [H|_]; [lia|].
    rewrite (Z.abs_eq (10 ^ d)) by lia.
    destruct (ScalingFacts.scaled_exactly V d 0 HV) as (v & Hv & Hq); try lia.
    exists v. split; [exact Hv|]. replace (d + 0) with d in Hq by lia. exact Hq.
  - vm_compute; reflexivity.
  - vm_compute; reflexivity.
Qed.

(** The raw value of the specification's example, scaled by 18. *)
Lemma scaled_value_is_exact_up_to_28_digits_witness :
  exists v, wei_value (VStr "1500000000000000000") = Ok v
            /\ (decimal.to_Q v == inject_Z 1500000000000000000 / inject_Z (10 ^ 18))%Q.
Proof.
  exact (proj1 scaled_value_is_exact_up_to_28_digits 1500000000000000000
           ltac:(vm_compute; reflexivity)).
Defined.

(** ** The records and their values *)

Lemma py_Decimal_integer : forall raw V,
  integer_value raw V -> py_Decimal raw = Ok (mkDecimal (V <? 0)%Z (Z.abs V) 0).
Proof.
  intros raw V [->| ->]; [apply ScalingFacts.py_Decimal_str_of_Z|reflexivity].
Qed.

Lemma wei_quotient_exact : forall raw V v,
  integer_value raw V -> Z.abs V < 10 ^ 28 -> wei_quotient raw v ->
  (decimal.to_Q v == inject_Z V / inject_Z (10 ^ 18))%Q.
Proof.
  intros raw V v Hint HV (d & Hd & Hv).
  rewrite (py_Decimal_integer raw V Hint) in Hd. injection Hd as <-.
  destruct (ScalingFacts.scaled_exactly V 18 0 HV) as (v' & Hv' & Hq); try lia.
  assert (E : Ok v = Ok v') by (rewrite <- Hv; exact Hv').
  injection E as ->. exact Hq.
Qed.

Lemma fee_quotient_exact : forall rawUsed rawPrice gasUsed gasPrice v,
  integer_value rawUsed gasUsed -> integer_value rawPrice gasPrice ->
  0 <= gasUsed -> 0 <= gasPrice -> gasUsed * gasPrice < 10 ^ 28 ->
  fee_quotient rawUsed rawPrice v ->
  (decimal.to_Q v == inject_Z (gasUsed * gasPrice) / inject_Z (10 ^ 18))%Q.
Proof.
  intros rawUsed rawPrice g p v Hig Hip Hg Hp Hgp (a & b & m & Ha & Hb & Hm & Hv).
  rewrite (py_Decimal_integer rawUsed g Hig) in Ha.
  rewrite (py_Decimal_integer rawPrice p Hip) in Hb.
  destruct (Z.ltb_spec g 0) as [H|_]; [lia|].
  destruct (Z.ltb_spec p 0) as [H|_]; [lia|].
  rewrite (Z.abs_eq g) in Ha by assumption.
  rewrite (Z.abs_eq p) in Hb by assumption.
  injection Ha as <-. injection Hb as <-.
  unfold decimal.mul in Hm. cbn [dsign dint dexp xorb Z.add] in Hm.
  assert (Hfix : decimal._fix (mkDecimal false (g * p) 0)
                 = Ok (mkDecimal false (g * p) 0)).
  { destruct (Z.eq_dec (g * p) 0) as [H0|H0].
    - rewrite H0. reflexivity.
    - apply ScalingFacts._fix_short; [lia|]. vm_compute. split; discriminate. }
  rewrite Hfix in Hm. injection Hm as <-.
  destruct (ScalingFacts.scaled_exactly (g * p) 18 0) as (v' & Hv' & Hq); try lia.
  destruct (Z.ltb_spec (g * p) 0) as [H|_]; [lia|].
  rewrite Z.abs_eq in Hv' by lia.
  assert (E : Ok v = Ok v') by (rewrite <- Hv; exact Hv').
  injection E as ->. exact Hq.
Qed.

Lemma token_quotient_exact : forall raw decimals V d v,
  integer_value raw V -> integer_value decimals d ->
  Z.abs V < 10 ^ 28 -> 0 <= d <= 999999 ->
  token_quotient raw decimals v ->
  (decimal.to_Q v == inject_Z V / inject_Z (10 ^ d))%Q.
Proof.
  intros raw decimals V d v HiV Hid HV Hd (a & k & p & Ha & Hk & Hp & Hv).
  rewrite (py_Decimal_integer raw V HiV) in Ha.
  rewrite (py_Decimal_integer decimals d Hid) in Hk.
  destruct (Z.ltb_spec d 0) as [H|_]; [lia|].
  rewrite (Z.abs_eq d) in Hk by lia.
  injection Ha as <-. injection Hk as <-.
  rewrite ScalingFacts.rpow10_natural in Hp by lia. injection Hp as <-.
  destruct (ScalingFacts.scaled_exactly V (Z.min d 27) (d - Z.min d 27) HV)
    as (v' & Hv' & Hq); try lia.
  assert (E : Ok v = Ok v') by (rewrite <- Hv; exact Hv').
  injection E as ->.
  replace (Z.min d 27 + (d - Z.min d 27)) with d in Hq by lia. exact Hq.
Qed.

(** C1, as the claim states it, fails: the value of a transfer is not always
    the raw value over 10^18, nor the fee always gasUsed * gasPrice over
    10^18.  A raw value of 29 digits is rounded to 28 digits before it is
    recorded, and so is a product of 29 digits. *)
Lemma get_normal_transactions_rounds_long_numbers :
  fst (get_normal_transactions client "0xab"
         (scripted [found [outgoing_with_long_numbers]]))
  = Ok [ VDict [ ("tx_id", VStr "0x09"); ("time", VInt 1600000009);
                 ("from", VStr "0xab"); ("to", VStr "0xcd"); ("currency", VStr "ETH");
                 ("value",
                  VDecimal (mkDecimal false 1000000000000000000000000000 (-17))) ];
         VDict [ ("tx_id", VStr "0x09"); ("time", VInt 1600000009);
                 ("from", VStr "0xab"); ("to", VStr MINER); ("currency", VStr "ETH");
                 ("value", VDecimal (mkDecimal false 100000000000002 (-4))) ] ]
  /\ Qeq_bool (decimal.to_Q (mkDecimal false 1000000000000000000000000000 (-17)))
              (inject_Z 10000000000000000000000000001 / inject_Z (10 ^ 18))
     = false
  /\ Qeq_bool (decimal.to_Q (mkDecimal false 100000000000002 (-4)))
              (inject_Z (100000000000001 * 100000000000001) / inject_Z (10 ^ 18))
     = false.
Proof. repeat split; vm_compute; reflexivity. Qed.

(** C1, amended. [get_normal_transactions] returns exactly the records of
    the items of the [txlist] response, item after item in the order of the
    response.  An item whose error flag is false and whose sender is the
    queried address (letter case apart) gives two records, the value transfer
    before the fee; an item whose error flag is true gives the fee record
    alone when the sender is the address and nothing when it is not.  The
    value of a transfer is [Decimal(value) / 10^18] and the value of a fee is
    [Decimal(gasUsed) * Decimal(gasPrice) / 10^18], as the decimal module
    computes them with 28 significant digits: the value is the raw value over
    10^18 exactly when the raw value is an integer of at most 28 digits, and
    the fee is gasUsed * gasPrice over 10^18 exactly when both are integers,
    neither negative, and their product has at most 28 digits.  A fee record
    goes to the all-f miner address. *)
Theorem get_normal_transactions_emits : forall self address w,
  (forall txs w',
     get_normal_transactions self address w = (Ok txs, w')
     <-> exists result items groups,
           _make_api_request self address "txlist" w = (Ok result, w')
           /\ py_iter result = Ok items
           /\ Forall2 (txlist_emits self address) items groups
           /\ txs = List.concat groups)
  /\ (forall item r raw V,
        value_record self item r ->
        getitem item "value" = Ok raw -> integer_value raw V ->
        Z.abs V < 10 ^ 28 ->
        exists v, getitem r "value" = Ok (VDecimal v)
                  /\ (decimal.to_Q v == inject_Z V / inject_Z (10 ^ 18))%Q)
  /\ (forall item r rawUsed rawPrice gasUsed gasPrice,
        fee_record self item r ->
        getitem item "gasUsed" = Ok rawUsed -> integer_value rawUsed gasUsed ->
        getitem item "gasPrice" = Ok rawPrice -> integer_value rawPrice gasPrice ->
        0 <= gasUsed -> 0 <= gasPrice -> gasUsed * gasPrice < 10 ^ 28 ->
        exists v, getitem r "value" = Ok (VDecimal v)
                  /\ getitem r "to"
                     = Ok (VStr "0xffffffffffffffffffffffffffffffffffffffff")
                  /\ (decimal.to_Q v
                      == inject_Z (gasUsed * gasPrice) / inject_Z (10 ^ 18))%Q).
Proof.
  intros self address w. split; [|split].
  - intros txs w'. apply get_normal_transactions_Ok.
  - intros item r raw V Hr Hraw Hint HV.
    destruct Hr as (tx_id & time & from & to & raw' & v
                    & _ & _ & _ & _ & Hraw' & Hq & ->).
    rewrite Hraw in Hraw'. injection Hraw' as <-.
    exists v. split; [reflexivity|].
    apply (wei_quotient_exact raw V v); assumption.
  - intros item r rawUsed rawPrice g p Hr Hg Hig Hp Hip Hg0 Hp0 Hgp.
    destruct Hr as (tx_id & time & from & gasUsed & gasPrice & v
                    & _ & _ & _ & Hg' & Hp' & Hq & ->).
    rewrite Hg in Hg'. injection Hg' as <-.
    rewrite Hp in Hp'. injection Hp' as <-.
    exists v. split; [reflexivity|]. split; [reflexivity|].
    apply (fee_quotient_exact rawUsed rawPrice g p v); assumption.
Qed.

(** C2, amended. [get_erc20_transfers] returns exactly the records of the
    items of the [tokentx] response, in order: an item whose [tokenDecimal]
    is the empty string gives no record, and every other item gives one
    record whose currency is the token symbol, whose contract is the
    contract address, and whose value is
    [Decimal(value) / 10 ** Decimal(tokenDecimal)] as the decimal module
    computes it with 28 significant digits: the raw value over
    10^(token decimals) exactly when the raw value is an integer of at most
    28 digits and the decimals are an integer from 0 to 999999.  Every item
    must have the field [tokenDecimal]: when an item lacks it the call
    returns no list. *)
Theorem get_erc20_transfers_emits : forall self address w,
  (forall txs w',
     get_erc20_transfers self address w = (Ok txs, w')
     <-> exists result items groups,
           _make_api_request self address "tokentx" w = (Ok result, w')
           /\ py_iter result = Ok items
           /\ Forall2 tokentx_emits items groups
           /\ txs = List.concat groups)
  /\ (forall result items item w1,
        _make_api_request self address "tokentx" w = (Ok result, w1) ->
        py_iter result = Ok items -> In item items ->
        getitem item "tokenDecimal" = Raise (KeyError "tokenDecimal") ->
        forall txs w', get_erc20_transfers self address w <> (Ok txs, w'))
  /\ (forall item decimals r raw V d,
        token_record item decimals r -> integer_value decimals d ->
        getitem item "value" = Ok raw -> integer_value raw V ->
        Z.abs V < 10 ^ 28 -> 0 <= d <= 999999 ->
        exists v, getitem r "value" = Ok (VDecimal v)
                  /\ (decimal.to_Q v == inject_Z V / inject_Z (10 ^ d))%Q).
Proof.
  intros self address w.
  destruct (get_erc20_transfers_Ok self address w) as [Hiff Habsent].
  split; [exact Hiff|]. split; [exact Habsent|].
  intros item decimals r raw V d Hr Hid Hraw HiV HV Hd.
  destruct Hr as (tx_id & time & from & to & currency & raw' & contract & v
                  & _ & _ & _ & _ & _ & Hraw' & Hq & _ & ->).
  rewrite Hraw in Hraw'. injection Hraw' as <-.
  exists v. split; [reflexivity|].
  apply (token_quotient_exact raw decimals V d v); assumption.
Qed.

(** C7, amended. A call of [get_base_currency_balances] that returns gives
    exactly one record: the time read from the wall clock, the queried
    address in lower case under [address] (as the asset-balance records
    have it), the native currency, and as balance [Decimal(result) / 10^18]
    as the decimal module computes it with 28 significant digits.  When the
    raw result is an integer of at most 28 digits the call returns, and the
    balance is the raw result over 10^18 exactly. *)
Theorem get_base_currency_balances_record : forall self address w,
  (forall balances w',
     get_base_currency_balances self address w = (Ok balances, w')
     <-> exists result v balance,
           _make_api_request self address "balance" (snd (read_clock now_seconds w))
           = (Ok result, w')
           /\ wei_quotient result v
           /\ balance = VDict [ ("time", VInt (now_seconds w (readings w)));
                               ("address", VStr (Text.lower address));
                               ("currency", VStr (base_currency self));
                               ("balance", VDecimal v) ]
           /\ getitem balance "address" = Ok (VStr (Text.lower address))
           /\ balances = [balance])
  /\ (forall result V w',
        _make_api_request self address "balance" (snd (read_clock now_seconds w))
        = (Ok result, w') ->
        integer_value result V -> Z.abs V < 10 ^ 28 ->
        exists v,
          get_base_currency_balances self address w
          = (Ok [VDict [ ("time", VInt (now_seconds w (readings w)));
                         ("address", VStr (Text.lower address));
                         ("currency", VStr (base_currency self));
                         ("balance", VDecimal v) ]], w')
          /\ (decimal.to_Q v == inject_Z V / inject_Z (10 ^ 18))%Q).
Proof.
  intros self address w. split.
  - intros balances w'. apply get_base_currency_balances_Ok.
  - intros result V w' Hfetch Hint HV.
    destruct (ScalingFacts.scaled_exactly V 18 0 HV) as (v & Hv & Hq); try lia.
    exists v. split; [|exact Hq].
    apply get_base_currency_balances_Ok.
    exists result, v.
    exists (VDict [ ("time", VInt (now_seconds w (readings w)));
                    ("address", VStr (Text.lower address));
                    ("currency", VStr (base_currency self));
                    ("balance", VDecimal v) ]).
    split; [exact Hfetch|]. split.
    + exists (mkDecimal (V <? 0)%Z (Z.abs V) 0).
      split; [apply py_Decimal_integer; exact Hint|exact Hv].
    + repeat split; reflexivity.
Qed.

(** ** The theorems at work *)

(** A successful outgoing transaction, a failed outgoing one and a failed
    incoming one: value and fee, fee alone, nothing. *)
Lemma get_normal_transactions_emits_witness :
  (exists result items groups,
    _make_api_request client "0xAb" "txlist"
      (scripted [found [outgoing; failed_outgoing; failed_incoming]])
    = (Ok result,
       snd (get_normal_transactions client "0xAb"
              (scripted [found [outgoing; failed_outgoing; failed_incoming]])))
    /\ py_iter result = Ok items
    /\ Forall2 (txlist_emits client "0xAb") items groups
    /\ [ VDict [ ("tx_id", VStr "0x01"); ("time", VInt 1600000000);
                 ("from", VStr "0xAB"); ("to", VStr "0xcd"); ("currency", VStr "ETH");
                 ("value", VDecimal (mkDecimal false 15 (-1))) ];
         VDict [ ("tx_id", VStr "0x01"); ("time", VInt 1600000000);
                 ("from", VStr "0xAB"); ("to", VStr MINER); ("currency", VStr "ETH");
                 ("value", VDecimal (mkDecimal false 42 (-5))) ];
         VDict [ ("tx_id", VStr "0x02"); ("time", VInt 1600000001);
                 ("from", VStr "0xab"); ("to", VStr MINER); ("currency", VStr "ETH");
                 ("value", VDecimal (mkDecimal false 42 (-5))) ] ]
       = List.concat groups)
  /\ (exists v,
        getitem (VDict [ ("tx_id", VStr "0x01"); ("time", VInt 1600000000);
                         ("from", VStr "0xAB"); ("to", VStr "0xcd");
                         ("currency", VStr "ETH");
                         ("value", VDecimal (mkDecimal false 15 (-1))) ]) "value"
        = Ok (VDecimal v)
        /\ (decimal.to_Q v == inject_Z 1500000000000000000 / inject_Z (10 ^ 18))%Q)
  /\ (exists v,
        getitem (VDict [ ("tx_id", VStr "0x01"); ("time", VInt 1600000000);
                         ("from", VStr "0xAB"); ("to", VStr MINER);
                         ("currency", VStr "ETH");
                         ("value", VDecimal (mkDecimal false 42 (-5))) ]) "value"
        = Ok (VDecimal v)
        /\ getitem (VDict [ ("tx_id", VStr "0x01"); ("time", VInt 1600000000);
                            ("from", VStr "0xAB"); ("to", VStr MINER);
                            ("currency", VStr "ETH");
                            ("value", VDecimal (mkDecimal false 42 (-5))) ]) "to"
           = Ok (VStr "0xffffffffffffffffffffffffffffffffffffffff")
        /\ (decimal.to_Q v == inject_Z (21000 * 20000000000) / inject_Z (10 ^ 18))%Q).
Proof.
  split; [|split].
  - apply (proj1 (proj1 (get_normal_transactions_emits client "0xAb"
                    (scripted [found [outgoing; failed_outgoing; failed_incoming]]))
                  _ _)).
    apply pair_of_fst. vm_compute; reflexivity.
  - apply (proj1 (proj2 (get_normal_transactions_emits client "0xAb" (scripted [])))
             outgoing _ (VStr "1500000000000000000") 1500000000000000000).
    + apply (value_record_intro client outgoing (VStr "0x01") (VStr "1600000000")
               1600000000 (VStr "0xAB") (VStr "0xcd") (VStr "1500000000000000000")
               (mkDecimal false 15 (-1))); vm_compute; reflexivity.
    + vm_compute; reflexivity.
    + left; vm_compute; reflexivity.
    + vm_compute; reflexivity.
  - apply (proj2 (proj2 (get_normal_transactions_emits client "0xAb" (scripted [])))
             outgoing _ (VStr "21000") (VStr "20000000000") 21000 20000000000).
    + apply (fee_record_intro client outgoing (VStr "0x01") (VStr "1600000000")
               1600000000 (VStr "0xAB") (VStr "21000") (VStr "20000000000")
               (mkDecimal false 21000 0) (mkDecimal false 20000000000 0)
               (mkDecimal false 420000000000000 0) (mkDecimal false 42 (-5)));
        vm_compute; reflexivity.
    + vm_compute; reflexivity.
    + left; vm_compute; reflexivity.
    + vm_compute; reflexivity.
    + left; vm_compute; reflexivity.
    + vm_compute; discriminate.
    + vm_compute; discriminate.
    + vm_compute; reflexivity.
Defined.

(** An internal transfer whose error flag is set and one that names its
    transaction by [transactionHash]: a record each. *)
Lemma get_internal_transactions_emits_witness :
  exists result items,
    _make_api_request client "0xab" "txlistinternal"
      (scripted [found [internal_with_hash; internal_with_transactionHash]])
    = (Ok result,
       snd (get_internal_transactions client "0xab"
              (scripted [found [internal_with_hash; internal_with_transactionHash]])))
    /\ py_iter result = Ok items
    /\ Forall2 (internal_record client) items
         [ VDict [ ("tx_id", VStr "0x05"); ("time", VInt 1600000005);
                   ("from", VStr "0xee"); ("to", VStr "0xab"); ("currency", VStr "ETH");
                   ("value", VDecimal (mkDecimal false 1 (-3))) ];
           VDict [ ("tx_id", VStr "0x06"); ("time", VInt 1600000006);
                   ("from", VStr "0xee"); ("to", VStr "0xab"); ("currency", VStr "ETH");
                   ("value", VDecimal (mkDecimal false 2 (-17))) ] ].
Proof.
  apply (proj1 (get_internal_transactions_emits client "0xab"
                  (scripted [found [internal_with_hash; internal_with_transactionHash]])
                  _ _)).
  apply pair_of_fst. vm_compute; reflexivity.
Defined.

(** A token transfer and a transfer whose decimals are the empty string: one
    record. *)
Lemma get_erc20_transfers_emits_witness :
  (exists result items groups,
    _make_api_request client "0xab" "tokentx"
      (scripted [found [transfer_with_empty_decimals; token_transfer]])
    = (Ok result,
       snd (get_erc20_transfers client "0xab"
              (scripted [found [transfer_with_empty_decimals; token_transfer]])))
    /\ py_iter result = Ok items
    /\ Forall2 tokentx_emits items groups
    /\ [ VDict [ ("tx_id", VStr "0x03"); ("time", VInt 1600000002);
                 ("from", VStr "0xab"); ("to", VStr "0xcd"); ("currency", VStr "USDC");
                 ("value", VDecimal (mkDecimal false 25 (-1)));
                 ("contract", VStr "0xa0b8") ] ]
       = List.concat groups)
  /\ (exists v,
        getitem (VDict [ ("tx_id", VStr "0x03"); ("time", VInt 1600000002);
                         ("from", VStr "0xab"); ("to", VStr "0xcd");
                         ("currency", VStr "USDC");
                         ("value", VDecimal (mkDecimal false 25 (-1)));
                         ("contract", VStr "0xa0b8") ]) "value"
        = Ok (VDecimal v)
        /\ (decimal.to_Q v == inject_Z 2500000 / inject_Z (10 ^ 6))%Q).
Proof.
  split.
  - apply (proj1 (proj1 (get_erc20_transfers_emits client "0xab"
                    (scripted [found [transfer_with_empty_decimals; token_transfer]]))
                  _ _)).
    apply pair_of_fst. vm_compute; reflexivity.
  - apply (proj2 (proj2 (get_erc20_transfers_emits client "0xab" (scripted [])))
             token_transfer (VStr "6") _ (VStr "2500000") 2500000 6).
    + apply (token_record_intro token_transfer (VStr "6") (VStr "0x03")
               (VStr "1600000002") 1600000002 (VStr "0xab") (VStr "0xcd") (VStr "USDC")
               (VStr "2500000") (mkDecimal false 2500000 0) (mkDecimal false 6 0)
               (mkDecimal false 1000000 0) (mkDecimal false 25 (-1)) (VStr "0xa0b8"));
        vm_compute; reflexivity.
    + left; vm_compute; reflexivity.
    + vm_compute; reflexivity.
    + left; vm_compute; reflexivity.
    + vm_compute; reflexivity.
    + split; vm_compute; discriminate.
Defined.

(** Quotes of 0.0001, null, zero, a string and a negative number: the first
    asset alone gets a record. *)
Lemma get_asset_balances_emits_witness :
  exists r error data updated_at dt timestamp listed items,
    replies (scripted [holdings [ asset (VFloat 0x1.a36e2eb1c432dp-14%float);
                                  asset VNone; asset (VInt 0); asset (VStr "1.5");
                                  asset (VFloat (-2)%float) ]]) 0
    = Json r
    /\ getitem r "error" = Ok error /\ truthy error = false
    /\ getitem r "data" = Ok data
    /\ snd (get_asset_balances wallet "0xAB"
              (scripted [holdings [ asset (VFloat 0x1.a36e2eb1c432dp-14%float);
                                    asset VNone; asset (VInt 0); asset (VStr "1.5");
                                    asset (VFloat (-2)%float) ]]))
       = after_wallet_request wallet "0xAB"
           (scripted [holdings [ asset (VFloat 0x1.a36e2eb1c432dp-14%float);
                                 asset VNone; asset (VInt 0); asset (VStr "1.5");
                                 asset (VFloat (-2)%float) ]])
    /\ getitem data "updated_at" = Ok (VStr updated_at)
    /\ datetime.strptime (substring 0 23 updated_at) = Ok dt
    /\ datetime.utc_timestamp dt = Ok timestamp
    /\ getitem data "items" = Ok listed /\ py_iter listed = Ok items
    /\ Forall (fun i => exists quote, getitem i "quote" = Ok quote) items
    /\ Forall2 (asset_record timestamp "0xAB") (filter quote_passes items)
         [ VDict [ ("time", VInt 1685622896); ("address", VStr "0xab");
                   ("currency", VStr "DAI"); ("contract", VStr "0x6b");
                   ("balance", VDecimal (mkDecimal false 123 (-2)));
                   ("rate", VFloat 1%float) ] ].
Proof.
  apply (proj1 (proj2 get_asset_balances_emits wallet "0xAB"
                  (scripted [holdings [ asset (VFloat 0x1.a36e2eb1c432dp-14%float);
                                        asset VNone; asset (VInt 0); asset (VStr "1.5");
                                        asset (VFloat (-2)%float) ]]) _ _ eq_refl)).
  apply pair_of_fst. vm_compute; reflexivity.
Defined.

(** The balance of an address written with capitals. *)
Lemma get_base_currency_balances_record_witness :
  (exists result v balance,
    _make_api_request client "0xAB" "balance"
      (snd (read_clock now_seconds (scripted [balance_found])))
    = (Ok result, snd (get_base_currency_balances client "0xAB" (scripted [balance_found])))
    /\ wei_quotient result v
    /\ balance = VDict [ ("time", VInt 1700000000); ("address", VStr "0xab");
                        ("currency", VStr "ETH"); ("balance", VDecimal v) ]
    /\ getitem balance "address" = Ok (VStr "0xab")
    /\ [ VDict [ ("time", VInt 1700000000); ("address", VStr "0xab");
                 ("currency", VStr "ETH");
                 ("balance", VDecimal (mkDecimal false 15 (-1))) ] ]
       = [balance])
  /\ (exists v,
        get_base_currency_balances client "0xAB" (scripted [balance_found])
        = (Ok [VDict [ ("time", VInt 1700000000); ("address", VStr "0xab");
                       ("currency", VStr "ETH"); ("balance", VDecimal v) ]],
           snd (_make_api_request client "0xAB" "balance"
                  (snd (read_clock now_seconds (scripted [balance_found])))))
        /\ (decimal.to_Q v == inject_Z 1500000000000000000 / inject_Z (10 ^ 18))%Q).
Proof.
  split.
  - apply (proj1 (proj1 (get_base_currency_balances_record client "0xAB"
                           (scripted [balance_found])) _ _)).
    apply pair_of_fst. vm_compute; reflexivity.
  - apply (proj2 (get_base_currency_balances_record client "0xAB"
                    (scripted [balance_found]))
             (VStr "1500000000000000000") 1500000000000000000).
    + apply pair_of_fst. vm_compute; reflexivity.
    + left; vm_compute; reflexivity.
    + vm_compute; reflexivity.
Defined.

(** * More of the module's behaviour *)

(** ** The fetch of the block explorer client, case by case *)

Lemma explorer_handler_raises : forall (A : Type) err w,
  (exists text,
     fst (@explorer_handler A err w)
     = Raise (RuntimeError
                ((match err with
                  | HTTPError _ => "HTTP error occurred: "
                  | _ => "An error occurred: "
                  end) ++ text)%string))
  \/ fst (@explorer_handler A err w) = Beyond.
Proof.
  intros A err w. destruct err; cbn; try (right; reflexivity); left; eexists; reflexivity.
Qed.

Lemma explorer_handler_not_Ok : forall (A : Type) err w (a : A),
  fst (@explorer_handler A err w) <> Ok a.
Proof.
  intros A err w a. destruct (explorer_handler_raises A err w) as [[text H]|H];
    rewrite H; discriminate.
Qed.

Lemma judge_returns : forall data w result,
  fst (try_except (judge data) explorer_handler w) = Ok result
  <-> exists status n,
        getitem data "status" = Ok status /\ py_int status = Ok n
        /\ (n = 1 \/ exists message,
                       getitem data "message" = Ok message
                       /\ empty_result_message message)
        /\ getitem data "result" = Ok result.
Proof.
  intros data w result. unfold try_except, judge, bind, lift, ret, raise.
  destruct (getitem data "status") as [st| |] eqn:Hst; cbn.
  2:{ split; [intros H; apply explorer_handler_not_Ok in H; contradiction|].
      intros (status & n & H & _); discriminate. }
  2:{ split; [discriminate|]. intros (status & n & H & _); discriminate. }
  destruct (py_int st) as [n| |] eqn:Hn; cbn.
  2:{ split; [intros H; apply explorer_handler_not_Ok in H; contradiction|].
      intros (status & n & H & H' & _). inversion H; subst. rewrite Hn in H'. discriminate. }
  2:{ split; [discriminate|].
      intros (status & n & H & H' & _). inversion H; subst. rewrite Hn in H'. discriminate. }
  assert (Hresult : forall good : n = 1 \/ exists message,
                       getitem data "message" = Ok message
                       /\ empty_result_message message,
            fst (match getitem data "result" with
                 | Ok a => (Ok a, w)
                 | Raise e => @explorer_handler value e w
                 | Beyond => (Beyond, w)
                 end) = Ok result
            <-> exists status n0,
                  Ok st = Ok status /\ py_int status = Ok n0
                  /\ (n0 = 1 \/ exists message,
                        getitem data "message" = Ok message
                        /\ empty_result_message message)
                  /\ getitem data "result" = Ok result).
  { intros good. destruct (getitem data "result") as [r| |] eqn:Hr; cbn.
    - split.
      + intros H; inversion H; subst. exists st, n; auto.
      + intros (_ & _ & _ & _ & _ & H); exact H.
    - split; [intros H; apply explorer_handler_not_Ok in H; contradiction|].
      intros (_ & _ & _ & _ & _ & H); discriminate.
    - split; [discriminate|]. intros (_ & _ & _ & _ & _ & H); discriminate. }
  destruct (Z.eqb_spec n 1) as [->|Hne]; cbn.
  - destruct (getitem data "result") as [r| |] eqn:Hr; cbn in *;
      apply Hresult; left; reflexivity.
  - assert (Hbad : forall status n0,
              Ok st = Ok status -> py_int status = Ok n0 ->
              (n0 = 1 \/ exists message,
                  getitem data "message" = Ok message /\ empty_result_message message) ->
              exists message, getitem data "message" = Ok message
                              /\ in_strings message NO_TRANSACTIONS = true).
    { intros status n0 H H' [->|(m & Hm & He)].
      - inversion H; subst. rewrite Hn in H'. inversion H'; subst. contradiction.
      - exists m; split; [assumption|]. apply in_strings_NO_TRANSACTIONS; assumption. }
    destruct (getitem data "message") as [m| |] eqn:Hm; cbn.
    + destruct (in_strings m NO_TRANSACTIONS) eqn:Hin; cbn.
      * destruct (getitem data "result") as [r| |] eqn:Hr; cbn in *;
          apply Hresult; right; exists m; split; try reflexivity;
          apply in_strings_NO_TRANSACTIONS; assumption.
      * split.
        -- destruct (py_str m); cbn; try discriminate;
             intros H; apply explorer_handler_not_Ok in H; contradiction.
        -- intros (status & n0 & H & H' & Hgood & _).
           destruct (Hbad status n0 H H' Hgood) as (m' & Hm' & Hin').
           inversion Hm'; subst. rewrite Hin in Hin'. discriminate.
    + split; [intros H; apply explorer_handler_not_Ok in H; contradiction|].
      intros (status & n0 & H & H' & Hgood & _).
      destruct (Hbad status n0 H H' Hgood) as (m' & Hm' & _). discriminate.
    + split; [discriminate|].
      intros (status & n0 & H & H' & Hgood & _).
      destruct (Hbad status n0 H H' Hgood) as (m' & Hm' & _). discriminate.
Qed.

(** X1. The fetch returns in two cases only, and returns the field [result]
    of the response in both: the status reads 1, whatever the message is and
    even without one; or the message is one of the three phrases of an empty
    result.  It never returns when the transport fails. *)
Theorem _make_api_request_returns : forall self address action w result,
  fst (_make_api_request self address action w) = Ok result
  <-> exists data status n,
        replies w (requests w) = Json data
        /\ getitem data "status" = Ok status /\ py_int status = Ok n
        /\ (n = 1 \/ exists message,
                       getitem data "message" = Ok message
                       /\ empty_result_message message)
        /\ getitem data "result" = Ok result.
Proof.
  intros self address action w result. rewrite _make_api_request_unfold.
  destruct (replies w (requests w)) as [err|data].
  - split; [intros H; apply explorer_handler_not_Ok in H; contradiction|].
    intros (data & status & n & H & _); discriminate.
  - rewrite judge_returns. split.
    + intros (status & n & H). exists data, status, n. split; [reflexivity|exact H].
    + intros (data' & status & n & Hd & H). inversion Hd; subst. exists status, n; exact H.
Qed.

Lemma getitem_not_HTTPError : forall v key e,
  getitem v key = Raise e -> not_HTTPError e.
Proof.
  intros v key e H. destruct v; simpl in H; try (inversion H; exact I).
  destruct (lookup key fields); inversion H; exact I.
Qed.

Lemma py_int_not_HTTPError : forall v e, py_int v = Raise e -> not_HTTPError e.
Proof.
  intros v e H. destruct v; simpl in H; try (inversion H; exact I).
  - unfold int_of_float in H. destruct (Prim2SF f); inversion H; exact I.
  - unfold PyInt.of_string in H.
    destruct (Text.strip Text.is_blank (list_ascii_of_string s)) as [|c r].
    + simpl in H. inversion H; exact I.
    + repeat match type of H with
             | context [match ?x with _ => _ end] => destruct x
             end; inversion H; exact I.
Qed.

Lemma explorer_handler_generic : forall (A : Type) err w e,
  not_HTTPError err ->
  fst (@explorer_handler A err w) = Raise e ->
  exists text, e = RuntimeError ("An error occurred: " ++ text)%string.
Proof.
  intros A err w e Hn H. destruct err; cbn in H; try contradiction; try discriminate;
    inversion H; eexists; reflexivity.
Qed.

Lemma judge_raises : forall data w e,
  fst (try_except (judge data) explorer_handler w) = Raise e ->
  exists text, e = RuntimeError ("An error occurred: " ++ text)%string.
Proof.
  intros data w e. unfold try_except, judge, bind, lift, ret, raise.
  assert (Hresult :
            fst (match getitem data "result" with
                 | Ok a => (Ok a, w)
                 | Raise e => @explorer_handler value e w
                 | Beyond => (Beyond, w)
                 end) = Raise e ->
            exists text, e = RuntimeError ("An error occurred: " ++ text)%string).
  { destruct (getitem data "result") as [r| |] eqn:Hr; cbn; try discriminate.
    apply explorer_handler_generic. eapply getitem_not_HTTPError; eassumption. }
  destruct (getitem data "status") as [st| |] eqn:Hst; cbn; try discriminate.
  2:{ apply explorer_handler_generic. eapply getitem_not_HTTPError; eassumption. }
  destruct (py_int st) as [n| |] eqn:Hn; cbn; try discriminate.
  2:{ apply explorer_handler_generic. eapply py_int_not_HTTPError; eassumption. }
  destruct (n =? 1)%Z; cbn; [exact Hresult|].
  destruct (getitem data "message") as [m| |] eqn:Hm; cbn; try discriminate.
  2:{ apply explorer_handler_generic. eapply getitem_not_HTTPError; eassumption. }
  destruct (in_strings m NO_TRANSACTIONS); cbn; [exact Hresult|].
  destruct (py_str m) as [t|e'|] eqn:Ht; cbn; try discriminate.
  - intros H; inversion H; eexists; reflexivity.
  - destruct m; simpl in Ht; try discriminate.
    destruct (PyInt.max_str_digits <? Text.ndigits (Z.abs n0))%Z; discriminate.
Qed.

(** X2. Once [time.sleep] has taken the pause, if there is one, an
    exception that leaves a fetch is always a [RuntimeError]: its message
    starts with ["HTTP error occurred: "] when the transport raised an
    [HTTPError], and with ["An error occurred: "] in every other case
    (another failure of the transport, a response without a field, an error
    that the provider reports).  The sleep is outside the [try] block: what
    [time.sleep] raises for a pause that it refuses is not wrapped, and the
    property does not cover it. *)
Theorem _make_api_request_raises_RuntimeError : forall self address action w e,
  sleep_accepted self (time_time w (readings w)) (last_request_timestamp w) = true ->
  fst (_make_api_request self address action w) = Raise e ->
  exists text,
    e = RuntimeError
          ((match replies w (requests w) with
            | Fails (HTTPError _) => "HTTP error occurred: "
            | _ => "An error occurred: "
            end) ++ text)%string.
Proof.
  intros self address action w e _. rewrite _make_api_request_unfold.
  destruct (replies w (requests w)) as [err|data].
  - intros H.
    destruct (explorer_handler_raises value err (after_request self address action w))
      as [[text Ht]|Ht]; rewrite Ht in H; [|discriminate].
    inversion H. exists text. destruct err; reflexivity.
  - apply judge_raises.
Qed.

(** X3. A failure of the transport reaches the caller of either client as a
    [RuntimeError] that quotes it: ["HTTP error occurred: "] before the text
    of an [HTTPError] (a response with an error status), and
    ["An error occurred: "] before the text of any other exception of
    [requests] (no connection, a timeout). *)
Theorem transport_failure_is_reported : forall self wallet_api address action w m,
  (replies w (requests w) = Fails (HTTPError m) ->
   fst (_make_api_request self address action w)
   = Raise (RuntimeError ("HTTP error occurred: " ++ m)%string)
   /\ fst (get_asset_balances wallet_api address w)
      = Raise (RuntimeError ("HTTP error occurred: " ++ m)%string))
  /\ (replies w (requests w) = Fails (RequestException m) ->
      fst (_make_api_request self address action w)
      = Raise (RuntimeError ("An error occurred: " ++ m)%string)
      /\ fst (get_asset_balances wallet_api address w)
         = Raise (RuntimeError ("An error occurred: " ++ m)%string)).
Proof.
  intros self wallet_api address action w m.
  split; intros H; (split;
    [ rewrite _make_api_request_unfold, H; reflexivity
    | unfold get_asset_balances, try_except, bind, http_get; rewrite H; reflexivity ]).
Qed.

(** The world that a fetch leaves. *)
Lemma _make_api_request_world : forall self address action w,
  snd (_make_api_request self address action w)
  = match replies w (requests w) with
    | Fails _ => after_request self address action w
    | Json _ => after_response (after_request self address action w)
    end.
Proof.
  intros self address action w. rewrite _make_api_request_unfold.
  destruct (replies w (requests w)) as [err|data].
  - apply explorer_handler_pure.
  - apply judge_pure.
Qed.

Lemma after_request_trace : forall self address action w,
  trace (after_request self address action w)
  = trace w ++ pause self (time_time w (readings w)) (last_request_timestamp w)
            ++ [explorer_request self address action].
Proof.
  intros self address action w. unfold after_request, pause, explorer_request.
  cbn [trace].
  destruct (PrimFloat.ltb
              (PrimFloat.sub (time_time w (readings w)) (last_request_timestamp w))
              (delay self)).
  - rewrite <- app_assoc. reflexivity.
  - reflexivity.
Qed.

Lemma _make_api_request_trace : forall self address action w,
  trace (snd (_make_api_request self address action w))
  = trace w ++ pause self (time_time w (readings w)) (last_request_timestamp w)
            ++ [explorer_request self address action].
Proof.
  intros self address action w. rewrite _make_api_request_world.
  destruct (replies w (requests w)); [|cbn [after_response trace]];
    apply after_request_trace.
Qed.

Lemma get_asset_balances_world : forall self address w,
  snd (get_asset_balances self address w) = after_wallet_request self address w.
Proof.
  intros self address w.
  unfold get_asset_balances, try_except, bind, http_get, lift, raise,
    after_wallet_request.
  destruct (replies w (requests w)) as [err|r]; cbn;
    repeat (try reflexivity;
            match goal with
            | |- context [@wallet_handler _ ?e _] => is_var e; destruct e; cbn
            | |- context [getitem ?r ?k] => destruct (getitem r k); cbn
            | |- context [truthy ?x] => destruct (truthy x); cbn
            | |- context [py_str ?m] => destruct (py_str m); cbn
            end).
Qed.

(** X4. A call of the fetch whose pause [time.sleep] takes sends one
    request and no more, whatever comes back: after the sleep that pacing
    asks for, if any, a GET to the API URL with the parameters
    module=account, the action, the address as given, sort=asc and the key.
    A call of the wallet client whose network holds no brace sends one
    request for the address as given and never sleeps.  A pause that
    [time.sleep] refuses, and a network with a brace that [format] refuses,
    end the call before its request: the property leaves them out. *)
Theorem one_request_per_call : forall self wallet_api address action w,
  (sleep_accepted self (time_time w (readings w)) (last_request_timestamp w) = true ->
   trace (snd (_make_api_request self address action w))
   = trace w ++ pause self (time_time w (readings w)) (last_request_timestamp w)
             ++ [ExplorerGet (api_url self)
                   [ ("module", "account"); ("action", action);
                     ("address", address); ("sort", "asc");
                     ("apikey", api_key self) ]]
   /\ requests (snd (_make_api_request self address action w)) = S (requests w))
  /\ (has_brace (network wallet_api) = false ->
      trace (snd (get_asset_balances wallet_api address w))
      = trace w ++ [WalletGet (network wallet_api) address (wallet_api_key wallet_api)]
      /\ requests (snd (get_asset_balances wallet_api address w)) = S (requests w)).
Proof.
  intros self wallet_api address action w. split; intros _; split.
  - apply _make_api_request_trace.
  - rewrite _make_api_request_world. destruct (replies w (requests w)); reflexivity.
  - rewrite get_asset_balances_world. reflexivity.
  - rewrite get_asset_balances_world. reflexivity.
Qed.

(** X5. Pacing counts from the last decoded response: the sleep before a
    request is measured between the reading of the clock at the start of the
    call and the reading that followed the decoding of the previous response;
    a previous call whose transport failed does not count, and the sleep is
    measured from the response before it. *)
Theorem pause_counts_from_the_last_response :
  forall self address action address' action' w,
    trace (snd (_make_api_request self address' action'
                  (snd (_make_api_request self address action w))))
    = trace (snd (_make_api_request self address action w))
      ++ match replies w (requests w) with
         | Json _ => pause self (time_time w (S (S (readings w))))
                                (time_time w (S (readings w)))
         | Fails _ => pause self (time_time w (S (readings w)))
                                 (last_request_timestamp w)
         end
      ++ [explorer_request self address' action'].
Proof.
  intros self address action address' action' w.
  rewrite (_make_api_request_trace self address' action').
  rewrite (_make_api_request_world self address action).
  destruct (replies w (requests w)); reflexivity.
Qed.

(** ** Items on which a loop fails *)

Section Failing.
Variables A B : Type.
Variable body : list B -> A -> outcome (list B).
Hypothesis body_appends :
  forall acc x, body acc x = (g <- body [] x ;; Ok (acc ++ g)).

Lemma first_failure_nil : forall e, ~ first_failure (body []) [] e.
Proof. intros e (pre & x & post & H & _). destruct pre; discriminate. Qed.

Lemma first_failure_cons : forall x r e,
  first_failure (body []) (x :: r) e
  <-> body [] x = Raise e
      \/ ((exists g, body [] x = Ok g) /\ first_failure (body []) r e).
Proof.
  intros x r e; split.
  - intros (pre & y & post & H & Hpre & Hy). destruct pre as [|p pre].
    + inversion H; subst. left; assumption.
    + inversion H; subst. inversion Hpre; subst. right. split; [assumption|].
      exists pre, y, post; auto.
  - intros [H|[Hx (pre & y & post & -> & Hpre & Hy)]].
    + exists [], x, r; auto.
    + exists (x :: pre), y, post; repeat split; auto.
Qed.

Lemma for_each_Raise : forall items acc e,
  for_each body items acc = Raise e <-> first_failure (body []) items e.
Proof.
  induction items as [|x r IH]; intros acc e.
  - simpl. split; [discriminate|]. intros H; apply first_failure_nil in H; contradiction.
  - rewrite first_failure_cons. simpl. rewrite body_appends.
    destruct (body [] x) as [g|e'|]; simpl.
    + rewrite IH. split; [intros H; right; split; [exists g; reflexivity|exact H]|].
      intros [H|[_ H]]; [discriminate|exact H].
    + split; [intros H; left; exact H|].
      intros [H|[[g H] _]]; [exact H|discriminate].
    + split; [discriminate|]. intros [H|[[g H] _]]; discriminate.
Qed.

End Failing.

Lemma fetch_loop_Raise :
  forall (body : list value -> value -> outcome (list value)),
    (forall acc x, body acc x = (g <- body [] x ;; Ok (acc ++ g))) ->
    forall self address action w e w',
  (result <~ _make_api_request self address action ;;
   items <~ lift (py_iter result) ;;
   lift (for_each body items [])) w = (Raise e, w')
  <-> _make_api_request self address action w = (Raise e, w')
      \/ exists result,
           _make_api_request self address action w = (Ok result, w')
           /\ (py_iter result = Raise e
               \/ exists items, py_iter result = Ok items
                                /\ first_failure (body []) items e).
Proof.
  intros body body_appends self address action w e w'. unfold bind, lift.
  destruct (_make_api_request self address action w) as [[result|e1|] w1].
  - destruct (py_iter result) as [items|e2|] eqn:Hiter.
    + split.
      * intros H. inversion H as [[H1 H2]]. right. exists result. split; [reflexivity|].
        right. exists items. split; [exact Hiter|].
        apply (for_each_Raise _ _ body body_appends) in H1. exact H1.
      * intros [H|(result' & H & [H'|(items' & H' & Hf)])]; try discriminate.
        -- inversion H; subst. rewrite Hiter in H'. discriminate.
        -- inversion H; subst. rewrite Hiter in H'. inversion H'; subst.
           apply (for_each_Raise _ _ body body_appends items' []) in Hf.
           rewrite Hf. reflexivity.
    + split.
      * intros H. inversion H; subst. right. exists result. split; [reflexivity|].
        left; assumption.
      * intros [H|(result' & H & [H'|(items' & H' & Hf)])]; try discriminate.
        -- inversion H; subst. rewrite Hiter in H'. inversion H'; reflexivity.
        -- inversion H; subst. rewrite Hiter in H'. discriminate.
    + split; [discriminate|].
      intros [H|(result' & H & [H'|(items' & H' & Hf)])]; try discriminate;
        inversion H; subst; rewrite Hiter in H'; discriminate.
  - split.
    + intros H; left; inversion H; reflexivity.
    + intros [H|(result' & H & _)]; [inversion H; reflexivity|discriminate].
  - split; [discriminate|]. intros [H|(result' & H & _)]; discriminate.
Qed.

(** X6. The three list operations of the client fail as a whole and at the
    first obstacle: a call raises [e] exactly when the fetch raises [e], or
    the result cannot be iterated, or an item makes the body of the loop
    raise [e] while every item before it gave its records.  The exception of
    an item (a missing field, a text that is no number) reaches the caller as
    it is, without the [RuntimeError] of the fetch around it, and the records
    of the items before are not returned. *)
Theorem list_operations_fail_at_the_first_item : forall self address w e w',
  (get_normal_transactions self address w = (Raise e, w')
   <-> _make_api_request self address "txlist" w = (Raise e, w')
       \/ exists result,
            _make_api_request self address "txlist" w = (Ok result, w')
            /\ (py_iter result = Raise e
                \/ exists items,
                     py_iter result = Ok items
                     /\ first_failure (normal_body self address []) items e))
  /\ (get_internal_transactions self address w = (Raise e, w')
      <-> _make_api_request self address "txlistinternal" w = (Raise e, w')
          \/ exists result,
               _make_api_request self address "txlistinternal" w = (Ok result, w')
               /\ (py_iter result = Raise e
                   \/ exists items,
                        py_iter result = Ok items
                        /\ first_failure (internal_body self []) items e))
  /\ (get_erc20_transfers self address w = (Raise e, w')
      <-> _make_api_request self address "tokentx" w = (Raise e, w')
          \/ exists result,
               _make_api_request self address "tokentx" w = (Ok result, w')
               /\ (py_iter result = Raise e
                   \/ exists items,
                        py_iter result = Ok items
                        /\ first_failure (erc20_body []) items e)).
Proof.
  intros self address w e w'. split; [|split].
  - apply (fetch_loop_Raise _ (normal_body_appends self address)).
  - apply (fetch_loop_Raise _ (internal_body_appends self)).
  - apply (fetch_loop_Raise _ erc20_body_appends).
Qed.

(** ** The wallet client: what is wrapped and what is not *)

(** X7. The wallet client wraps what happens inside its [try] block and
    nothing after it: a response without the field [error] or, when it
    reports no error, without the field [data], raises a [RuntimeError] that
    quotes the [KeyError]; but whatever the reading of the data raises (no
    [updated_at], a timestamp that does not parse, an item without [quote])
    reaches the caller as it is. *)
Theorem get_asset_balances_wraps_the_request_only : forall self address w r,
  replies w (requests w) = Json r ->
  (getitem r "error" = Raise (KeyError "error") ->
   fst (get_asset_balances self address w)
   = Raise (RuntimeError "An error occurred: 'error'"))
  /\ (forall error,
        getitem r "error" = Ok error -> truthy error = false ->
        (getitem r "data" = Raise (KeyError "data") ->
         fst (get_asset_balances self address w)
         = Raise (RuntimeError "An error occurred: 'data'"))
        /\ (forall data,
              getitem r "data" = Ok data ->
              fst (get_asset_balances self address w)
              = asset_balances_of address data)).
Proof.
  intros self address w r Hr.
  unfold get_asset_balances, try_except, bind, http_get, lift, raise. rewrite Hr. cbn.
  split.
  - intros H; rewrite H; reflexivity.
  - intros error He Ht. rewrite He. cbn. rewrite Ht. split.
    + intros H; rewrite H; reflexivity.
    + intros data H; rewrite H. cbn. destruct (asset_balances_of address data); reflexivity.
Qed.

(** ** Timestamps of the wallet API *)

Lemma split_at_suffix : forall sep l a b,
  datetime.split_at sep l = Some (a, b) -> forall c : ascii, In c b -> In c l.
Proof.
  intros sep. induction l as [|x r IH]; intros a b H c Hc; simpl in H; [discriminate|].
  destruct (sep x).
  - inversion H; subst. right; assumption.
  - destruct (datetime.split_at sep r) as [[a' b']|] eqn:E; [|discriminate].
    inversion H; subst. right. eapply IH; [reflexivity|assumption].
Qed.

Lemma split_at_None : forall sep l,
  (forall c : ascii, In c l -> sep c = false) -> datetime.split_at sep l = None.
Proof.
  intros sep. induction l as [|x r IH]; intros H; simpl; [reflexivity|].
  rewrite (H x (or_introl eq_refl)). rewrite IH; [reflexivity|].
  intros c Hc; apply H; right; assumption.
Qed.

Lemma parse_fields_needs_point : forall l,
  (forall c : ascii, In c l -> c <> "."%char) -> datetime.parse_fields l = None.
Proof.
  intros l H. unfold datetime.parse_fields, datetime.bind_option.
  destruct (datetime.split_at (datetime.is_char "-") l) as [[tY l1]|] eqn:E1;
    [|reflexivity].
  destruct (datetime.split_at (datetime.is_char "-") l1) as [[tm l2]|] eqn:E2;
    [|reflexivity].
  destruct (datetime.split_at (decimal.is_letter "t") l2) as [[td l3]|] eqn:E3;
    [|reflexivity].
  destruct (datetime.split_at (datetime.is_char ":") l3) as [[tH l4]|] eqn:E4;
    [|reflexivity].
  destruct (datetime.split_at (datetime.is_char ":") l4) as [[tM l5]|] eqn:E5;
    [|reflexivity].
  rewrite split_at_None; [reflexivity|].
  intros c Hc. unfold datetime.is_char. apply Ascii.eqb_neq. apply H.
  eapply split_at_suffix; [exact E1|]. eapply split_at_suffix; [exact E2|].
  eapply split_at_suffix; [exact E3|]. eapply split_at_suffix; [exact E4|].
  eapply split_at_suffix; [exact E5|]. assumption.
Qed.

Lemma In_substring : forall (n : nat) s (c : ascii),
  In c (list_ascii_of_string (substring 0 n s)) -> In c (list_ascii_of_string s).
Proof.
  induction n as [|n IH]; intros s c H.
  - destruct s; simpl in H; contradiction.
  - destruct s as [|x s]; simpl in H; [contradiction|].
    destruct H as [H|H]; [left; assumption|right; apply IH; assumption].
Qed.

(** X8. A timestamp without a point is refused: when the text under
    [updated_at] holds no ["."], as a time without a fraction of a second
    does, the reading of the data raises [ValueError], and no balance is
    returned whatever the items are. *)
Theorem updated_at_needs_a_fraction : forall address data s,
  getitem data "updated_at" = Ok (VStr s) ->
  (forall c : ascii, In c (list_ascii_of_string s) -> c <> "."%char) ->
  asset_balances_of address data = Raise ValueError.
Proof.
  intros address data s Hs Hpoint. unfold asset_balances_of. rewrite Hs. cbn.
  unfold datetime.strptime. rewrite parse_fields_needs_point; [reflexivity|].
  intros c Hc. apply Hpoint. eapply In_substring; eassumption.
Qed.

(** ** What [download] asks for and where it writes *)

(** X9. Without addresses [download] sends no request: its loop ends at
    once with no transaction and no balance.  A call that returns has made
    the directory and written its two files, each with an empty list.
    Whether the call returns is for the file system to say (the directory
    may be one that [os.makedirs] refuses): the property does not say that
    it does. *)
Theorem download_without_addresses : forall cfg output_dir w,
  account_map cfg = [] ->
  fetch_all cfg w = (Ok ([], []), at_start w)
  /\ gets (trace (snd (download cfg output_dir w))) = gets (trace w)
  /\ requests (snd (download cfg output_dir w)) = requests w
  /\ (forall w',
        download cfg output_dir w = (Ok tt, w') ->
        trace w' = trace w ++ saved cfg output_dir [] []).
Proof.
  intros cfg output_dir w H.
  assert (Hloop : fetch_all cfg w = (Ok ([], []), at_start w)).
  { rewrite fetch_all_is_schedule, H. reflexivity. }
  split; [exact Hloop|].
  rewrite download_unfold, Hloop. cbn [snd trace requests at_start].
  split; [|split; [reflexivity|]].
  - unfold gets. rewrite filter_app. cbn. apply app_nil_r.
  - intros w' Hw'. injection Hw' as <-. reflexivity.
Qed.

Lemma gets_app : forall t t', gets (t ++ t') = gets t ++ gets t'.
Proof. intros; unfold gets; apply filter_app. Qed.

Lemma gets_pause : forall self now last, gets (pause self now last) = [].
Proof.
  intros self now last. unfold pause.
  destruct (PrimFloat.ltb (PrimFloat.sub now last) (delay self)); reflexivity.
Qed.

Lemma list_operation_world :
  forall (body : list value -> value -> outcome (list value)) self address action w,
    snd ((result <~ _make_api_request self address action ;;
          items <~ lift (py_iter result) ;;
          lift (for_each body items [])) w)
    = snd (_make_api_request self address action w).
Proof.
  intros body self address action w. unfold bind, lift.
  destruct (_make_api_request self address action w) as [[result| |] w1];
    try reflexivity.
  destruct (py_iter result); reflexivity.
Qed.

Lemma run_fetch_gets : forall api wallet_api address k w,
  gets (trace (snd (run_fetch api wallet_api address k w)))
  = gets (trace w) ++ [request_of api wallet_api address k].
Proof.
  intros api wallet_api address k w.
  destruct k; cbn [run_fetch request_of];
    try (unfold get_normal_transactions, get_internal_transactions,
           get_erc20_transfers;
         rewrite list_operation_world, _make_api_request_trace, !gets_app, gets_pause;
         reflexivity).
  rewrite get_asset_balances_world. unfold after_wallet_request. cbn [trace].
  rewrite gets_app. reflexivity.
Qed.

Lemma run_schedule_gets : forall api wallet_api l acc w,
  exists n,
    gets (trace (snd (run_schedule api wallet_api l acc w)))
    = gets (trace w)
      ++ firstn n (map (fun ak => request_of api wallet_api (fst ak) (snd ak)) l)
    /\ (forall r, fst (run_schedule api wallet_api l acc w) = Ok r -> n = List.length l).
Proof.
  intros api wallet_api. induction l as [|[address k] l IH]; intros acc w.
  - exists O. simpl. rewrite app_nil_r. auto.
  - simpl. unfold bind.
    pose proof (run_fetch_gets api wallet_api address k w) as Hg.
    destruct (run_fetch api wallet_api address k w) as [[r| |] w1];
      cbn [fst snd] in *.
    + destruct (IH (store k r acc) w1) as (n & Hn & Hlen).
      exists (S n). split.
      * rewrite Hn, Hg, <- app_assoc. reflexivity.
      * intros r' Hr'. f_equal. eapply Hlen; eassumption.
    + exists 1%nat. split; [rewrite Hg; reflexivity|discriminate].
    + exists 1%nat. split; [rewrite Hg; reflexivity|discriminate].
Qed.

Lemma gets_saved : forall cfg output_dir transactions balances,
  gets (saved cfg output_dir transactions balances) = [].
Proof. reflexivity. Qed.

(** X10. The requests of [download] follow its plan: for each address of the
    account map, in the order of the map, the actions [txlist],
    [txlistinternal] and [tokentx] on the block explorer and then the
    balances of the wallet API, each with the address as the map spells it.
    A call that returns has sent exactly these requests; a call that does not
    has sent the first ones of them.  No request asks for the action
    [balance]. *)
Theorem download_requests_follow_the_plan : forall cfg output_dir w,
  (exists n,
     gets (trace (snd (download cfg output_dir w)))
     = gets (trace w) ++ firstn n (planned cfg))
  /\ (fst (download cfg output_dir w) = Ok tt ->
      gets (trace (snd (download cfg output_dir w))) = gets (trace w) ++ planned cfg).
Proof.
  intros cfg output_dir w. rewrite download_unfold, fetch_all_is_schedule.
  destruct (run_schedule_gets (config_api cfg) (config_wallet_api cfg)
              (schedule (map fst (account_map cfg))) ([], []) (at_start w))
    as (n & Hn & Hlen).
  fold (planned cfg) in Hn. change (trace (at_start w)) with (trace w) in Hn.
  destruct (run_schedule (config_api cfg) (config_wallet_api cfg)
              (schedule (map fst (account_map cfg))) ([], []) (at_start w))
    as [[[transactions balances]| |] w1]; cbn [fst snd trace] in *.
  - assert (Hall : gets (trace w1 ++ saved cfg output_dir transactions balances)
                   = gets (trace w) ++ planned cfg).
    { rewrite gets_app, gets_saved, app_nil_r, Hn.
      rewrite (Hlen _ eq_refl). unfold planned at 1.
      rewrite <- (length_map (fun ak => request_of (config_api cfg)
                                           (config_wallet_api cfg) (fst ak) (snd ak))).
      fold (planned cfg). rewrite firstn_all. reflexivity. }
    split; [|intros _; exact Hall].
    exists (List.length (planned cfg)). rewrite firstn_all. exact Hall.
  - split; [exists n; exact Hn|discriminate].
  - split; [exists n; exact Hn|discriminate].
Qed.

Lemma append_eqb : forall p x y : string,
  String.eqb (p ++ x) (p ++ y) = String.eqb x y.
Proof.
  induction p as [|c p IH]; intros x y; simpl; [reflexivity|].
  rewrite Ascii.eqb_refl. apply IH.
Qed.

(** X11. The two files of [download] are two files: the path of the
    transactions and the path of the balances differ, whatever the directory
    and the name are, so that the second write never replaces the first. *)
Theorem output_paths_differ : forall cfg output_dir,
  String.eqb (path_join output_dir (name cfg ++ ".json"))
             (path_join output_dir (name cfg ++ "-balances.json"))
  = false.
Proof.
  intros cfg output_dir. unfold path_join.
  assert (Hp : String.prefix "/" (name cfg ++ ".json")
               = String.prefix "/" (name cfg ++ "-balances.json")).
  { destruct (name cfg) as [|a s]; [reflexivity|].
    cbn [String.append String.prefix].
    destruct (ascii_dec "/" a); [|reflexivity]. destruct s; reflexivity. }
  rewrite <- Hp.
  destruct (String.prefix "/" (name cfg ++ ".json")).
  - rewrite append_eqb. reflexivity.
  - destruct (String.eqb output_dir ""
              || String.eqb (substring (String.length output_dir - 1) 1 output_dir) "/").
    + rewrite !append_eqb. reflexivity.
    + rewrite !append_eqb. reflexivity.
Qed.

(** ** Fees, decimals of assets, and numbers sent as text *)

(** X12. The fee is exact as long as the product of the gas used and the
    gas price has at most 28 digits: its value is then the product over
    10^18, with no rounding in the multiplication or in the division. *)
Theorem fee_is_exact_up_to_28_digits : forall gasUsed gasPrice,
  (0 <= gasUsed)%Z -> (0 <= gasPrice)%Z -> (gasUsed * gasPrice < 10 ^ 28)%Z ->
  exists v,
    fee_value (VStr (Text.str_of_Z gasUsed)) (VStr (Text.str_of_Z gasPrice)) = Ok v
    /\ (decimal.to_Q v == inject_Z (gasUsed * gasPrice) / inject_Z (10 ^ 18))%Q.
Proof.
  intros g p Hg Hp Hgp. unfold fee_value.
  rewrite !ScalingFacts.py_Decimal_str_of_Z. cbn [obind].
  destruct (Z.ltb_spec g 0) as [H|_]; [lia|].
  destruct (Z.ltb_spec p 0) as [H|_]; [lia|].
  rewrite !Z.abs_eq by assumption.
  unfold decimal.mul. cbn [dsign dint dexp xorb Z.add].
  assert (Hfix : decimal._fix (mkDecimal false (g * p) 0)
                 = Ok (mkDecimal false (g * p) 0)).
  { destruct (Z.eq_dec (g * p) 0) as [H0|H0].
    - rewrite H0. reflexivity.
    - apply ScalingFacts._fix_short; [lia|]. vm_compute. split; discriminate. }
  rewrite Hfix. cbn [obind].
  change (decimal.of_Z WEI) with (mkDecimal false (10 ^ 18) 0).
  destruct (ScalingFacts.scaled_exactly (g * p) 18 0) as (v & Hv & Hq); try lia.
  destruct (Z.ltb_spec (g * p) 0) as [H|_]; [lia|].
  rewrite Z.abs_eq in Hv by lia.
  exists v. split; [exact Hv|exact Hq].
Qed.

(** X13. The decimals of an asset must be a JSON integer that is not
    negative: when [contract_decimals] is null, a text (as the decimals of a
    token are in the answers of the block explorer) or a negative integer,
    the power of ten is no integer and the record is not built, the call
    raises [TypeError]. *)
Theorem asset_decimals_must_be_a_natural_number :
  forall timestamp address balances i currency contract raw d decimals,
    getitem i "contract_ticker_symbol" = Ok currency ->
    getitem i "contract_address" = Ok contract ->
    getitem i "balance" = Ok raw -> py_Decimal raw = Ok d ->
    getitem i "contract_decimals" = Ok decimals ->
    decimals = VNone \/ (exists s, decimals = VStr s)
    \/ (exists n, decimals = VInt n /\ (- 2 ^ 1023 < n < 0)%Z) ->
    asset_body timestamp address balances i = Raise TypeError.
Proof.
  intros timestamp address balances i currency contract raw d decimals
         Hc Hca Hraw Hd Hdec Hbad.
  unfold asset_body. rewrite Hc, Hca, Hraw. cbn [obind]. rewrite Hd. cbn [obind].
  rewrite Hdec. cbn [obind].
  destruct Hbad as [->|[(s & ->)|(n & -> & Hn)]]; try reflexivity.
  cbn [int_pow10].
  destruct (Z.leb_spec 0 n) as [H|_]; [lia|].
  destruct (Z.ltb_spec (- 2 ^ 1023) n) as [_|H]; [reflexivity|lia].
Qed.

Lemma length_le_digits : forall fuel n,
  Z.of_nat (List.length (Text.le_digits fuel n)) = Text.ndigits_aux fuel n.
Proof.
  induction fuel as [|f IH]; intros n; cbn [Text.le_digits Text.ndigits_aux].
  - reflexivity.
  - destruct (n <? 10)%Z; [reflexivity|].
    cbn [List.length]. rewrite Nat2Z.inj_succ, IH. lia.
Qed.

(** The digits of a natural number, as [str] writes them. *)
Lemma digits_of_str : forall n,
  (0 <= n)%Z ->
  let ds := list_ascii_of_string (Text.str_of_Z n) in
  forallb Text.is_digit ds = true /\ Text.digits_value ds = n /\ ds <> []
  /\ Z.of_nat (List.length ds) = Text.ndigits n.
Proof.
  intros n Hn. unfold Text.str_of_Z.
  destruct (Z.ltb_spec n 0) as [H|_]; [lia|].
  rewrite Z.abs_eq by assumption. rewrite list_ascii_of_string_of_list_ascii.
  destruct (ScalingFacts.str_digits_spec n Hn) as (H1 & H2 & H3).
  repeat split; try assumption.
  rewrite length_rev. apply length_le_digits.
Qed.

Lemma digit_not_blank : forall c, Text.is_digit c = true -> Text.is_blank c = false.
Proof.
  intros c H. destruct c as [[] [] [] [] [] [] [] []];
    try discriminate H; reflexivity.
Qed.

Lemma grouped_digits_plain : forall l acc,
  forallb Text.is_digit l = true -> l <> [] ->
  PyInt.grouped_digits l acc = Some (rev acc ++ l).
Proof.
  induction l as [|c r IH]; intros acc Hl Hne; [contradiction|].
  cbn [forallb] in Hl. apply andb_true_iff in Hl. destruct Hl as [Hc Hr].
  cbn [PyInt.grouped_digits]. rewrite Hc.
  destruct r as [|c' r'].
  - reflexivity.
  - assert (Hc' : Text.is_digit c' = true).
    { cbn [forallb] in Hr. apply andb_true_iff in Hr. apply Hr. }
    assert (Hrec : PyInt.grouped_digits (c' :: r') (c :: acc)
                   = Some (rev acc ++ c :: c' :: r')).
    { rewrite IH by (assumption || discriminate).
      cbn [rev]. rewrite <- app_assoc. reflexivity. }
    destruct c' as [[] [] [] [] [] [] [] []]; try discriminate Hc'; exact Hrec.
Qed.

(** X14. [int] reads the text of an integer back as that integer: a
    timestamp or an error flag that the provider sends as a text gives the
    number that the text writes, as long as it has at most 4300 digits. *)
Theorem int_reads_the_text_of_an_integer : forall n,
  (Z.abs n < 10 ^ 4300)%Z -> py_int (VStr (Text.str_of_Z n)) = Ok n.
Proof.
  intros n Hn. cbn [py_int]. unfold PyInt.of_string.
  destruct (digits_of_str (Z.abs n) (Z.abs_nonneg n)) as (H1 & H2 & H3 & H4).
  assert (Hds : list_ascii_of_string (Text.str_of_Z (Z.abs n))
                = rev (Text.le_digits (Z.to_nat (Z.log2 (Z.abs n))) (Z.abs n))).
  { unfold Text.str_of_Z. destruct (Z.ltb_spec (Z.abs n) 0) as [H|_]; [lia|].
    rewrite (Z.abs_eq (Z.abs n)) by apply Z.abs_nonneg.
    apply list_ascii_of_string_of_list_ascii. }
  rewrite Hds in H1, H2, H3, H4.
  set (ds := rev (Text.le_digits (Z.to_nat (Z.log2 (Z.abs n))) (Z.abs n))) in *.
  assert (Hlen : (Z.of_nat (List.length ds) <= 4300)%Z).
  { rewrite H4. destruct (Z.eq_dec (Z.abs n) 0) as [->|H0]; [vm_compute; discriminate|].
    apply ScalingFacts.ndigits_le; [clear Hn; lia|exact Hn]. }
  clear Hn.
  destruct ds as [|c ds'] eqn:Eds; [contradiction|].
  assert (Hc : Text.is_digit c = true).
  { cbn [forallb] in H1. apply andb_true_iff in H1. apply H1. }
  assert (Hlast : forall pre,
             match rev (pre ++ c :: ds') with
             | [] => True
             | x :: _ => Text.is_blank x = false
             end).
  { intros pre.
    pose proof (ScalingFacts.last_is_digit (c :: ds') c H1 (or_intror Hc) pre) as H.
    destruct (rev (pre ++ c :: ds')); [exact I|].
    destruct H as [H|H]; [discriminate|]. apply digit_not_blank; assumption. }
  unfold Text.str_of_Z. fold ds. rewrite Eds.
  rewrite list_ascii_of_string_of_list_ascii.
  destruct (Z.ltb_spec n 0) as [Hneg|Hpos].
  - rewrite (ScalingFacts.strip_id Text.is_blank "-" (c :: ds') eq_refl (Hlast ["-"%char])).
    rewrite (grouped_digits_plain (c :: ds') [] H1 H3). cbn [rev app].
    destruct (Z.ltb_spec PyInt.max_str_digits (Z.of_nat (List.length (c :: ds'))))
      as [H|_]; [unfold PyInt.max_str_digits in H; lia|].
    rewrite H2. f_equal. lia.
  - rewrite (ScalingFacts.strip_id Text.is_blank c ds' (digit_not_blank c Hc) (Hlast [])).
    assert (Hsign : match c :: ds' with
                    | "-"%char :: r => (true, r)
                    | "+"%char :: r => (false, r)
                    | _ => (false, c :: ds')
                    end = (false, c :: ds')).
    { destruct c as [[] [] [] [] [] [] [] []]; try discriminate Hc; reflexivity. }
    rewrite Hsign.
    rewrite (grouped_digits_plain (c :: ds') [] H1 H3). cbn [rev app].
    destruct (Z.ltb_spec PyInt.max_str_digits (Z.of_nat (List.length (c :: ds'))))
      as [H|_]; [unfold PyInt.max_str_digits in H; lia|].
    rewrite H2. f_equal. lia.
Qed.

(** ** Decimals as text *)

Lemma drop_while_none : forall (p : ascii -> bool) l,
  Forall (fun c => p c = false) l -> Text.drop_while p l = l.
Proof.
  intros p l H. apply ScalingFacts.drop_while_head.
  destruct H as [|c r Hc _]; [exact I|exact Hc].
Qed.

Lemma strip_none : forall (p : ascii -> bool) l,
  Forall (fun c => p c = false) l -> Text.strip p l = l.
Proof.
  intros p l H. unfold Text.strip.
  rewrite (drop_while_none p l H).
  rewrite (drop_while_none p (rev l)); [apply rev_involutive|].
  apply Forall_rev. exact H.
Qed.

Lemma filter_all : forall (p : ascii -> bool) l,
  Forall (fun c => p c = true) l -> filter p l = l.
Proof.
  intros p l H. induction H as [|c r Hc _ IH]; simpl; [reflexivity|].
  rewrite Hc, IH. reflexivity.
Qed.

Lemma span_app : forall a rest,
  forallb Text.is_digit a = true ->
  match rest with [] => True | x :: _ => Text.is_digit x = false end ->
  Text.span Text.is_digit (a ++ rest) = (a, rest).
Proof.
  induction a as [|c a IH]; intros rest Ha Hrest.
  - simpl. destruct rest as [|x r]; [reflexivity|]. simpl. rewrite Hrest. reflexivity.
  - simpl in Ha. apply andb_true_iff in Ha. destruct Ha as [Hc Ha].
    simpl. rewrite Hc, (IH rest Ha Hrest). reflexivity.
Qed.

Lemma digits_value_zeros : forall k l,
  Text.digits_value (repeat "0"%char k ++ l) = Text.digits_value l.
Proof.
  intros k l. unfold Text.digits_value. rewrite fold_left_app.
  f_equal. induction k as [|k IH]; [reflexivity|].
  replace (repeat "0"%char (S k)) with (repeat "0"%char k ++ ["0"%char])
    by (rewrite <- repeat_cons; reflexivity).
  rewrite fold_left_app, IH. reflexivity.
Qed.

Lemma forallb_repeat_zero : forall k,
  forallb Text.is_digit (repeat "0"%char k) = true.
Proof. induction k as [|k IH]; [reflexivity|]. simpl. exact IH. Qed.

(** The characters of the text of a number: digits, signs, the point and
    the letter of the exponent. *)
Lemma number_text_is_plain : forall l,
  Forall (fun c => Text.is_digit c = true \/ In c ["-"; "+"; "."; "E"]%char) l ->
  Forall (fun c => Text.is_space c = false) l
  /\ Forall (fun c => negb (Ascii.eqb c "_") = true) l.
Proof.
  intros l H. split; (eapply Forall_impl; [|exact H]); intros c [Hc|Hc].
  - apply ScalingFacts.digit_not_space; assumption.
  - simpl in Hc. repeat (destruct Hc as [<-|Hc]; [reflexivity|]). contradiction.
  - apply ScalingFacts.digit_not_underscore; assumption.
  - simpl in Hc. repeat (destruct Hc as [<-|Hc]; [reflexivity|]). contradiction.
Qed.

Lemma digits_are_plain : forall l,
  forallb Text.is_digit l = true ->
  Forall (fun c => Text.is_digit c = true \/ In c ["-"; "+"; "."; "E"]%char) l.
Proof.
  intros l H. apply Forall_forall. intros c Hc. left.
  rewrite forallb_forall in H. apply H; assumption.
Qed.

Lemma signed_spec : forall n,
  exists ds, decimal.signed n = (if (n <? 0)%Z then "-"%char else "+"%char) :: ds
             /\ forallb Text.is_digit ds = true /\ ds <> []
             /\ Text.digits_value ds = Z.abs n.
Proof.
  intros n. unfold decimal.signed.
  destruct (digits_of_str (Z.abs n) (Z.abs_nonneg n)) as (H1 & H2 & H3 & _).
  exists (list_ascii_of_string (Text.str_of_Z (Z.abs n))). auto.
Qed.

(** [Decimal] reads a sign, digits, a point with more digits and an
    exponent. *)
Lemma of_string_number :
  forall (s : bool) (I F : list ascii) (point : bool) (n : option Z),
    forallb Text.is_digit I = true -> I <> [] ->
    forallb Text.is_digit F = true -> (point = false -> F = []) ->
    match n with Some n => (Z.abs n < 10 ^ 17)%Z | None => True end ->
    decimal.of_string
      (string_of_list_ascii
         ((if s then ["-"%char] else [])
          ++ I ++ (if point then "."%char :: F else [])
          ++ match n with Some n => "E"%char :: decimal.signed n | None => [] end))
    = Ok (mkDecimal s (Text.digits_value (I ++ F))
            (match n with Some n => n | None => 0 end - Z.of_nat (List.length F))%Z).
Proof.
  intros s I F point n HI HIne HF Hpoint Hn.
  set (expo := match n with Some n => "E"%char :: decimal.signed n | None => [] end).
  set (rest := (if point then "."%char :: F else []) ++ expo).
  set (T := (if s then ["-"%char] else []) ++ I ++ rest).
  assert (Hexpo_plain :
            Forall (fun c => Text.is_digit c = true \/ In c ["-"; "+"; "."; "E"]%char) expo).
  { unfold expo. destruct n as [n|]; [|constructor].
    destruct (signed_spec n) as (ds & -> & Hds & _ & _).
    constructor; [right; simpl; auto|].
    constructor; [right; destruct (n <? 0)%Z; simpl; auto|].
    apply digits_are_plain; assumption. }
  assert (Hplain :
            Forall (fun c => Text.is_digit c = true \/ In c ["-"; "+"; "."; "E"]%char) T).
  { unfold T, rest. apply Forall_app; split; [|apply Forall_app; split;
                                                 [|apply Forall_app; split]].
    - destruct s; constructor; [right; simpl; auto|constructor].
    - apply digits_are_plain; assumption.
    - destruct point; [|constructor].
      constructor; [right; simpl; auto|apply digits_are_plain; assumption].
    - exact Hexpo_plain. }
  destruct (number_text_is_plain T Hplain) as [Hspace Hunder].
  unfold decimal.of_string. rewrite list_ascii_of_string_of_list_ascii.
  rewrite (strip_none _ T Hspace), (filter_all _ T Hunder).
  destruct I as [|c I']; [contradiction|].
  assert (Hc : Text.is_digit c = true).
  { cbn [forallb] in HI. apply andb_true_iff in HI. apply HI. }
  assert (Hsign : decimal.take_sign T = (s, (c :: I') ++ rest)).
  { unfold T. destruct s; [reflexivity|]. cbn [app].
    apply ScalingFacts.take_sign_digit; assumption. }
  rewrite Hsign.
  assert (Hexpo_head : match expo with
                       | [] => True
                       | x :: _ => Text.is_digit x = false
                       end).
  { unfold expo. destruct n; [reflexivity|exact I]. }
  assert (Hrest_head : match rest with
                       | [] => True
                       | x :: _ => Text.is_digit x = false
                       end).
  { unfold rest. destruct point; [reflexivity|exact Hexpo_head]. }
  rewrite (span_app (c :: I') rest HI Hrest_head).
  assert (Hfrac : match rest with
                  | "."%char :: r => Text.span Text.is_digit r
                  | _ => ([], rest)
                  end = (F, expo)).
  { unfold rest. destruct point.
    - cbn [app]. apply span_app; assumption.
    - rewrite (Hpoint eq_refl). cbn [app].
      unfold expo. destruct n as [n|]; reflexivity. }
  rewrite Hfrac. cbn [app].
  unfold expo. destruct n as [n|].
  - destruct (signed_spec n) as (ds & -> & Hds & Hne & Hval).
    change (decimal.is_letter "e" "E") with true. cbv iota.
    assert (Hts : decimal.take_sign ((if (n <? 0)%Z then "-"%char else "+"%char) :: ds)
                  = ((n <? 0)%Z, ds)).
    { destruct (n <? 0)%Z; reflexivity. }
    rewrite Hts. destruct ds as [|x ds']; [contradiction|].
    rewrite Hds, Hval.
    destruct (Z.leb_spec (10 ^ 17) (Z.abs n)) as [H|_]; [lia|].
    do 3 f_equal. destruct (Z.ltb_spec n 0); lia.
  - reflexivity.
Qed.

(** X15. What [json.dump] writes for a decimal, its [str], reads back as
    the same decimal: [Decimal] gets from the text the sign, every digit
    (zeros at the end included) and the exponent, whether the text is plain
    or in scientific notation.  The exponent of the notation must have less
    than 18 digits; every number of the default context has such an exponent
    and reads back. *)
Theorem Decimal_reads_its_own_text :
  (forall d,
     (0 <= dint d)%Z ->
     (Z.abs (dexp d + Text.ndigits (dint d) - 1) < 10 ^ 17)%Z ->
     py_Decimal (VStr (decimal.__str__ d)) = Ok d)
  /\ (forall d, in_context d -> py_Decimal (VStr (decimal.__str__ d)) = Ok d).
Proof.
  assert (Hgeneral : forall d,
            (0 <= dint d)%Z ->
            (Z.abs (dexp d + Text.ndigits (dint d) - 1) < 10 ^ 17)%Z ->
            py_Decimal (VStr (decimal.__str__ d)) = Ok d);
    [|split; [exact Hgeneral|]].
  2:{ intros d (Hc & Hlow & Hhigh). apply Hgeneral; [lia|].
      destruct (ScalingFacts.ndigits_spec (dint d) ltac:(lia)) as (N1 & _ & _).
      unfold decimal.Etiny, decimal.Emax, decimal.Emin, decimal.prec in *.
      apply Z.abs_lt. lia. }
  intros [s c e]. cbn [dsign dint dexp]. intros Hc He.
  cbn [py_Decimal]. unfold decimal.__str__. cbn [dsign dint dexp].
  destruct (digits_of_str c Hc) as (H1 & H2 & H3 & H4).
  set (ds := list_ascii_of_string (Text.str_of_Z c)) in *.
  rewrite H4. set (len := Text.ndigits c) in *.
  assert (Hlen : (1 <= len)%Z).
  { rewrite <- H4. destruct ds; [contradiction|]. cbn [List.length]. lia. }
  destruct ((e <=? 0)%Z && (-6 <? e + len)%Z) eqn:Hplain.
  - apply andb_true_iff in Hplain. destruct Hplain as [He0 Hleft].
    apply Z.leb_le in He0. apply Z.ltb_lt in Hleft.
    rewrite Z.eqb_refl.
    destruct (Z.leb_spec (e + len) 0) as [Hdot|Hdot].
    + assert (HF : forallb Text.is_digit
                     (repeat "0"%char (Z.to_nat (- (e + len))) ++ ds) = true).
      { rewrite forallb_app, forallb_repeat_zero, H1. reflexivity. }
      pose proof (of_string_number s ["0"%char] _ true None eq_refl
                    ltac:(discriminate) HF ltac:(discriminate) I) as P.
      cbv beta iota in P. rewrite P. clear P.
      change (["0"%char] ++ repeat "0"%char (Z.to_nat (- (e + len))) ++ ds)
        with (repeat "0"%char (S (Z.to_nat (- (e + len)))) ++ ds).
      rewrite digits_value_zeros, H2. do 2 f_equal.
      rewrite length_app, repeat_length, Nat2Z.inj_add, H4. lia.
    + destruct (Z.leb_spec len (e + len)) as [Hfull|Hpart].
      * assert (e = 0)%Z by lia. subst e.
        replace (Z.to_nat (0 + len - len)) with O by lia. cbn [repeat].
        rewrite (app_nil_r ds).
        pose proof (of_string_number s ds [] false None H1 H3 eq_refl
                      ltac:(reflexivity) I) as P.
        cbv beta iota in P. rewrite P. clear P.
        rewrite app_nil_r, H2. reflexivity.
      * assert (Hsplit : forallb Text.is_digit (firstn (Z.to_nat (e + len)) ds) = true
                         /\ forallb Text.is_digit (skipn (Z.to_nat (e + len)) ds) = true).
        { rewrite <- (firstn_skipn (Z.to_nat (e + len)) ds) in H1.
          rewrite forallb_app in H1. apply andb_true_iff in H1. exact H1. }
        destruct Hsplit as [Hfirst Hskip].
        assert (Hne : firstn (Z.to_nat (e + len)) ds <> []).
        { intros H. apply (f_equal (@List.length ascii)) in H.
          rewrite length_firstn in H. cbn [List.length] in H. lia. }
        pose proof (of_string_number s _ _ true None Hfirst Hne Hskip
                      ltac:(discriminate) I) as P.
        cbv beta iota in P. rewrite P. clear P.
        rewrite firstn_skipn, H2. do 2 f_equal.
        rewrite length_skipn. lia.
  - assert (Hsci : (0 < e \/ e + len <= -6)%Z).
    { apply andb_false_iff in Hplain. destruct Hplain as [H|H].
      - apply Z.leb_gt in H. left; exact H.
      - apply Z.ltb_ge in H. right; exact H. }
    destruct (Z.eqb_spec (e + len) 1) as [H|_]; [lia|].
    cbn [Z.leb Z.compare].
    destruct (Z.leb_spec len 1) as [Hone|Hmore].
    + assert (len = 1)%Z by lia.
      replace (Z.to_nat (1 - len)) with O by lia. cbn [repeat].
      rewrite (app_nil_r ds).
      pose proof (of_string_number s ds [] false (Some (e + len - 1)%Z) H1 H3 eq_refl
                    ltac:(reflexivity) He) as P.
      cbv beta iota in P. rewrite P. clear P.
      rewrite app_nil_r, H2. do 2 f_equal. cbn [List.length]. lia.
    + assert (Hsplit : forallb Text.is_digit (firstn (Z.to_nat 1) ds) = true
                       /\ forallb Text.is_digit (skipn (Z.to_nat 1) ds) = true).
      { rewrite <- (firstn_skipn (Z.to_nat 1) ds) in H1.
        rewrite forallb_app in H1. apply andb_true_iff in H1. exact H1. }
      destruct Hsplit as [Hfirst Hskip].
      assert (Hne : firstn (Z.to_nat 1) ds <> []).
      { intros H. apply (f_equal (@List.length ascii)) in H.
        rewrite length_firstn in H. cbn [List.length] in H. lia. }
      pose proof (of_string_number s _ _ true (Some (e + len - 1)%Z) Hfirst Hne Hskip
                    ltac:(discriminate) He) as P.
      cbv beta iota in P. rewrite P. clear P.
      rewrite firstn_skipn, H2. do 2 f_equal.
      rewrite length_skipn. lia.
Qed.

(** ** The values that the module computes stay within the context *)

Lemma digit_value_nonneg : forall c,
  Text.is_digit c = true -> (0 <= Text.digit_value c)%Z.
Proof.
  intros c H. unfold Text.is_digit in H. apply andb_true_iff in H.
  destruct H as [H _]. apply Z.leb_le in H. unfold Text.digit_value. lia.
Qed.

Lemma digits_value_nonneg : forall l,
  forallb Text.is_digit l = true -> (0 <= Text.digits_value l)%Z.
Proof.
  induction l as [|c l IH] using rev_ind; intros H; [vm_compute; discriminate|].
  rewrite forallb_app in H. apply andb_true_iff in H. destruct H as [Hl Hc].
  cbn [forallb] in Hc. rewrite andb_true_r in Hc.
  rewrite ScalingFacts.digits_value_snoc.
  pose proof (IH Hl). pose proof (digit_value_nonneg c Hc). lia.
Qed.

Lemma span_digits_fst : forall l a b,
  Text.span Text.is_digit l = (a, b) -> forallb Text.is_digit a = true.
Proof.
  induction l as [|c l IH]; intros a b H; simpl in H.
  - inversion H; reflexivity.
  - destruct (Text.is_digit c) eqn:Hc.
    + destruct (Text.span Text.is_digit l) as [a' b'] eqn:E.
      inversion H; subst. cbn [forallb]. rewrite Hc. eapply IH; reflexivity.
    + inversion H; reflexivity.
Qed.

Lemma of_string_nonneg : forall s d,
  decimal.of_string s = Ok d -> (0 <= dint d)%Z.
Proof.
  intros s d. unfold decimal.of_string.
  destruct (decimal.take_sign _) as [sign body].
  destruct (Text.span Text.is_digit body) as [intpart rest] eqn:E1.
  destruct (match rest with
            | "."%char :: r => Text.span Text.is_digit r
            | _ => ([], rest)
            end) as [fracpart rest'] eqn:E2.
  assert (Hint : forallb Text.is_digit intpart = true)
    by (eapply span_digits_fst; eassumption).
  assert (Hfrac : forallb Text.is_digit fracpart = true).
  { destruct rest as [|x r]; [inversion E2; reflexivity|].
    destruct (Ascii.eqb_spec x "."%char) as [->|Hx].
    - eapply span_digits_fst; eassumption.
    - assert (H : ([], x :: r) = (fracpart, rest')).
      { rewrite <- E2. destruct x as [[] [] [] [] [] [] [] []];
          try reflexivity. contradiction Hx; reflexivity. }
      inversion H; reflexivity. }
  assert (Hall : (0 <= Text.digits_value (intpart ++ fracpart))%Z).
  { apply digits_value_nonneg. rewrite forallb_app, Hint, Hfrac. reflexivity. }
  destruct (intpart ++ fracpart) as [|x ds].
  - destruct (decimal.is_special body); discriminate.
  - destruct rest' as [|e r].
    + intros H; inversion H; exact Hall.
    + destruct (decimal.is_letter "e" e); [|discriminate].
      destruct (decimal.take_sign r) as [eneg ed].
      destruct ed as [|y ed']; [discriminate|].
      destruct (forallb Text.is_digit (y :: ed')); [|discriminate].
      destruct (10 ^ 17 <=? Text.digits_value (y :: ed'))%Z; [discriminate|].
      intros H; inversion H; exact Hall.
Qed.

Lemma py_Decimal_nonneg : forall raw d,
  from_json raw -> py_Decimal raw = Ok d -> (0 <= dint d)%Z.
Proof.
  intros raw d Hjson H.
  destruct raw; cbn [py_Decimal] in H; try discriminate; try contradiction.
  - injection H as <-. destruct b; cbn; lia.
  - injection H as <-. cbn [dint decimal.of_Z]. lia.
  - unfold decimal.of_float in H. destruct (Prim2SF f); try discriminate.
    + injection H as <-; cbn [dint]; lia.
    + assert (H1 : (0 <= Z.pos m * 2 ^ e)%Z)
        by (apply Z.mul_nonneg_nonneg; [lia|apply Z.pow_nonneg; lia]).
      assert (H2 : (0 <= Z.pos m / 2 ^ Z.min (decimal.trailing_zero_bits m) (- e)
                         * 5 ^ (- e - Z.min (decimal.trailing_zero_bits m) (- e)))%Z).
      { apply Z.mul_nonneg_nonneg; [|apply Z.pow_nonneg; lia].
        apply Z_div_nonneg_nonneg; [lia|apply Z.pow_nonneg; lia]. }
      destruct (0 <=? e)%Z; injection H as <-; assumption.
  - eapply of_string_nonneg; eassumption.
Qed.

Lemma in_context_intro : forall s coeff x,
  (0 <= coeff < 10 ^ 28)%Z -> (decimal.Etiny <= x <= decimal.Etop)%Z ->
  in_context (mkDecimal s coeff x).
Proof.
  intros s coeff x Hc Hx. unfold in_context. cbn [dint dexp].
  unfold decimal.Etop, decimal.Etiny, decimal.Emax, decimal.Emin, decimal.prec in *.
  assert (Hn : (Text.ndigits coeff <= 28)%Z).
  { destruct (Z.eq_dec coeff 0) as [->|H0]; [vm_compute; discriminate|].
    apply ScalingFacts.ndigits_le; lia. }
  lia.
Qed.

(** [Decimal._fix] gives a number of the context. *)
Lemma _fix_in_context : forall d v,
  (0 <= dint d)%Z -> decimal._fix d = Ok v -> in_context v /\ dsign v = dsign d.
Proof.
  intros [s c e] v Hc. unfold decimal._fix. cbn [dsign dint dexp] in *.
  destruct (Z.eqb_spec c 0) as [->|Hne].
  - intros Hv; injection Hv as <-. split; [|reflexivity].
    unfold in_context. cbn [dint dexp]. change (Text.ndigits 0) with 1%Z.
    unfold decimal.Etiny, decimal.Emax, decimal.Emin, decimal.prec. lia.
  - destruct (ScalingFacts.ndigits_spec c Hc) as (N1 & N2 & N3).
    specialize (N3 ltac:(lia)). set (N := Text.ndigits c) in *.
    destruct (Z.ltb_spec decimal.Etop (N + e - decimal.prec)) as [|Htop];
      [discriminate|].
    set (em := if (N + e - decimal.prec <? decimal.Etiny)%Z
               then decimal.Etiny else (N + e - decimal.prec)%Z).
    assert (Hem : (decimal.Etiny <= em <= decimal.Etop)%Z
                  /\ (N + e - decimal.prec <= em)%Z).
    { unfold em. destruct (Z.ltb_spec (N + e - decimal.prec) decimal.Etiny);
        unfold decimal.Etop, decimal.Etiny, decimal.Emax, decimal.Emin, decimal.prec in *;
        lia. }
    clearbody em. destruct Hem as [Hem Hlow]. unfold decimal.prec in Hlow, Htop.
    destruct (Z.ltb_spec e em) as [Hround|Hkeep].
    + destruct (Z.ltb_spec (N + e - em) 0) as [Hneg|Hdigits].
      * replace (em - (em - 1))%Z with 1%Z by lia.
        change (decimal.rounds_up (1 / 10 ^ 1) (1 mod 10 ^ 1) (10 ^ 1)) with false.
        cbv iota. change (1 / 10 ^ 1)%Z with 0%Z.
        destruct (Z.ltb_spec decimal.Etop em); [discriminate|].
        intros Hv; injection Hv as <-. split; [|reflexivity].
        apply in_context_intro; lia.
      * set (unit := (10 ^ (em - e))%Z).
        assert (Hunit : (0 < unit)%Z) by (apply Z.pow_pos_nonneg; lia).
        set (kept := (c / unit)%Z).
        assert (Hkept : (0 <= kept < 10 ^ 28)%Z).
        { split; [apply Z.div_pos; lia|].
          apply Z.lt_le_trans with (10 ^ (N + e - em))%Z.
          - apply Z.div_lt_upper_bound; [assumption|].
            unfold unit. rewrite <- Z.pow_add_r by lia.
            replace (em - e + (N + e - em))%Z with N by lia. assumption.
          - apply Z.pow_le_mono_r; lia. }
        assert (Hup : (0 <= (kept + 1) / 10 < 10 ^ 28)%Z).
        { split; [apply Z.div_pos; lia|].
          apply Z.div_lt_upper_bound; lia. }
        destruct (decimal.rounds_up kept (c mod unit) unit).
        -- destruct (Z.ltb_spec decimal.prec (Text.ndigits (kept + 1))) as [Hlong|Hshort].
           ++ destruct (Z.ltb_spec decimal.Etop (em + 1)); [discriminate|].
              intros Hv; injection Hv as <-. split; [|reflexivity].
              apply in_context_intro; lia.
           ++ destruct (Z.ltb_spec decimal.Etop em); [discriminate|].
              intros Hv; injection Hv as <-. split; [|reflexivity].
              apply in_context_intro; [|lia].
              destruct (ScalingFacts.ndigits_spec (kept + 1) ltac:(lia)) as (_ & K & _).
              split; [lia|]. apply Z.lt_le_trans with (1 := K).
              apply Z.pow_le_mono_r; [lia|exact Hshort].
        -- destruct (Z.ltb_spec decimal.Etop em); [discriminate|].
           intros Hv; injection Hv as <-. split; [|reflexivity].
           apply in_context_intro; lia.
    + intros Hv; injection Hv as <-. split; [|reflexivity].
      unfold in_context. cbn [dint dexp]. fold N.
      assert (c < 10 ^ 28)%Z.
      { apply Z.lt_le_trans with (1 := N2). apply Z.pow_le_mono_r; lia. }
      unfold decimal.Etop, decimal.Etiny, decimal.Emax, decimal.Emin, decimal.prec in *.
      lia.
Qed.

Lemma strip_zeros_nonneg : forall n coeff exp,
  (0 <= coeff)%Z -> (0 <= fst (decimal.strip_zeros n coeff exp))%Z.
Proof.
  induction n as [|n IH]; intros coeff exp H; cbn [decimal.strip_zeros]; [exact H|].
  destruct (coeff mod 10 =? 0)%Z; [|exact H].
  apply IH. apply Z.div_pos; lia.
Qed.

Lemma truediv_in_context : forall a b v,
  (0 <= dint a)%Z -> (0 <= dint b)%Z -> decimal.truediv a b = Ok v -> in_context v.
Proof.
  intros [sa ca ea] [sb cb eb] v Ha Hb. unfold decimal.truediv.
  cbn [dsign dint dexp] in *.
  destruct (Z.eqb_spec cb 0) as [|Hcb].
  { destruct (ca =? 0)%Z; discriminate. }
  set (shift := (Text.ndigits cb - Text.ndigits ca + decimal.prec + 1)%Z).
  match goal with
  | |- (let '(coeff, exp) := ?p in _) = _ -> _ =>
      assert (Hp : (0 <= fst p)%Z); [|destruct p as [coeff exp]]
  end.
  - destruct (ca =? 0)%Z; [cbn [fst]; lia|].
    assert (Hq : (0 <= fst (if (0 <=? shift)%Z
                            then ((ca * 10 ^ shift / cb)%Z, (ca * 10 ^ shift mod cb)%Z)
                            else ((ca / (cb * 10 ^ (- shift)))%Z,
                                  (ca mod (cb * 10 ^ (- shift)))%Z)))%Z).
    { destruct (Z.leb_spec 0 shift); cbn [fst].
      - apply Z.div_pos; [|lia]. apply Z.mul_nonneg_nonneg; [lia|].
        apply Z.pow_nonneg; lia.
      - apply Z_div_nonneg_nonneg; [lia|]. apply Z.mul_nonneg_nonneg; [lia|].
        apply Z.pow_nonneg; lia. }
    destruct (if (0 <=? shift)%Z
              then ((ca * 10 ^ shift / cb)%Z, (ca * 10 ^ shift mod cb)%Z)
              else ((ca / (cb * 10 ^ (- shift)))%Z, (ca mod (cb * 10 ^ (- shift)))%Z))
      as [q r]. cbn [fst] in Hq.
    destruct (r =? 0)%Z.
    + apply strip_zeros_nonneg; assumption.
    + cbn [fst]. destruct (q mod 5 =? 0)%Z; lia.
  - cbn [fst] in Hp. intros H.
    apply _fix_in_context in H; [apply H|assumption].
Qed.

Lemma mul_in_context : forall a b v,
  (0 <= dint a)%Z -> (0 <= dint b)%Z -> decimal.mul a b = Ok v -> in_context v.
Proof.
  intros a b v Ha Hb H. unfold decimal.mul in H.
  apply _fix_in_context in H; [apply H|]. cbn [dint]. apply Z.mul_nonneg_nonneg; assumption.
Qed.

Lemma rpow10_nonneg : forall k p,
  (0 <= dint k)%Z -> decimal.rpow10 k = Ok p -> (0 <= dint p)%Z.
Proof.
  intros [s c e] p Hk. unfold decimal.rpow10. cbn [dsign dint dexp] in *.
  destruct (c =? 0)%Z; [intros Hv; injection Hv as <-; cbn; lia|].
  assert (Hfix : forall coeff x, (0 <= coeff)%Z ->
                   decimal._fix (mkDecimal false coeff x) = Ok p -> (0 <= dint p)%Z).
  { intros coeff x Hcoeff H. apply _fix_in_context in H; [|exact Hcoeff].
    destruct H as [(H & _) _]. apply H. }
  destruct (negb s && (6 <=? 0 + (e + Text.ndigits c - 1))%Z);
    [apply Hfix; lia|].
  destruct (s && (7 <=? 0 + (e + Text.ndigits c - 1))%Z); [apply Hfix; lia|].
  destruct (decimal.strip_zeros (Z.to_nat (Text.ndigits c)) c e) as [yc ye].
  destruct (ye <? 0)%Z; [discriminate|].
  apply Hfix. apply Z.pow_nonneg; lia.
Qed.

(** X16. Every value that the module computes from finite numbers of a
    response is a number of the default context, with at most 28 digits and
    an exponent within the range: the value of a transfer, the fee, the value
    of a token transfer and the balance of an asset.  The numbers must be
    finite: [Decimal] also reads the texts [NaN] and [Infinity], the code
    divides them like any number and records a value that is no number of
    the context, and the property leaves these out. *)
Theorem emitted_values_stay_in_context :
  (forall raw v,
     from_json raw -> finite_number raw ->
     wei_value raw = Ok v -> in_context v)
  /\ (forall gasUsed gasPrice v,
        from_json gasUsed -> from_json gasPrice ->
        finite_number gasUsed -> finite_number gasPrice ->
        fee_value gasUsed gasPrice = Ok v -> in_context v)
  /\ (forall raw tokenDecimal v,
        from_json raw -> from_json tokenDecimal ->
        finite_number raw -> finite_number tokenDecimal ->
        token_value raw tokenDecimal = Ok v -> in_context v)
  /\ (forall raw contract_decimals v,
        from_json raw -> finite_number raw ->
        (balance <- py_Decimal raw ;;
         p <- int_pow10 contract_decimals ;;
         div_by_power balance p) = Ok v ->
        in_context v).
Proof.
  split; [|split; [|split]].
  - intros raw v Hraw _ H. unfold wei_value in H. bind_in H.
    apply truediv_in_context in H; [exact H| |vm_compute; discriminate].
    exact (py_Decimal_nonneg _ _ Hraw E).
  - intros gasUsed gasPrice v Hu Hp _ _ H. unfold fee_value in H.
    do 3 bind_in H.
    apply truediv_in_context in H; [exact H| |vm_compute; discriminate].
    assert (Hproduct : in_context a1).
    { eapply mul_in_context;
        [exact (py_Decimal_nonneg _ _ Hu E)|exact (py_Decimal_nonneg _ _ Hp E0)|exact E1]. }
    destruct Hproduct as ((H0 & _) & _). exact H0.
  - intros raw tokenDecimal v Hraw Htd _ _ H. unfold token_value in H.
    do 3 bind_in H.
    apply truediv_in_context in H; [exact H| |].
    + exact (py_Decimal_nonneg _ _ Hraw E).
    + eapply rpow10_nonneg; [|eassumption]. exact (py_Decimal_nonneg _ _ Htd E0).
  - intros raw contract_decimals v Hraw _ H. do 2 bind_in H.
    destruct a0 as [n|]; cbn [div_by_power] in H; [|discriminate].
    apply truediv_in_context in H; [exact H| |].
    + exact (py_Decimal_nonneg _ _ Hraw E).
    + cbn [dint decimal.of_Z]. apply Z.abs_nonneg.
Qed.

(** X17. The decimals of a token have a bound: from 1000000 on, the power
    of ten is beyond the largest exponent of the context, and the call raises
    [Overflow] whatever the raw value is. *)
Theorem token_decimals_beyond_the_range : forall raw d n,
  py_Decimal raw = Ok d -> (1000000 <= n)%Z ->
  token_value raw (VStr (Text.str_of_Z n)) = Raise Overflow.
Proof.
  intros raw d n Hd Hn. unfold token_value. rewrite Hd. cbn [obind].
  rewrite ScalingFacts.py_Decimal_str_of_Z. cbn [obind].
  destruct (Z.ltb_spec n 0) as [H|_]; [lia|]. rewrite Z.abs_eq by lia.
  unfold decimal.rpow10. cbn [dsign dint dexp negb andb].
  destruct (Z.eqb_spec n 0) as [H|_]; [lia|].
  destruct (ScalingFacts.ndigits_spec n ltac:(lia)) as (_ & N2 & _).
  assert (HN : (6 < Text.ndigits n)%Z).
  { apply (Z.pow_lt_mono_r_iff 10); [lia| |].
    - destruct (ScalingFacts.ndigits_spec n ltac:(lia)) as (N1 & _ & _). lia.
    - apply Z.le_lt_trans with (2 := N2). exact Hn. }
  destruct (Z.leb_spec 6 (0 + (0 + Text.ndigits n - 1))) as [_|H]; [|lia].
  reflexivity.
Qed.

(** ** What the files hold *)

Lemma loop_fetched : forall api wallet_api addresses T B w T' B' w',
  for_each_M (download_body api wallet_api) addresses (T, B) w = (Ok (T', B'), w')
  <-> exists txs bals,
        fetched api wallet_api addresses w txs bals w'
        /\ T' = T ++ List.concat txs /\ B' = B ++ List.concat bals.
Proof.
  intros api wallet_api. induction addresses as [|a rest IH]; intros T B w T' B' w'.
  - cbn [for_each_M]. unfold ret. split.
    + intros H; inversion H; subst. exists [], []. cbn [List.concat].
      rewrite !app_nil_r. repeat split. constructor.
    + intros (txs & bals & F & -> & ->). inversion F; subst. cbn [List.concat].
      rewrite !app_nil_r. reflexivity.
  - cbn [for_each_M]. rewrite bind_Ok. split.
    + intros ([T1 B1] & w5 & Hbody & Hrest).
      unfold download_body in Hbody.
      apply bind_Ok in Hbody. destruct Hbody as (n & w1 & Hn & Hbody).
      apply bind_Ok in Hbody. destruct Hbody as (i & w2 & Hi & Hbody).
      apply bind_Ok in Hbody. destruct Hbody as (t & w3 & Ht & Hbody).
      apply bind_Ok in Hbody. destruct Hbody as (b & w4 & Hb & Hbody).
      unfold ret in Hbody. inversion Hbody; subst; clear Hbody.
      apply IH in Hrest. destruct Hrest as (txs & bals & F & -> & ->).
      exists ((n ++ i ++ t) :: txs), (b :: bals). split; [|split].
      * econstructor; eassumption.
      * cbn [List.concat]. rewrite <- !app_assoc. reflexivity.
      * cbn [List.concat]. rewrite <- !app_assoc. reflexivity.
    + intros (txs & bals & F & -> & ->).
      inversion F as [|? ? ? n w1 i w2 t w3 b w4 txs' bals' ? Hn Hi Ht Hb F']; subst.
      exists (((T ++ n) ++ i) ++ t, B ++ b), w4. split.
      * unfold download_body.
        apply bind_Ok. exists n, w1. split; [exact Hn|].
        apply bind_Ok. exists i, w2. split; [exact Hi|].
        apply bind_Ok. exists t, w3. split; [exact Ht|].
        apply bind_Ok. exists b, w4. split; [exact Hb|reflexivity].
      * apply IH. exists txs', bals'. split; [exact F'|].
        cbn [List.concat]. rewrite <- !app_assoc. split; reflexivity.
Qed.

(** X19. The files hold what was fetched, as it was fetched.  The loop of
    [download] ends with its two lists exactly when every fetch of every
    address returns: the first list holds, for each address in the order of
    the account map, its normal transactions, its internal transactions and
    its token transfers, and the second the asset balances of the addresses
    in the same order.  A call of [download] that returns has fetched all of
    this and written the first list to the transactions file and the second
    to the balances file.  Nothing is sorted, merged or left out.  Whether
    the call returns once the fetches have is for the file system to say. *)
Theorem download_saves_what_it_fetched : forall cfg output_dir w,
  (forall transactions balances w1,
     fetch_all cfg w = (Ok (transactions, balances), w1)
     <-> exists txs bals,
           fetched (config_api cfg) (config_wallet_api cfg)
                   (map fst (account_map cfg)) (at_start w) txs bals w1
           /\ transactions = List.concat txs /\ balances = List.concat bals)
  /\ (forall w',
        download cfg output_dir w = (Ok tt, w') ->
        exists txs bals w1,
          fetched (config_api cfg) (config_wallet_api cfg)
                  (map fst (account_map cfg)) (at_start w) txs bals w1
          /\ w' = after_saving cfg output_dir (List.concat txs) (List.concat bals) w1).
Proof.
  intros cfg output_dir w.
  assert (Hloop : fetch_all cfg w
                  = for_each_M (download_body (config_api cfg) (config_wallet_api cfg))
                               (map fst (account_map cfg)) ([], []) (at_start w))
    by reflexivity.
  assert (Hfetch : forall transactions balances w1,
     fetch_all cfg w = (Ok (transactions, balances), w1)
     <-> exists txs bals,
           fetched (config_api cfg) (config_wallet_api cfg)
                   (map fst (account_map cfg)) (at_start w) txs bals w1
           /\ transactions = List.concat txs /\ balances = List.concat bals).
  { intros transactions balances w1. rewrite Hloop.
    exact (loop_fetched (config_api cfg) (config_wallet_api cfg)
             (map fst (account_map cfg)) [] [] (at_start w) transactions balances w1). }
  split; [exact Hfetch|].
  intros w'. rewrite download_unfold.
  destruct (fetch_all cfg w) as [[[transactions balances]| |] w1] eqn:Hall;
    [|discriminate|discriminate].
  intros H. injection H as <-.
  destruct (proj1 (Hfetch transactions balances w1) eq_refl) as (txs & bals & F & -> & ->).
  exists txs, bals, w1. split; [exact F|reflexivity].
Qed.

(** ** These properties at work *)

(** A response without its status, to a client that has slept for five
    seconds: the [KeyError] reaches the caller inside a [RuntimeError]. *)
Lemma _make_api_request_raises_RuntimeError_witness :
  pause paced 100%float 100%float = [Slept 5%float]
  /\ sleep_accepted paced 100%float 100%float = true
  /\ fst (_make_api_request paced "0xab" "txlist" (at_time_100 [empty_object]))
     = Raise (RuntimeError "An error occurred: 'status'")
  /\ exists text,
       RuntimeError "An error occurred: 'status'"
       = RuntimeError ("An error occurred: " ++ text)%string.
Proof.
  split; [vm_compute; reflexivity|]. split; [vm_compute; reflexivity|].
  split; [vm_compute; reflexivity|].
  exact (_make_api_request_raises_RuntimeError paced "0xab" "txlist"
           (at_time_100 [empty_object]) (RuntimeError "An error occurred: 'status'")
           ltac:(vm_compute; reflexivity) ltac:(vm_compute; reflexivity)).
Defined.

(** The server answers 503 to either client. *)
Lemma transport_failure_is_reported_witness :
  fst (_make_api_request client "0xab" "txlist" (scripted [service_unavailable]))
  = Raise (RuntimeError "HTTP error occurred: 503 Server Error: Service Unavailable")
  /\ fst (get_asset_balances wallet "0xab" (scripted [service_unavailable]))
     = Raise (RuntimeError "HTTP error occurred: 503 Server Error: Service Unavailable").
Proof.
  exact (proj1 (transport_failure_is_reported client wallet "0xab" "txlist"
                  (scripted [service_unavailable])
                  "503 Server Error: Service Unavailable") eq_refl).
Defined.

(** Five seconds between requests, and a second call one second after the
    first response: the client sleeps for four seconds. *)
Lemma pause_counts_from_the_last_response_witness :
  trace (snd (_make_api_request paced "0xab" "txlistinternal"
                (snd (_make_api_request paced "0xab" "txlist"
                        (scripted [found []; found []])))))
  = [ explorer_request paced "0xab" "txlist"; Slept 4%float;
      explorer_request paced "0xab" "txlistinternal" ].
Proof.
  rewrite (pause_counts_from_the_last_response paced "0xab" "txlist"
             "0xab" "txlistinternal" (scripted [found []; found []])).
  vm_compute. reflexivity.
Defined.

(** The second item of the response lacks [isError]: the call raises the
    [KeyError] as it is, and the records of the first item are lost. *)
Lemma list_operations_fail_at_the_first_item_witness :
  fst (get_normal_transactions client "0xAb"
         (scripted [found [outgoing; without_isError]]))
  = Raise (KeyError "isError").
Proof.
  assert (Hreq : _make_api_request client "0xAb" "txlist"
                   (scripted [found [outgoing; without_isError]])
                 = (Ok (VList [outgoing; without_isError]),
                    snd (_make_api_request client "0xAb" "txlist"
                           (scripted [found [outgoing; without_isError]])))).
  { apply pair_of_fst. vm_compute. reflexivity. }
  assert (Hfail : first_failure (normal_body client "0xAb" [])
                    [outgoing; without_isError] (KeyError "isError")).
  { exists [outgoing], without_isError, []. split; [reflexivity|]. split.
    - constructor; [|constructor]. eexists. vm_compute. reflexivity.
    - vm_compute. reflexivity. }
  rewrite (proj2 (proj1 (list_operations_fail_at_the_first_item client "0xAb"
                           (scripted [found [outgoing; without_isError]])
                           (KeyError "isError")
                           (snd (_make_api_request client "0xAb" "txlist"
                                   (scripted [found [outgoing; without_isError]])))))
             (or_intror (ex_intro _ (VList [outgoing; without_isError])
                           (conj Hreq
                              (or_intror (ex_intro _ [outgoing; without_isError]
                                            (conj eq_refl Hfail))))))).
  reflexivity.
Defined.

(** No [updated_at] in the data: the [KeyError] is not wrapped. *)
Lemma get_asset_balances_wraps_the_request_only_witness :
  fst (get_asset_balances wallet "0xab" (scripted [empty_object]))
  = Raise (RuntimeError "An error occurred: 'error'")
  /\ fst (get_asset_balances wallet "0xab" (scripted [no_timestamp]))
     = Raise (KeyError "updated_at").
Proof.
  split.
  - exact (proj1 (get_asset_balances_wraps_the_request_only wallet "0xab"
                    (scripted [empty_object]) (VDict []) eq_refl) eq_refl).
  - exact (proj2 (proj2 (get_asset_balances_wraps_the_request_only wallet "0xab"
                           (scripted [no_timestamp]) _ eq_refl)
                    (VBool false) eq_refl eq_refl)
             (VDict [ ("items", VList []) ]) eq_refl).
Defined.

(** A timestamp with whole seconds. *)
Lemma updated_at_needs_a_fraction_witness :
  asset_balances_of "0xab" whole_seconds = Raise ValueError.
Proof.
  apply (updated_at_needs_a_fraction "0xab" whole_seconds "2023-06-01T12:34:56Z").
  - reflexivity.
  - intros c Hc. simpl in Hc.
    repeat (destruct Hc as [<-|Hc]; [discriminate|]). contradiction.
Defined.

(** An account map without addresses. *)
Lemma download_without_addresses_witness :
  requests (snd (download (portfolio []) "out" (scripted []))) = O
  /\ trace (snd (download (portfolio []) "out" (scripted [])))
     = [ MadeDirs "out";
         Wrote "out/eth.json" [];
         Printed "Transactions saved to out/eth.json";
         Wrote "out/eth-balances.json" [];
         Printed "Balances saved to out/eth-balances.json" ].
Proof.
  destruct (download_without_addresses (portfolio []) "out" (scripted []) eq_refl)
    as (_ & _ & Hrequests & Hsaved).
  split; [exact Hrequests|].
  exact (Hsaved (snd (download (portfolio []) "out" (scripted [])))
                (pair_of_fst _ _ _ eq_refl)).
Defined.

(** The four requests for one address. *)
Lemma download_requests_follow_the_plan_witness :
  gets (trace (snd (download (portfolio ["0xAb"]) "out"
                      (scripted [ found [outgoing; failed_outgoing];
                                  no_internal_transactions;
                                  found [token_transfer]; holdings [] ]))))
  = [ explorer_request client "0xAb" "txlist";
      explorer_request client "0xAb" "txlistinternal";
      explorer_request client "0xAb" "tokentx";
      WalletGet "1" "0xAb" "ckey" ].
Proof.
  refine (proj2 (download_requests_follow_the_plan (portfolio ["0xAb"]) "out"
                   (scripted [ found [outgoing; failed_outgoing];
                               no_internal_transactions;
                               found [token_transfer]; holdings [] ])) _).
  vm_compute. reflexivity.
Defined.

(** The fee of a plain transfer: 21000 units of gas at 20 gwei. *)
Lemma fee_is_exact_up_to_28_digits_witness :
  exists v,
    fee_value (VStr "21000") (VStr "20000000000") = Ok v
    /\ (decimal.to_Q v == inject_Z (21000 * 20000000000) / inject_Z (10 ^ 18))%Q.
Proof.
  exact (fee_is_exact_up_to_28_digits 21000 20000000000
           ltac:(lia) ltac:(lia) ltac:(vm_compute; reflexivity)).
Defined.

(** Decimals that come as the text ["18"]. *)
Lemma asset_decimals_must_be_a_natural_number_witness :
  asset_body 1685622896 "0xab" [] asset_with_text_decimals = Raise TypeError.
Proof.
  exact (asset_decimals_must_be_a_natural_number 1685622896 "0xab" []
           asset_with_text_decimals (VStr "DAI") (VStr "0x6b")
           (VStr "1230000000000000000") (mkDecimal false 1230000000000000000 0)
           (VStr "18") eq_refl eq_refl eq_refl eq_refl eq_refl
           (or_intror (or_introl (ex_intro _ "18" eq_refl)))).
Defined.

(** A timestamp sent as a text. *)
Lemma int_reads_the_text_of_an_integer_witness :
  py_int (VStr "1600000000") = Ok 1600000000%Z.
Proof.
  exact (int_reads_the_text_of_an_integer 1600000000 ltac:(vm_compute; reflexivity)).
Defined.

(** A fee in plain notation and a small value in scientific notation. *)
Lemma Decimal_reads_its_own_text_witness :
  (decimal.__str__ (mkDecimal false 42 (-5)) = "0.00042"
   /\ py_Decimal (VStr "0.00042") = Ok (mkDecimal false 42 (-5)))
  /\ (decimal.__str__ (mkDecimal false 15 (-8)) = "1.5E-7"
      /\ py_Decimal (VStr "1.5E-7") = Ok (mkDecimal false 15 (-8))).
Proof.
  split; (split; [reflexivity|]).
  - exact (proj1 Decimal_reads_its_own_text (mkDecimal false 42 (-5))
             ltac:(vm_compute; discriminate) ltac:(vm_compute; reflexivity)).
  - exact (proj1 Decimal_reads_its_own_text (mkDecimal false 15 (-8))
             ltac:(vm_compute; discriminate) ltac:(vm_compute; reflexivity)).
Defined.

(** One ether and a half. *)
Lemma emitted_values_stay_in_context_witness :
  wei_value (VStr "1500000000000000000") = Ok (mkDecimal false 15 (-1))
  /\ in_context (mkDecimal false 15 (-1)).
Proof.
  split; [vm_compute; reflexivity|].
  exact (proj1 emitted_values_stay_in_context (VStr "1500000000000000000")
           (mkDecimal false 15 (-1)) I
           (ex_intro _ (mkDecimal false 1500000000000000000 0) eq_refl)
           ltac:(vm_compute; reflexivity)).
Defined.

(** A token with a million decimals. *)
Lemma token_decimals_beyond_the_range_witness :
  token_value (VStr "5") (VStr "1000000") = Raise Overflow.
Proof.
  exact (token_decimals_beyond_the_range (VStr "5") (mkDecimal false 5 0) 1000000
           eq_refl ltac:(lia)).
Defined.

(** A paced client that sleeps for five seconds before its request, and the
    wallet client of the network 1. *)
Lemma one_request_per_call_witness :
  (trace (snd (_make_api_request paced "0xab" "txlist" (at_time_100 [found []])))
   = [ Slept 5%float;
       ExplorerGet "https://api.etherscan.io/api"
         [ ("module", "account"); ("action", "txlist"); ("address", "0xab");
           ("sort", "asc"); ("apikey", "KEY") ] ]
   /\ requests (snd (_make_api_request paced "0xab" "txlist" (at_time_100 [found []])))
      = 1%nat)
  /\ (trace (snd (get_asset_balances wallet "0xab" (at_time_100 [found []])))
      = [ WalletGet "1" "0xab" "ckey" ]
      /\ requests (snd (get_asset_balances wallet "0xab" (at_time_100 [found []])))
         = 1%nat).
Proof.
  split.
  - exact (proj1 (one_request_per_call paced wallet "0xab" "txlist"
                    (at_time_100 [found []]))
                 ltac:(vm_compute; reflexivity)).
  - exact (proj2 (one_request_per_call paced wallet "0xab" "txlist"
                    (at_time_100 [found []]))
                 ltac:(vm_compute; reflexivity)).
Defined.

(** One address: the two files hold its three transfers and no balance. *)
Lemma download_saves_what_it_fetched_witness :
  exists txs bals w1,
    fetched (config_api (portfolio ["0xAb"])) (config_wallet_api (portfolio ["0xAb"]))
            (map fst (account_map (portfolio ["0xAb"])))
            (at_start (scripted [ found [outgoing; failed_outgoing];
                                  no_internal_transactions;
                                  found [token_transfer]; holdings [] ]))
            txs bals w1
    /\ snd (download (portfolio ["0xAb"]) "out"
              (scripted [ found [outgoing; failed_outgoing];
                          no_internal_transactions;
                          found [token_transfer]; holdings [] ]))
       = after_saving (portfolio ["0xAb"]) "out" (List.concat txs) (List.concat bals) w1.
Proof.
  apply (proj2 (download_saves_what_it_fetched (portfolio ["0xAb"]) "out"
                  (scripted [ found [outgoing; failed_outgoing];
                              no_internal_transactions;
                              found [token_transfer]; holdings [] ]))).
  apply pair_of_fst. vm_compute; reflexivity.
Defined.
